(** * Metadata enrichment pipeline: request classification, dispatch,
      result merge and metrics.

    A shallow embedding of the TypeScript sources
    ([utils/componentProcessor.ts], [library/enrichment/enrichmentHandler.ts],
    [library/files/fileProcessor.ts], [library/enrichment/enrichmentMetrics.ts],
    [commands/enrich/metadata.ts]) together with the properties the
    specification states about them.

    Conventions.
    - A JavaScript string is a [string] holding the bytes of its UTF-8
      encoding, one byte per character (a string with an unpaired surrogate
      has no such encoding and is not represented).  Splitting at ":",
      searching for "*"
      and comparing with ASCII constants act on the bytes as they act on the
      code units; [trim] strips the encodings of the white space and line
      terminators of ECMAScript; [toLowerCase] changes ASCII letters only,
      which is all that a comparison with an ASCII constant of the sources
      can tell.
    - The content of a file is a [string] of bytes; reading decodes it as
      UTF-8 and writing encodes.
    - [T | null] and optional fields are [option T].
    - A value thrown by JavaScript code is a [JsThrown]; code that can throw
      returns a [result].
    - Objects used as maps are [gmap]; a [Set] of strings is a [gset]; a [Set]
      of objects compares its members by reference and is modelled with
      explicit addresses. *)

From Stdlib Require Import Floats.PrimFloat Ascii String.
From stdpp Require Import gmap strings list fin_maps.

Open Scope string_scope.
Open Scope list_scope.

(* ===================================================================== *)
(** * JavaScript primitives used by the sources                           *)
(* ===================================================================== *)

Module Js.

(** ** Thrown values and the error monad *)

(** What a [catch (error)] clause can receive: an [Error] instance with its
    [message], or any other value, kept as its [String(error)] rendering. *)
Inductive JsThrown :=
| JsError (message : string)
| JsNonError (rendering : string).

(** [error instanceof Error ? error.message : String(error)] *)
Definition errorMessageOf (error : JsThrown) : string :=
  match error with
  | JsError message => message
  | JsNonError rendering => rendering
  end.

Inductive result (A : Type) :=
| Ok (value : A)
| Throw (error : JsThrown).
Arguments Ok {A} value.
Arguments Throw {A} error.

Definition bind {A B} (r : result A) (k : A → result B) : result B :=
  match r with
  | Ok a => k a
  | Throw e => Throw e
  end.

(** [try { body } catch (error) { handler(error) }] *)
Definition try_catch {A} (body : result A) (handler : JsThrown → result A) : result A :=
  match body with
  | Ok a => Ok a
  | Throw e => handler e
  end.

(** ** Truthiness of strings *)

(** A string is truthy iff it is not empty. *)
Definition truthy (s : string) : bool := negb (s =? "").

(** Truthiness of [string | undefined]. *)
Definition truthy_opt (o : option string) : bool :=
  match o with
  | Some s => truthy s
  | None => false
  end.

(** ** String methods *)

Definition newline : Ascii.ascii := Ascii.ascii_of_nat 10.

(** The number a byte stands for, and the string of the bytes numbered. *)
Definition code (c : Ascii.ascii) : N := Ascii.N_of_ascii c.

Definition bytes (codes : list N) : string :=
  foldr (λ n rest, String (Ascii.ascii_of_N n) rest) EmptyString codes.

(** The white space and line terminators of ECMAScript encoded in one byte:
    U+0009 (TAB), U+000A (LF), U+000B (VT), U+000C (FF), U+000D (CR) and
    U+0020 (SPACE). *)
Definition isWhiteSpace (c : Ascii.ascii) : bool :=
  let n := code c in
  ((9 <=? n)%N && (n <=? 13)%N) || (n =? 32)%N.

(** In two bytes: U+00A0 (NO-BREAK SPACE), C2 A0. *)
Definition isWhiteSpace2 (a b : Ascii.ascii) : bool :=
  (code a =? 0xC2)%N && (code b =? 0xA0)%N.

(** In three bytes: U+1680 (E1 9A 80), U+2000 to U+200A (E2 80 80 to
    E2 80 8A), U+2028 and U+2029 (E2 80 A8, E2 80 A9), U+202F (E2 80 AF),
    U+205F (E2 81 9F), U+3000 (E3 80 80) and U+FEFF (EF BB BF). *)
Definition isWhiteSpace3 (a b c : Ascii.ascii) : bool :=
  let '(x, y, z) := (code a, code b, code c) in
  ((x =? 0xE1)%N && (y =? 0x9A)%N && (z =? 0x80)%N)
  || ((x =? 0xE2)%N && (y =? 0x80)%N
      && (((0x80 <=? z)%N && (z <=? 0x8A)%N)
          || (z =? 0xA8)%N || (z =? 0xA9)%N || (z =? 0xAF)%N))
  || ((x =? 0xE2)%N && (y =? 0x81)%N && (z =? 0x9F)%N)
  || ((x =? 0xE3)%N && (y =? 0x80)%N && (z =? 0x80)%N)
  || ((x =? 0xEF)%N && (y =? 0xBB)%N && (z =? 0xBF)%N).

(** [s.trimStart()]: the white space the string begins with is dropped, one
    code point after the other. *)
Fixpoint trimStart (s : string) : string :=
  match s with
  | String a rest1 =>
      if isWhiteSpace a then trimStart rest1
      else match rest1 with
           | String b rest2 =>
               if isWhiteSpace2 a b then trimStart rest2
               else match rest2 with
                    | String c rest3 =>
                        if isWhiteSpace3 a b c then trimStart rest3 else s
                    | EmptyString => s
                    end
           | EmptyString => s
           end
  | EmptyString => EmptyString
  end.

(** The string holds white space only. *)
Definition isBlank (s : string) : bool := trimStart s =? "".

(** [s.trimEnd()]: the string is kept up to the point from which on there is
    white space only. *)
Fixpoint trimEnd (s : string) : string :=
  match s with
  | String c rest => if isBlank s then "" else String c (trimEnd rest)
  | EmptyString => EmptyString
  end.

(** [s.trim()] *)
Definition trim (s : string) : string := trimEnd (trimStart s).

(** [s.split(sep)] for a one-character separator: never empty. *)
Fixpoint split (sep : Ascii.ascii) (s : string) : list string :=
  match s with
  | EmptyString => [""]
  | String c rest =>
      if Ascii.eqb c sep then "" :: split sep rest
      else match split sep rest with
           | head :: tail => String c head :: tail
           | [] => [String c ""]
           end
  end.

(** [parts.join(sep)] *)
Definition join (sep : string) (parts : list string) : string :=
  String.concat sep parts.

(** [s.includes(sub)] *)
Fixpoint includes (s sub : string) : bool :=
  String.prefix sub s ||
  match s with
  | String _ rest => includes rest sub
  | EmptyString => false
  end.

(** [s.endsWith(suffix)] *)
Definition endsWith (s suffix : string) : bool :=
  (String.length suffix <=? String.length s)%nat &&
  (String.substring (String.length s - String.length suffix)
                    (String.length suffix) s =? suffix).

Definition lowerAscii (c : Ascii.ascii) : Ascii.ascii :=
  let n := Ascii.nat_of_ascii c in
  if (65 <=? n)%nat && (n <=? 90)%nat then Ascii.ascii_of_nat (n + 32) else c.

(** [s.toLowerCase()], as far as the sources can tell: they compare the
    result with "true" and with the keys of [MIME_TYPES], and no letter of
    these is the lower case of a letter outside ASCII. *)
Fixpoint toLowerCase (s : string) : string :=
  match s with
  | String c rest => String (lowerAscii c) (toLowerCase rest)
  | EmptyString => EmptyString
  end.

Fixpoint newlines (n : nat) : string :=
  match n with
  | O => ""
  | S n' => String newline (newlines n')
  end.

(** [s.replace(/\n{3,}/g, '\n\n')]: scanning left to right, [run] counts the
    line feeds of the current run; a run of three or more is emitted as two. *)
Fixpoint collapseBlankLines_from (run : nat) (s : string) : string :=
  match s with
  | EmptyString => newlines (run `min` 2)
  | String c rest =>
      if Ascii.eqb c newline then collapseBlankLines_from (S run) rest
      else newlines (run `min` 2) +:+ String c (collapseBlankLines_from 0 rest)
  end.

Definition collapseBlankLines (s : string) : string := collapseBlankLines_from 0 s.

(** ** Decoding and encoding UTF-8 *)

Module Utf8.

(** U+FFFD, which the decoder puts for what is not UTF-8. *)
Definition replacement : string := bytes [0xEF; 0xBF; 0xBD]%N.

(** The decoder of [buffer.toString('utf-8')]: the bytes of the code point
    under way, the number of bytes it still needs, the bounds on the next
    byte, and the text decoded so far. *)
Record Decoder := mkDecoder {
  pending : string;
  needed : nat;
  lower : N;
  upper : N;
  output : string;
}.

Definition idle (output : string) : Decoder :=
  {| pending := ""; needed := 0; lower := 0x80; upper := 0xBF; output := output |}.

(** A byte met when no code point is under way. *)
Definition start (output : string) (b : Ascii.ascii) : Decoder :=
  let n := code b in
  if (n <=? 0x7F)%N then idle (output +:+ String b "")
  else if (0xC2 <=? n)%N && (n <=? 0xDF)%N then
    {| pending := String b ""; needed := 1; lower := 0x80; upper := 0xBF;
       output := output |}
  else if (0xE0 <=? n)%N && (n <=? 0xEF)%N then
    {| pending := String b ""; needed := 2;
       lower := if (n =? 0xE0)%N then 0xA0 else 0x80;
       upper := if (n =? 0xED)%N then 0x9F else 0xBF;
       output := output |}
  else if (0xF0 <=? n)%N && (n <=? 0xF4)%N then
    {| pending := String b ""; needed := 3;
       lower := if (n =? 0xF0)%N then 0x90 else 0x80;
       upper := if (n =? 0xF4)%N then 0x8F else 0xBF;
       output := output |}
  else idle (output +:+ replacement).

(** One byte more.  A byte that cannot continue the code point under way
    ends it with U+FFFD and is looked at afresh. *)
Definition step (decoder : Decoder) (b : Ascii.ascii) : Decoder :=
  match needed decoder with
  | O => start (output decoder) b
  | S more =>
      let n := code b in
      if (lower decoder <=? n)%N && (n <=? upper decoder)%N then
        match more with
        | O => idle (output decoder +:+ pending decoder +:+ String b "")
        | S _ =>
            {| pending := pending decoder +:+ String b ""; needed := more;
               lower := 0x80; upper := 0xBF; output := output decoder |}
        end
      else start (output decoder +:+ replacement) b
  end.

Fixpoint feed (decoder : Decoder) (data : string) : Decoder :=
  match data with
  | String b rest => feed (step decoder b) rest
  | EmptyString => decoder
  end.

(** [buffer.toString('utf-8')]: the text the bytes decode to, itself held
    as UTF-8.  Bytes that are well-formed UTF-8 decode to themselves; every
    other byte sequence comes out with U+FFFD in it. *)
Definition decode (data : string) : string :=
  let decoder := feed (idle "") data in
  match needed decoder with
  | O => output decoder
  | S _ => output decoder +:+ replacement
  end.

(** [Buffer.from(text, 'utf-8')]: the bytes of a text are the bytes that
    hold it. *)
Definition encode (text : string) : string := text.

End Utf8.

(** ** Plain objects used as maps *)

(** [object[key] = value] on an object literal whose own properties are
    [object], for a value that is an object.  The key [__proto__] names the
    accessor inherited from [Object.prototype]: assigning under it changes
    the prototype and adds no own property. *)
Definition setProperty {A} (object : gmap string A) (key : string) (value : A)
    : gmap string A :=
  if key =? "__proto__" then object else <[key := value]> object.

(** ** Promise.allSettled *)

Inductive PromiseSettledResult (A : Type) :=
| Fulfilled (value : A)
| Rejected (reason : JsThrown).
Arguments Fulfilled {A} value.
Arguments Rejected {A} reason.

(** The settled state of a promise that runs to [r]. *)
Definition settle {A} (r : result A) : PromiseSettledResult A :=
  match r with
  | Ok a => Fulfilled a
  | Throw e => Rejected e
  end.

(** The capability record of [Promise.allSettled]: one slot of [values] per
    input promise and the count of promises still pending. *)
Record AllSettledState (A : Type) := mkAllSettledState {
  values : list (option (PromiseSettledResult A));
  remainingElementsCount : nat;
}.
Arguments mkAllSettledState {A} values remainingElementsCount.
Arguments values {A} _.
Arguments remainingElementsCount {A} _.

(** The reaction run when promise number [index] settles: store its outcome
    in slot [index], count one promise less. *)
Definition onSettled {A} (promises : list (result A)) (index : nat)
    (st : AllSettledState A) : AllSettledState A :=
  match promises !! index with
  | Some r =>
      mkAllSettledState (<[index := Some (settle r)]> (values st))
                        (remainingElementsCount st - 1)
  | None => st
  end.

(** [await Promise.allSettled(promises)] when the promises settle in the order
    [completion] (a list of indices).  The await resumes, with [values], once
    the count of pending promises is zero; [None] when it never resumes. *)
Definition allSettled {A} (promises : list (result A)) (completion : list nat)
    : option (list (PromiseSettledResult A)) :=
  let initial := mkAllSettledState (replicate (length promises) None) (length promises) in
  let final := foldl (λ st index, onSettled promises index st) initial completion in
  if (remainingElementsCount final =? 0)%nat then mapM id (values final) else None.

End Js.

Import Js.

#[global] Instance result_ret : MRet result := λ A a, Ok a.
#[global] Instance result_bind : MBind result := λ A B k r, Js.bind r k.


(* ===================================================================== *)
(** * Data model                                                          *)
(* ===================================================================== *)

(** ** Collaborator types ([source-deploy-retrieve]) *)

(** [MetadataType]: only [name] is read. *)
Record MetadataType := mkMetadataType { type_name : string }.

(** [SourceComponent] as the pipeline reads it: [fullName ?? name], [type],
    the path [xml] of the support file, and the paths [walkContent()]
    enumerates. *)
Record SourceComponent := mkSourceComponent {
  fullName : option string;
  name : option string;
  type : option MetadataType;
  xml : option string;
  walkContent : list string;
}.

(** [component.fullName ?? component.name] *)
Definition componentNameOf (component : SourceComponent) : option string :=
  match fullName component with
  | Some n => Some n
  | None => name component
  end.

(** [sourceComponent.type?.name] *)
Definition typeNameOf (component : SourceComponent) : option string :=
  type_name <$> type component.

(** ** [library/common/types] *)

(** Modelled from the spec: the declaration of [MetadataTypeAndMetadataName]
    ([library/common/types.ts]) is not among the sources; the spec's
    RequestedIdentifier [{ kind, name | wildcard-marker }], with the two
    fields [type] and [componentName] that [parseMetadataEntry] writes. *)
Record MetadataTypeAndMetadataName := mkRequested {
  requested_type : string;
  requested_componentName : option string;
}.

(** Modelled from the spec: the declaration of [ComponentEnrichmentStatus]
    ([library/common/types.ts]) is not among the sources; the spec's
    SkipRecord / ComponentStatus [{ kind, name-or-none, reason }], with the
    three fields [type], [componentName] and [message] the sources write. *)
Record ComponentEnrichmentStatus := mkStatus {
  status_type : string;
  status_componentName : option string;
  status_message : option string;
}.

#[global] Instance MetadataType_eq_dec : EqDecision MetadataType.
Proof. solve_decision. Defined.
#[global] Instance Requested_eq_dec : EqDecision MetadataTypeAndMetadataName.
Proof. solve_decision. Defined.
#[global] Instance Status_eq_dec : EqDecision ComponentEnrichmentStatus.
Proof. solve_decision. Defined.

(** ** Objects with identity *)

(** An object allocated at address [addr].  A JavaScript [Set] holding objects
    compares them by reference, and iterates in insertion order. *)
Record Ref (A : Type) := mkRef { addr : nat; deref : A }.
Arguments mkRef {A} addr deref.
Arguments addr {A} _.
Arguments deref {A} _.

Module ObjectSet.
Definition t (A : Type) := list (Ref A).

Definition has {A} (s : t A) (x : Ref A) : bool :=
  existsb (λ y, (addr y =? addr x)%nat) s.

(** [s.add(x)] *)
Definition add {A} (x : Ref A) (s : t A) : t A :=
  if has s x then s else s ++ [x].
End ObjectSet.

(* ===================================================================== *)
(** * Request classifier ([utils/componentProcessor.ts])                  *)
(* ===================================================================== *)

Module ComponentProcessor.
Section WithRegistry.

(** [new RegistryAccess(undefined, projectDir).getTypeByName(name)]: the
    registry of the collaborator; it throws on an unknown type name. *)
Variable getTypeByName : option string → string → result MetadataType.

Definition LightningComponentBundle : string := "LightningComponentBundle".

Definition parseMetadataEntry (rawEntry : string) (projectDir : option string)
    : option MetadataTypeAndMetadataName :=
  let attempt : result MetadataTypeAndMetadataName :=
    match split ":"%char rawEntry with
    | typeName :: nameParts =>
        type ← getTypeByName projectDir (trim typeName);
        let metadataName :=
          if (0 <? length nameParts)%nat then trim (join ":" nameParts) else "*" in
        mret {| requested_type := type_name type;
                requested_componentName :=
                  if metadataName =? "*" then None else Some metadataName |}
    | [] => Throw (JsError "Cannot read properties of undefined (reading 'trim')")
    end in
  match attempt with
  | Ok parsed => Some parsed
  | Throw _ => None
  end.

(** The loop of [parseRequestedComponents]; every [parsed] is a fresh object
    literal, allocated at the next free address [heap]. *)
Fixpoint parseRequestedComponents_loop (metadataEntries : list string)
    (projectDir : option string) (heap : nat)
    (requestedComponents : ObjectSet.t MetadataTypeAndMetadataName)
    : ObjectSet.t MetadataTypeAndMetadataName :=
  match metadataEntries with
  | [] => requestedComponents
  | entry :: rest =>
      match parseMetadataEntry entry projectDir with
      | None => parseRequestedComponents_loop rest projectDir heap requestedComponents
      | Some value =>
          let parsed := mkRef heap value in
          (* Ignore wildcarded component names *)
          if match requested_componentName value with
             | Some n => truthy n && includes n "*"
             | None => false
             end
          then parseRequestedComponents_loop rest projectDir (S heap) requestedComponents
          else parseRequestedComponents_loop rest projectDir (S heap)
                 (ObjectSet.add parsed requestedComponents)
      end
  end.

Definition parseRequestedComponents (metadataEntries : list string)
    (projectDir : option string) : ObjectSet.t MetadataTypeAndMetadataName :=
  parseRequestedComponents_loop metadataEntries projectDir 0 [].

Definition getExistingSourceComponentNames (sourceComponents : list SourceComponent)
    : gset string :=
  foldl (λ (existing : gset string) component,
           match componentNameOf component with
           | Some componentName =>
               if truthy componentName then {[componentName]} ∪ existing else existing
           | None => existing
           end) ∅ sourceComponents.

Definition createSourceComponentMap (sourceComponents : list SourceComponent)
    : gmap string SourceComponent :=
  foldl (λ (componentMap : gmap string SourceComponent) component,
           match componentNameOf component with
           | Some componentName =>
               if truthy componentName then <[componentName := component]> componentMap
               else componentMap
           | None => componentMap
           end) ∅ sourceComponents.

(** [{ ...requestedComponent, message }] *)
Definition withMessage (requestedComponent : MetadataTypeAndMetadataName)
    (message : string) : ComponentEnrichmentStatus :=
  {| status_type := requested_type requestedComponent;
     status_componentName := requested_componentName requestedComponent;
     status_message := Some message |}.

Definition diffRequestedComponents (sourceComponents : list SourceComponent)
    (requestedComponents : ObjectSet.t MetadataTypeAndMetadataName)
    : list ComponentEnrichmentStatus :=
  let existingSourceComponentNames := getExistingSourceComponentNames sourceComponents in
  foldl (λ missingComponents requestedComponent,
           match requested_componentName (deref requestedComponent) with
           | Some n =>
               if truthy n && negb (bool_decide (n ∈ existingSourceComponentNames))
               then missingComponents ++
                      [withMessage (deref requestedComponent) "Not found in source project"]
               else missingComponents
           | None => missingComponents
           end) [] requestedComponents.

Definition filterComponents (sourceComponents : list SourceComponent)
    (requestedComponents : ObjectSet.t MetadataTypeAndMetadataName)
    : list ComponentEnrichmentStatus :=
  let sourceComponentMap := createSourceComponentMap sourceComponents in
  foldl (λ filteredComponents requestedComponent,
           let sourceComponent :=
             match requested_componentName (deref requestedComponent) with
             | Some n => if truthy n then sourceComponentMap !! n else None
             | None => None
             end in
           match sourceComponent with
           | None => filteredComponents
           | Some sourceComponent =>
               (* Filter out non-LWC components *)
               let filteredComponents :=
                 if bool_decide (typeNameOf sourceComponent ≠ Some LightningComponentBundle)
                 then filteredComponents ++
                        [withMessage (deref requestedComponent)
                           "Only Lightning Web Components are currently supported for enrichment"]
                 else filteredComponents in
               (* Filter out LWC components that are missing the metadata xml file *)
               if bool_decide (typeNameOf sourceComponent = Some LightningComponentBundle)
                  && negb (truthy_opt (xml sourceComponent))
               then filteredComponents ++
                      [withMessage (deref requestedComponent)
                         "Lightning Web Component configuration file does not exist (*.js-meta.xml)"]
               else filteredComponents
           end) [] requestedComponents.

Definition getComponentsToSkip (sourceComponents : list SourceComponent)
    (metadataEntries : list string) (projectDir : option string)
    : list ComponentEnrichmentStatus :=
  let requestedComponents := parseRequestedComponents metadataEntries projectDir in
  let missingComponents := diffRequestedComponents sourceComponents requestedComponents in
  let filteredComponents := filterComponents sourceComponents requestedComponents in
  missingComponents ++ filteredComponents.

End WithRegistry.
End ComponentProcessor.

(* ===================================================================== *)
(** * Collaborators: [node:path], [node:fs/promises], the connection      *)
(* ===================================================================== *)

(** [basename] and [extname] of [node:path]. *)
Class NodePath := {
  basename : string → string;
  extname : string → string;
}.

(** The local files.  [files] maps a path to the bytes of the file; a path
    in [readOnly] cannot be written. *)
Module Fs.
Record FileSystem := mkFileSystem {
  files : gmap string string;
  readOnly : gset string;
}.

(** [await readFile(path, 'utf-8')] *)
Definition readFile (fs : FileSystem) (path : string) : result string :=
  match files fs !! path with
  | Some data => Ok (Utf8.decode data)
  | None => Throw (JsError ("ENOENT: no such file or directory, open '" +:+ path +:+ "'"))
  end.

(** [await writeFile(path, data, 'utf-8')] *)
Definition writeFile (fs : FileSystem) (path data : string) : result FileSystem :=
  if bool_decide (path ∈ readOnly fs)
  then Throw (JsError ("EACCES: permission denied, open '" +:+ path +:+ "'"))
  else Ok {| files := <[path := Utf8.encode data]> (files fs); readOnly := readOnly fs |}.
End Fs.

(* ===================================================================== *)
(** * Enrichment types and constants ([library/enrichment])               *)
(* ===================================================================== *)

Definition ENDPOINT_ENRICHMENT : string :=
  "/services/data/v66.0/metadata-intelligence/enrichments/on-demand".

Definition MIME_TYPES : gmap string string :=
  list_to_map [ (".js", "application/javascript");
                (".html", "text/html");
                (".css", "text/css");
                (".xml", "application/xml");
                (".svg", "image/svg+xml") ].

(** [encoding: 'PlainText'] is a constant of the type and is left out. *)
Record ContentBundleFile := mkContentBundleFile {
  filename : string;
  bundle_mimeType : string;
  content : string;
}.

Record ContentBundle := mkContentBundle {
  resourceName : string;
  bundle_files : gmap string ContentBundleFile;
}.

(** [metadataType: 'Generic'] and [maxTokens: 250] are constants of the type. *)
Record EnrichmentRequestBody := mkEnrichmentRequestBody {
  contentBundles : list ContentBundle;
}.

Record EnrichmentMetadata := mkEnrichmentMetadata {
  durationMs : float;
  failureCount : float;
  successCount : float;
  timestamp : string;
}.

Record EnrichmentResult := mkEnrichmentResult {
  resourceId : string;
  result_resourceName : string;
  metadataType : string;
  modelUsed : string;
  description : string;
  descriptionScore : float;
}.

Record EnrichMetadataResult := mkEnrichMetadataResult {
  metadata : EnrichmentMetadata;
  results : list EnrichmentResult;
}.

Record EnrichmentRequestRecord := mkEnrichmentRequestRecord {
  componentName : string;
  componentType : option MetadataType;
  requestBody : EnrichmentRequestBody;
  response : option EnrichMetadataResult;
  message : option string;
}.

(** [{ ...record, response }] *)
Definition withResponse (record : EnrichmentRequestRecord)
    (response : option EnrichMetadataResult) : EnrichmentRequestRecord :=
  {| componentName := componentName record;
     componentType := componentType record;
     requestBody := requestBody record;
     response := response;
     message := message record |}.

(** [record.message = message] *)
Definition setMessage (record : EnrichmentRequestRecord)
    (message : option string) : EnrichmentRequestRecord :=
  {| componentName := componentName record;
     componentType := componentType record;
     requestBody := requestBody record;
     response := response record;
     message := message |}.

(** The authenticated connection: [requestPost(url, body)] resolves with the
    parsed response or rejects. *)
Record Connection := mkConnection {
  requestPost : string → EnrichmentRequestBody → result EnrichMetadataResult;
}.

Record FileReadResult := mkFileReadResult {
  file_componentName : string;
  filePath : string;
  fileContents : string;
  mimeType : string;
}.

(** [MIME_TYPES[ext] || 'application/octet-stream'] *)
Definition getMimeTypeFromExtension {path : NodePath} (filePath : string) : string :=
  let ext := toLowerCase (extname filePath) in
  match MIME_TYPES !! ext with
  | Some mime => if truthy mime then mime else "application/octet-stream"
  | None => "application/octet-stream"
  end.

(* ===================================================================== *)
(** * Reading files ([library/files/fileProcessor.ts])                    *)
(* ===================================================================== *)

Module FileReader.
Section WithPath.
Context {path : NodePath}.

Definition readFileMetadata (fs : Fs.FileSystem) (componentName filePath : string)
    : option FileReadResult :=
  match
    try_catch
      (fileContents ← Fs.readFile fs filePath;
       let mimeType := getMimeTypeFromExtension filePath in
       mret (Some {| file_componentName := componentName;
                     filePath := filePath;
                     fileContents := fileContents;
                     mimeType := mimeType |}))
      (λ _, mret None)
  with
  | Ok fileResult => fileResult
  | Throw _ => None
  end.

(** [fileResults.filter((result) => result !== null)] *)
Definition dropNull {A} (fileResults : list (option A)) : list A :=
  omap id fileResults.

Definition readComponentFiles (fs : Fs.FileSystem) (component : SourceComponent)
    : list FileReadResult :=
  match componentNameOf component with
  | Some componentName =>
      if truthy componentName then
        let filePaths := walkContent component in
        let fileResults := map (λ filePath, readFileMetadata fs componentName filePath) filePaths in
        dropNull fileResults
      else []
  | None => []
  end.

(** Assumption - usages of this function are all for LWC *)
Definition readComponentXmlFilesInParallel (fs : Fs.FileSystem)
    (sourceComponents : list SourceComponent) : list FileReadResult :=
  let fileReadPromises :=
    foldl (λ fileReadPromises component,
             match componentNameOf component, xml component with
             | Some componentName, Some xmlPath =>
                 if truthy componentName && truthy xmlPath
                 then fileReadPromises ++ [readFileMetadata fs componentName xmlPath]
                 else fileReadPromises
             | _, _ => fileReadPromises
             end) [] sourceComponents in
  dropNull fileReadPromises.

Definition isMetaXmlFile (filePath : string) : bool :=
  let fileName := basename filePath in
  endsWith fileName ".js-meta.xml".

End WithPath.
End FileReader.

(* ===================================================================== *)
(** * Dispatcher ([library/enrichment/enrichmentHandler.ts])              *)
(* ===================================================================== *)

Module EnrichmentHandler.
Section WithPath.
Context {path : NodePath}.

Definition createContentBundleFile (file : FileReadResult) : ContentBundleFile :=
  {| filename := basename (filePath file);
     bundle_mimeType := mimeType file;
     content := fileContents file |}.

Definition createContentBundle (componentName : string) (files : list FileReadResult)
    : ContentBundle :=
  let contentBundleFiles :=
    foldl (λ (contentBundleFiles : gmap string ContentBundleFile) file,
             let contentBundleFile := createContentBundleFile file in
             setProperty contentBundleFiles (filename contentBundleFile) contentBundleFile)
          ∅ files in
  {| resourceName := componentName; bundle_files := contentBundleFiles |}.

Definition createEnrichmentRequestBody (contentBundle : ContentBundle)
    : EnrichmentRequestBody :=
  {| contentBundles := [contentBundle] |}.

Definition createEnrichmentRequestRecords (fs : Fs.FileSystem)
    (components : list SourceComponent) : list EnrichmentRequestRecord :=
  let recordPromises :=
    map (λ component,
           match componentNameOf component with
           | Some componentName =>
               if truthy componentName then
                 let files := FileReader.readComponentFiles fs component in
                 if (length files =? 0)%nat then None
                 else
                   let contentBundle := createContentBundle componentName files in
                   let requestBody := createEnrichmentRequestBody contentBundle in
                   Some {| componentName := componentName;
                           componentType := type component;
                           requestBody := requestBody;
                           response := None;
                           message := None |}
               else None
           | None => None
           end) components in
  FileReader.dropNull recordPromises.

Definition sendEnrichmentRequest (connection : Connection)
    (record : EnrichmentRequestRecord) : result EnrichmentRequestRecord :=
  try_catch
    (response ← requestPost connection ENDPOINT_ENRICHMENT (requestBody record);
     mret (withResponse record (Some response)))
    (λ error,
       let errorMessage := errorMessageOf error in
       Throw (JsError ("Error sending request for component " +:+ componentName record
                         +:+ ": " +:+ errorMessage))).

(** [requestResults.map((result, index) => ...)]; [records[index]] is read
    for a rejected request, and the mapped value is a record only if that
    slot exists. *)
Definition collectResult (records : list EnrichmentRequestRecord) (index : nat)
    (result : PromiseSettledResult EnrichmentRequestRecord)
    : option EnrichmentRequestRecord :=
  match result with
  | Fulfilled value => Some value
  | Rejected reason =>
      let errorMessage := errorMessageOf reason in
      record ← records !! index;
      Some (setMessage (withResponse record None) (Some errorMessage))
  end.

(** The requests are issued in input order and complete in the order
    [completion]. *)
Definition sendEnrichmentRequests (connection : Connection)
    (records : list EnrichmentRequestRecord) (completion : list nat)
    : option (list EnrichmentRequestRecord) :=
  let requestPromises := map (λ record, sendEnrichmentRequest connection record) records in
  requestResults ← allSettled requestPromises completion;
  mapM id (imap (collectResult records) requestResults).

Definition enrich (fs : Fs.FileSystem) (connection : Connection)
    (sourceComponents : list SourceComponent) (completion : list nat)
    : option (list EnrichmentRequestRecord) :=
  let records := createEnrichmentRequestRecords fs sourceComponents in
  sendEnrichmentRequests connection records completion.

End WithPath.
End EnrichmentHandler.

(* ===================================================================== *)
(** * Result merger ([library/files/fileProcessor.ts])                    *)
(* ===================================================================== *)

(** What [XMLParser.parse] produces and [XMLBuilder.build] consumes: strings,
    numbers, booleans, arrays (which, being objects, can carry named
    properties next to their items) and objects with their properties in
    insertion order. *)
#[warnings="-register-all"]
Inductive XmlValue :=
| XString (s : string)
| XNumber (n : float)
| XBool (b : bool)
| XArray (items : list XmlValue) (named : list (string * XmlValue))
| XObject (props : list (string * XmlValue)).

Definition XmlDocument := list (string * XmlValue).

(** [fast-xml-parser], configured as in [updateMetaXml]. *)
Class XmlLibrary := {
  parse : string → result XmlDocument;
  build : XmlDocument → result string;
}.

(** [String(n)] for a number. *)
Class NumberFormat := {
  numberToString : float → string;
}.

Module Xml.

(** [props[key]] *)
Fixpoint lookup (props : list (string * XmlValue)) (key : string) : option XmlValue :=
  match props with
  | [] => None
  | (k, v) :: rest => if k =? key then Some v else lookup rest key
  end.

(** [props[key] = value]: an existing property keeps its place. *)
Fixpoint assign (props : list (string * XmlValue)) (key : string) (value : XmlValue)
    : list (string * XmlValue) :=
  match props with
  | [] => [(key, value)]
  | (k, v) :: rest =>
      if k =? key then (k, value) :: rest else (k, v) :: assign rest key value
  end.

(** [value.ai] and [value.skipUplift]: a property read on a value that is
    neither null nor undefined; primitives have no such property. *)
Definition getProperty (value : XmlValue) (key : string) : option XmlValue :=
  match value with
  | XObject props => lookup props key
  | XArray _ named => lookup named key
  | XString _ | XNumber _ | XBool _ => None
  end.

(** [value?.key] *)
Definition optionalChain (value : option XmlValue) (key : string) : option XmlValue :=
  match value with
  | Some v => getProperty v key
  | None => None
  end.

Definition isTruthy (value : option XmlValue) : bool :=
  match value with
  | None => false
  | Some (XString s) => truthy s
  | Some (XNumber n) => negb (PrimFloat.eqb n 0%float) && PrimFloat.eqb n n
  | Some (XBool b) => b
  | Some (XArray _ _) | Some (XObject _) => true
  end.

(** [value === true] *)
Definition isTrue (value : option XmlValue) : bool :=
  match value with
  | Some (XBool true) => true
  | _ => false
  end.

Definition typeof (value : XmlValue) : string :=
  match value with
  | XString _ => "string"
  | XNumber _ => "number"
  | XBool _ => "boolean"
  | XArray _ _ | XObject _ => "object"
  end.

Section WithNumberFormat.
Context {numberFormat : NumberFormat}.

(** [String(value)] *)
Fixpoint toString (value : XmlValue) : string :=
  match value with
  | XString s => s
  | XNumber n => numberToString n
  | XBool true => "true"
  | XBool false => "false"
  | XArray items _ => join "," (map toString items)
  | XObject _ => "[object Object]"
  end.

(** [String(value)] for a possibly undefined value. *)
Definition toStringOpt (value : option XmlValue) : string :=
  match value with
  | Some v => toString v
  | None => "undefined"
  end.

(** [target.key = value] in strict mode: it throws a [TypeError] when
    [target] is a primitive. *)
Definition assignProperty (target : XmlValue) (key : string) (value : XmlValue)
    : result XmlValue :=
  match target with
  | XObject props => Ok (XObject (assign props key value))
  | XArray items named => Ok (XArray items (assign named key value))
  | XString _ | XNumber _ | XBool _ =>
      Throw (JsError ("Cannot create property '" +:+ key +:+ "' on " +:+ typeof target
                        +:+ " '" +:+ toString target +:+ "'"))
  end.

End WithNumberFormat.
End Xml.

Module FileProcessor.
Section WithCollaborators.
Context {path : NodePath} {xmlLibrary : XmlLibrary} {numberFormat : NumberFormat}.

Definition LightningComponentBundle : string := "LightningComponentBundle".

Definition updateMetaXml (xmlContent : string) (enrichmentResult : EnrichmentResult)
    : result string :=
  try_catch
    (xmlObj ← parse xmlContent;
     let ai := Xml.optionalChain (Xml.lookup xmlObj LightningComponentBundle) "ai" in
     (* Do not update if skipUplift is set to true *)
     let skipUpliftValue := Xml.optionalChain ai "skipUplift" in
     if Xml.isTrue skipUpliftValue
        || (toLowerCase (Xml.toStringOpt skipUpliftValue) =? "true")
     then mret xmlContent
     else
       let xmlObj :=
         if negb (Xml.isTruthy (Xml.lookup xmlObj LightningComponentBundle))
         then Xml.assign xmlObj LightningComponentBundle (XObject [])
         else xmlObj in
       bundle ← match Xml.lookup xmlObj LightningComponentBundle with
                | Some bundle =>
                    Xml.assignProperty bundle "ai"
                      (XObject [ ("skipUplift", XString "false");
                                 ("description", XString (description enrichmentResult));
                                 ("score", XString (numberToString (descriptionScore enrichmentResult))) ])
                | None => Throw (JsError "Cannot set properties of undefined (setting 'ai')")
                end;
       let xmlObj := Xml.assign xmlObj LightningComponentBundle bundle in
       builtXml ← build xmlObj;
       mret (collapseBlankLines (trim builtXml)))
    (λ error, Throw (JsError ("Failed to parse XML: " +:+ errorMessageOf error))).

(** The [for (const file of fileContents)] loop of [updateMetadataFiles].
    [enrichmentRecords.find] returns the first record of that name, and the
    [catch] clause assigns to that object, which sits in the array. *)
Fixpoint updateMetadataFiles_loop (files : list FileReadResult)
    (enrichmentRecords : list EnrichmentRequestRecord) (fs : Fs.FileSystem)
    : result (list EnrichmentRequestRecord * Fs.FileSystem) :=
  match files with
  | [] => mret (enrichmentRecords, fs)
  | file :: rest =>
      if negb (FileReader.isMetaXmlFile (filePath file))
      then updateMetadataFiles_loop rest enrichmentRecords fs
      else
        match list_find (λ record, componentName record = file_componentName file)
                        enrichmentRecords with
        | None => updateMetadataFiles_loop rest enrichmentRecords fs
        | Some (index, enrichmentRecord) =>
            match response enrichmentRecord with
            | None => updateMetadataFiles_loop rest enrichmentRecords fs
            | Some response =>
                match results response with
                | [] => updateMetadataFiles_loop rest enrichmentRecords fs
                | enrichmentResult :: _ =>
                    state ← try_catch
                      (updatedXml ← updateMetaXml (fileContents file) enrichmentResult;
                       fs' ← Fs.writeFile fs (filePath file) updatedXml;
                       mret (enrichmentRecords, fs'))
                      (λ error,
                         let errorMessage := errorMessageOf error in
                         mret (<[index := setMessage enrichmentRecord (Some errorMessage)]>
                                 enrichmentRecords, fs));
                    updateMetadataFiles_loop rest state.1 state.2
                end
            end
        end
  end.

Definition updateMetadataFiles (fs : Fs.FileSystem)
    (sourceComponents : list SourceComponent)
    (enrichmentRecords : list EnrichmentRequestRecord)
    : result (list EnrichmentRequestRecord * Fs.FileSystem) :=
  let fileContents := FileReader.readComponentXmlFilesInParallel fs sourceComponents in
  updateMetadataFiles_loop fileContents enrichmentRecords fs.

End WithCollaborators.
End FileProcessor.

(* ===================================================================== *)
(** * Metrics ([library/enrichment/enrichmentMetrics.ts])                 *)
(* ===================================================================== *)

Module EnrichmentMetrics.

Record Bucket := mkBucket {
  count : nat;
  components : list ComponentEnrichmentStatus;
}.

Record t := mkMetrics {
  success : Bucket;
  fail : Bucket;
  skipped : Bucket;
  total : nat;
}.

(** [new EnrichmentMetrics()] *)
Definition new : t :=
  {| success := {| count := 0; components := [] |};
     fail := {| count := 0; components := [] |};
     skipped := {| count := 0; components := [] |};
     total := 0 |}.

(** [bucket.components.push(component); bucket.count++] *)
Definition push (bucket : Bucket) (component : ComponentEnrichmentStatus) : Bucket :=
  {| count := count bucket + 1; components := components bucket ++ [component] |}.

Definition addSuccessComponent (metrics : t) (component : ComponentEnrichmentStatus) : t :=
  {| success := push (success metrics) component;
     fail := fail metrics;
     skipped := skipped metrics;
     total := total metrics + 1 |}.

Definition addFailComponent (metrics : t) (component : ComponentEnrichmentStatus) : t :=
  {| success := success metrics;
     fail := push (fail metrics) component;
     skipped := skipped metrics;
     total := total metrics + 1 |}.

Definition addSkippedComponent (metrics : t) (component : ComponentEnrichmentStatus) : t :=
  {| success := success metrics;
     fail := fail metrics;
     skipped := push (skipped metrics) component;
     total := total metrics + 1 |}.

(** The [ComponentEnrichmentStatus] built for one record. *)
Definition componentStatus (record : EnrichmentRequestRecord) : ComponentEnrichmentStatus :=
  let componentName := componentName record in
  let metadataType :=
    match componentType record with
    | Some componentType => type_name componentType
    | None =>
        match response record with
        | Some response =>
            match results response with
            | first :: _ => metadataType first
            | [] => ""
            end
        | None => ""
        end
    end in
  {| status_type := metadataType;
     status_componentName := Some componentName;
     status_message :=
       Some (match message record with
             | Some message => message
             | None => if response record is Some _ then "" else "Enrichment request failed"
             end) |}.

(** The body of [for (const record of enrichmentResults)]. *)
Definition addRecord (metrics : t) (record : EnrichmentRequestRecord) : t :=
  let component := componentStatus record in
  if response record is Some _
  then addSuccessComponent metrics component
  else addFailComponent metrics component.

Definition createEnrichmentMetrics (enrichmentResults : list EnrichmentRequestRecord)
    (skippedComponents : list ComponentEnrichmentStatus) : t :=
  let metrics := new in
  let metrics := foldl addRecord metrics enrichmentResults in
  let metrics := foldl addSkippedComponent metrics skippedComponents in
  metrics.

End EnrichmentMetrics.

(* ===================================================================== *)
(** * The command ([commands/enrich/metadata.ts])                         *)
(* ===================================================================== *)

Module EnrichMetadata.

(** The org of the [target-org] flag; [org.getConnection()] can throw. *)
Record Org := mkOrg {
  getConnection : result Connection;
}.

(** The flags of the command as [this.parse(EnrichMetadata)] returns them. *)
Record Flags := mkFlags {
  target_org : Org;
  flag_metadata : list string;
}.

(** What [run] calls outside this repository, each of which can throw:
    [SfProject.resolve()] with [project.getPath()], [this.parse], the
    component-set builder ([ComponentSetBuilder.build] for the entries and the
    directory paths, then [getSourceComponents().toArray()]) and
    [LogFormatter.logMetrics].  The spinner writes to the terminal only and
    is left out. *)
Record Command := mkCommand {
  resolveProject : result string;
  parseFlags : result Flags;
  buildComponentSet : list string → list string → result (list SourceComponent);
  logMetrics : EnrichmentMetrics.t → result unit;
}.

Section WithCollaborators.
Context {path : NodePath} {xmlLibrary : XmlLibrary} {numberFormat : NumberFormat}.
Variable getTypeByName : option string → string → result MetadataType.

Definition componentsToProcess (sourceComponents : list SourceComponent)
    (componentsToSkip : list ComponentEnrichmentStatus) : list SourceComponent :=
  List.filter
    (λ component,
       match componentNameOf component with
       | Some componentName =>
           truthy componentName
           && negb (existsb (λ skip, bool_decide (status_componentName skip = Some componentName))
                            componentsToSkip)
       | None => false
       end) sourceComponents.

(** [run], up to the call of [EnrichmentHandler.enrich]: what is skipped,
    what is processed, and the connection. *)
Definition prepare (command : Command)
    : result (list ComponentEnrichmentStatus * list SourceComponent * Connection) :=
  projectPath ← resolveProject command;
  flags ← parseFlags command;
  let org := target_org flags in
  let metadataEntries := flag_metadata flags in
  sourceComponents ← buildComponentSet command metadataEntries [projectPath];
  let componentsToSkip :=
    ComponentProcessor.getComponentsToSkip getTypeByName sourceComponents metadataEntries
      (Some projectPath) in
  let componentsToProcess := componentsToProcess sourceComponents componentsToSkip in
  connection ← getConnection org;
  mret (componentsToSkip, componentsToProcess, connection).

(** [run]: what the command resolves or rejects with, and the files it
    leaves; [None] when the requests never all settle. *)
Definition run (command : Command) (fs : Fs.FileSystem) (completion : list nat)
    : option (result EnrichmentMetrics.t * Fs.FileSystem) :=
  match prepare command with
  | Throw error => Some (Throw error, fs)
  | Ok (componentsToSkip, componentsToProcess, connection) =>
      enrichmentResults ←
        EnrichmentHandler.enrich fs connection componentsToProcess completion;
      match FileProcessor.updateMetadataFiles fs componentsToProcess enrichmentResults with
      | Throw error => Some (Throw error, fs)
      | Ok (enrichmentResults, fs') =>
          let metrics :=
            EnrichmentMetrics.createEnrichmentMetrics enrichmentResults componentsToSkip in
          Some (_ ← logMetrics command metrics; mret metrics, fs')
      end
  end.

End WithCollaborators.
End EnrichMetadata.

(* ===================================================================== *)
(** * Stand-ins for the collaborators, used by the examples               *)
(* ===================================================================== *)

Module Fixture.

Definition lwc : MetadataType := mkMetadataType "LightningComponentBundle".
Definition apex : MetadataType := mkMetadataType "ApexClass".

(** A registry that knows two metadata types. *)
Definition getTypeByName (_ : option string) (typeName : string) : result MetadataType :=
  if typeName =? "LightningComponentBundle" then Ok lwc
  else if typeName =? "ApexClass" then Ok apex
  else Throw (JsError ("Missing metadata type definition in registry for id '"
                         +:+ typeName +:+ "'.")).

(** The last segment of a path, and what follows its last dot. *)
Definition path : NodePath :=
  let base := λ p, List.last (split "/"%char p) "" in
  {| basename := base;
     extname := λ p, match split "."%char (base p) with
                     | [] | [_] => ""
                     | parts => "." +:+ List.last parts ""
                     end |}.

Definition numberFormat : NumberFormat := {| numberToString := λ _, "0.9" |}.

Definition optedOutDocument : XmlDocument :=
  [("LightningComponentBundle",
    XObject [("apiVersion", XNumber 60);
             ("ai", XObject [("skipUplift", XString "TRUE")])])].

Definition plainDocument : XmlDocument :=
  [("LightningComponentBundle", XObject [("apiVersion", XNumber 60)])].

(** A parser that knows three documents and a builder that lists the
    properties of the bundle element. *)
Definition xmlLibrary : XmlLibrary :=
  {| parse := λ text,
       if text =? "<opted-out/>" then Ok optedOutDocument
       else if text =? "<plain/>" then Ok plainDocument
       else Throw (JsError "Unexpected end of input");
     build := λ document,
       match Xml.lookup document "LightningComponentBundle" with
       | Some (XObject props) => Ok ("<" +:+ join "," (map fst props) +:+ ">")
       | _ => Throw (JsError "Cannot build document")
       end |}.

Definition component (componentName : string) (type : MetadataType) (xml : option string)
    (files : list string) : SourceComponent :=
  {| fullName := Some componentName; name := Some componentName;
     type := Some type; xml := xml; walkContent := files |}.

Definition alpha : SourceComponent :=
  component "alpha" lwc (Some "lwc/alpha/alpha.js-meta.xml") ["lwc/alpha/alpha.js"].
Definition beta : SourceComponent :=
  component "beta" lwc (Some "lwc/beta/beta.js-meta.xml") ["lwc/beta/beta.js"].
Definition gamma : SourceComponent :=
  component "gamma" lwc (Some "lwc/gamma/gamma.js-meta.xml") ["lwc/gamma/gamma.js"].

Definition delta : SourceComponent :=
  component "delta" lwc (Some "lwc/delta/delta.js-meta.xml") ["lwc/delta/delta.js"].

Definition enrichmentResult (resource : string) : EnrichmentResult :=
  {| resourceId := "0Rb"; result_resourceName := resource; metadataType := "Generic";
     modelUsed := "m"; description := "d"; descriptionScore := 0.5 |}.

Definition enrichMetadataResult (resource : string) : EnrichMetadataResult :=
  {| metadata := {| durationMs := 1; failureCount := 0; successCount := 1;
                    timestamp := "2026-01-01T00:00:00Z" |};
     results := [enrichmentResult resource] |}.

(** A connection that rejects the request for the resource [beta]. *)
Definition connection : Connection :=
  {| requestPost := λ _ body,
       match contentBundles body with
       | bundle :: _ =>
           if resourceName bundle =? "beta" then Throw (JsError "503 Service Unavailable")
           else Ok (enrichMetadataResult (resourceName bundle))
       | [] => Throw (JsNonError "empty request")
       end |}.

(** [alpha]'s support file is plain, [beta]'s opts out, [gamma]'s is
    malformed; [delta] has no support file on disk. *)
Definition fs : Fs.FileSystem :=
  {| Fs.files := list_to_map
       [ ("lwc/alpha/alpha.js", "export default 1;");
         ("lwc/alpha/alpha.js-meta.xml", "<plain/>");
         ("lwc/beta/beta.js", "export default 2;");
         ("lwc/beta/beta.js-meta.xml", "<opted-out/>");
         ("lwc/gamma/gamma.js", "export default 3;");
         ("lwc/gamma/gamma.js-meta.xml", "<LightningComponentBundle>");
         ("lwc/delta/delta.js", "export default 4;") ];
     Fs.readOnly := ∅ |}.

Definition requestRecord (componentName : string)
    (response : option EnrichMetadataResult) (message : option string)
    : EnrichmentRequestRecord :=
  {| componentName := componentName;
     componentType := Some lwc;
     requestBody := {| contentBundles := [ {| resourceName := componentName;
                                              bundle_files := ∅ |} ] |};
     response := response;
     message := message |}.

(** A support file in ISO 8859-1 that opts out: its comment ends in the
    letter U+00E9, the byte E9, which is not UTF-8. *)
Definition legacyFile : string :=
  "<!-- caf" +:+ bytes [0xE9]%N +:+ " --><opted-out/>".

(** [xmlLibrary] with a parser that also reads [legacyFile] as decoded. *)
Definition legacyLibrary : XmlLibrary :=
  {| parse := λ text,
       if text =? Utf8.decode legacyFile then Ok optedOutDocument
       else parse (XmlLibrary := xmlLibrary) text;
     build := build (XmlLibrary := xmlLibrary) |}.

Definition epsilon : SourceComponent :=
  component "epsilon" lwc (Some "lwc/epsilon/epsilon.js-meta.xml") ["lwc/epsilon/epsilon.js"].

(** [fs] with the component [epsilon], whose support file is [legacyFile]. *)
Definition legacyFs : Fs.FileSystem :=
  {| Fs.files := <["lwc/epsilon/epsilon.js-meta.xml" := legacyFile]>
                   (<["lwc/epsilon/epsilon.js" := "export default 5;"]> (Fs.files fs));
     Fs.readOnly := ∅ |}.

(** [fs] with [alpha]'s support file protected against writing. *)
Definition protectedFs : Fs.FileSystem :=
  {| Fs.files := Fs.files fs; Fs.readOnly := {["lwc/alpha/alpha.js-meta.xml"]} |}.

(** A command whose collaborators succeed: the project is at [/project],
    the builder resolves the components given and the log is written. *)
Definition command (sourceComponents : list SourceComponent)
    (metadataEntries : list string) : EnrichMetadata.Command :=
  {| EnrichMetadata.resolveProject := Ok "/project";
     EnrichMetadata.parseFlags :=
       Ok {| EnrichMetadata.target_org :=
               {| EnrichMetadata.getConnection := Ok connection |};
             EnrichMetadata.flag_metadata := metadataEntries |};
     EnrichMetadata.buildComponentSet := λ _ _, Ok sourceComponents;
     EnrichMetadata.logMetrics := λ _, Ok tt |}.

End Fixture.

(* ===================================================================== *)
(** * Vocabulary of the specification                                     *)
(* ===================================================================== *)

Module Spec.

(** The opt-out flag of the enrichment-control element of a support file:
    [LightningComponentBundle.ai.skipUplift]. *)
Definition optOutFlag (document : XmlDocument) : option XmlValue :=
  bundle ← Xml.lookup document "LightningComponentBundle";
  ai ← Xml.getProperty bundle "ai";
  Xml.getProperty ai "skipUplift".

(** The string "true" in any mix of upper and lower case. *)
Definition spellsTrue (s : string) : Prop :=
  ∃ t r u e : Ascii.ascii,
    s = String t (String r (String u (String e "")))
    ∧ (t = "t" ∨ t = "T")%char ∧ (r = "r" ∨ r = "R")%char
    ∧ (u = "u" ∨ u = "U")%char ∧ (e = "e" ∨ e = "E")%char.

(** The support file opts out of enrichment: its flag is the boolean [true]
    or a string that spells "true". *)
Definition optedOut (document : XmlDocument) : Prop :=
  optOutFlag document = Some (XBool true)
  ∨ ∃ s, optOutFlag document = Some (XString s) ∧ spellsTrue s.

End Spec.

(* ===================================================================== *)
(** * Auxiliary definitions used by the proofs                            *)
(* ===================================================================== *)

Module MetricsSpec.

(** [record.response] is truthy. *)
Definition hasResponse (record : EnrichmentRequestRecord) : bool :=
  if response record is Some _ then true else false.

Definition succeeded (records : list EnrichmentRequestRecord) : list EnrichmentRequestRecord :=
  List.filter hasResponse records.

Definition failed (records : list EnrichmentRequestRecord) : list EnrichmentRequestRecord :=
  List.filter (λ record, negb (hasResponse record)) records.

End MetricsSpec.

Module AllSettledSpec.
Section Reached.
Context {A : Type}.
Implicit Types (promises : list (result A)) (st : AllSettledState A).

(** The state reached once the promises listed in [settled] have settled. *)
Definition reached promises (settled : list nat) st : Prop :=
  length (values st) = length promises
  ∧ remainingElementsCount st = length promises - length settled
  ∧ ∀ k r, promises !! k = Some r →
      values st !! k = Some (if bool_decide (k ∈ settled) then Some (settle r) else None).

End Reached.
End AllSettledSpec.

Module DispatchSpec.
Import EnrichmentHandler.

(** What [sendEnrichmentRequests] returns for one record. *)
Definition outcome (connection : Connection) (record : EnrichmentRequestRecord)
    : EnrichmentRequestRecord :=
  match sendEnrichmentRequest connection record with
  | Ok value => value
  | Throw reason => setMessage (withResponse record None) (Some (errorMessageOf reason))
  end.

End DispatchSpec.

Module ClassifierSpec.
Import ComponentProcessor.
Section WithRegistry.
Variable getTypeByName : option string → string → result MetadataType.

(** The name of a parsed identifier is absent or contains the wildcard
    marker. *)
Definition isWildcard (parsed : MetadataTypeAndMetadataName) : bool :=
  match requested_componentName parsed with
  | Some n => includes n "*"
  | None => true
  end.

(** The test of [parseRequestedComponents] that discards an identifier. *)
Definition discarded (parsed : MetadataTypeAndMetadataName) : bool :=
  match requested_componentName parsed with
  | Some n => truthy n && includes n "*"
  | None => false
  end.

(** What one raw entry adds to the requested set. *)
Definition requestedBy (projectDir : option string) (entry : string)
    : option MetadataTypeAndMetadataName :=
  parsed ← parseMetadataEntry getTypeByName entry projectDir;
  if discarded parsed then None else Some parsed.

(** The skip records one requested identifier yields in
    [diffRequestedComponents]. *)
Definition missingFor (sourceComponents : list SourceComponent)
    (requested : MetadataTypeAndMetadataName) : list ComponentEnrichmentStatus :=
  match requested_componentName requested with
  | Some n =>
      if truthy n && negb (bool_decide (n ∈ getExistingSourceComponentNames sourceComponents))
      then [withMessage requested "Not found in source project"]
      else []
  | None => []
  end.

(** The skip records one requested identifier yields in [filterComponents]. *)
Definition filteredFor (sourceComponents : list SourceComponent)
    (requested : MetadataTypeAndMetadataName) : list ComponentEnrichmentStatus :=
  match requested_componentName requested with
  | Some n =>
      if truthy n then
        match createSourceComponentMap sourceComponents !! n with
        | Some sourceComponent =>
            (if bool_decide (typeNameOf sourceComponent ≠ Some LightningComponentBundle)
             then [withMessage requested
                     "Only Lightning Web Components are currently supported for enrichment"]
             else [])
            ++ (if bool_decide (typeNameOf sourceComponent = Some LightningComponentBundle)
                   && negb (truthy_opt (xml sourceComponent))
                then [withMessage requested
                        "Lightning Web Component configuration file does not exist (*.js-meta.xml)"]
                else [])
        | None => []
        end
      else []
  | None => []
  end.

End WithRegistry.
End ClassifierSpec.

Module MergeSpec.
Import FileProcessor FileReader.
Section WithCollaborators.
Context {path : NodePath} {xmlLibrary : XmlLibrary} {numberFormat : NumberFormat}.

Definition State : Type := list EnrichmentRequestRecord * Fs.FileSystem.

(** The record and the enrichment result the loop works with for [file],
    if it gets past its three [continue] statements. *)
Definition target (file : FileReadResult) (records : list EnrichmentRequestRecord)
    : option (nat * EnrichmentRequestRecord * EnrichmentResult) :=
  if isMetaXmlFile (filePath file) then
    found ← list_find (λ record, componentName record = file_componentName file) records;
    response ← response found.2;
    enrichmentResult ← head (results response);
    Some (found.1, found.2, enrichmentResult)
  else None.

(** The body of the [try] block. *)
Definition attempt (file : FileReadResult) (enrichmentResult : EnrichmentResult)
    (fs : Fs.FileSystem) : result Fs.FileSystem :=
  updatedXml ← updateMetaXml (fileContents file) enrichmentResult;
  Fs.writeFile fs (filePath file) updatedXml.

(** One iteration of the loop. *)
Definition mergeFile (st : State) (file : FileReadResult) : State :=
  match target file st.1 with
  | Some (index, record, enrichmentResult) =>
      match attempt file enrichmentResult st.2 with
      | Ok fs' => (st.1, fs')
      | Throw error =>
          (<[index := setMessage record (Some (errorMessageOf error))]> st.1, st.2)
      end
  | None => st
  end.

(** The loop gets to the [try] block for [component]: the component has
    a name and a [.js-meta.xml] support file at [xmlPath], which reads as
    [text], and the first record of that name, the one at [index], has a
    response whose first result is [enrichmentResult]. *)
Definition reaches (fs : Fs.FileSystem) (enrichmentRecords : list EnrichmentRequestRecord)
    (component : SourceComponent) (xmlPath text : string) (index : nat)
    (record : EnrichmentRequestRecord) (enrichmentResult : EnrichmentResult) : Prop :=
  ∃ n resp,
    componentNameOf component = Some n ∧ n ≠ ""
    ∧ xml component = Some xmlPath ∧ xmlPath ≠ ""
    ∧ isMetaXmlFile xmlPath = true
    ∧ Fs.readFile fs xmlPath = Ok text
    ∧ list_find (λ r, componentName r = n) enrichmentRecords = Some (index, record)
    ∧ response record = Some resp
    ∧ head (results resp) = Some enrichmentResult.

(** The bytes are well-formed UTF-8 (RFC 3629, section 4). *)
Fixpoint isWellFormed (data : string) : bool :=
  match data with
  | EmptyString => true
  | String a rest1 =>
      let x := code a in
      if (x <=? 0x7F)%N then isWellFormed rest1
      else if (0xC2 <=? x)%N && (x <=? 0xDF)%N then
        match rest1 with
        | String b rest2 =>
            (0x80 <=? code b)%N && (code b <=? 0xBF)%N && isWellFormed rest2
        | EmptyString => false
        end
      else if (0xE0 <=? x)%N && (x <=? 0xEF)%N then
        match rest1 with
        | String b (String c rest3) =>
            ((if (x =? 0xE0)%N then 0xA0 else 0x80) <=? code b)%N
            && (code b <=? (if (x =? 0xED)%N then 0x9F else 0xBF))%N
            && (0x80 <=? code c)%N && (code c <=? 0xBF)%N
            && isWellFormed rest3
        | _ => false
        end
      else if (0xF0 <=? x)%N && (x <=? 0xF4)%N then
        match rest1 with
        | String b (String c (String d rest4)) =>
            ((if (x =? 0xF0)%N then 0x90 else 0x80) <=? code b)%N
            && (code b <=? (if (x =? 0xF4)%N then 0x8F else 0xBF))%N
            && (0x80 <=? code c)%N && (code c <=? 0xBF)%N
            && (0x80 <=? code d)%N && (code d <=? 0xBF)%N
            && isWellFormed rest4
        | _ => false
        end
      else false
  end.

(** Everything but the message of a record. *)
Definition withoutMessage (record : EnrichmentRequestRecord) : EnrichmentRequestRecord :=
  setMessage record None.

(** The support file read for one component. *)
Definition xmlFileOf (fs : Fs.FileSystem) (component : SourceComponent)
    : list FileReadResult :=
  match componentNameOf component, xml component with
  | Some componentName, Some xmlPath =>
      if truthy componentName && truthy xmlPath
      then from_option (λ file, [file]) [] (readFileMetadata fs componentName xmlPath)
      else []
  | _, _ => []
  end.

End WithCollaborators.
End MergeSpec.

(* ===================================================================== *)
(** * Auxiliary definitions for the further properties                    *)
(* ===================================================================== *)

Module ExtraSpec.

(** The names under which the source components are known:
    [fullName ?? name] of each component that has a non-empty one. *)
Definition namesOf (sourceComponents : list SourceComponent) : list string :=
  omap (λ component,
          n ← componentNameOf component;
          if truthy n then Some n else None) sourceComponents.

(** The content file at [filePath] can be read. *)
Definition readable (fs : Fs.FileSystem) (filePath : string) : bool :=
  bool_decide (is_Some (Fs.files fs !! filePath)).

(** The remote call for the record is accepted. *)
Definition accepted (connection : Connection) (record : EnrichmentRequestRecord) : bool :=
  match requestPost connection ENDPOINT_ENRICHMENT (requestBody record) with
  | Ok _ => true
  | Throw _ => false
  end.

(** The enrichment-control element [updateMetaXml] writes. *)
Definition aiElement {numberFormat : NumberFormat} (enrichmentResult : EnrichmentResult)
    : XmlValue :=
  XObject [ ("skipUplift", XString "false");
            ("description", XString (description enrichmentResult));
            ("score", XString (numberToString (descriptionScore enrichmentResult))) ].

(** The test of [updateMetaXml] that leaves the file alone. *)
Definition skipsUplift {numberFormat : NumberFormat} (document : XmlDocument) : bool :=
  Xml.isTrue (Spec.optOutFlag document)
  || (toLowerCase (Xml.toStringOpt (Spec.optOutFlag document)) =? "true").

(** The rest of the string after the white-space code point it begins
    with. *)
Definition afterWhiteSpace (s : string) : option string :=
  match s with
  | String a rest1 =>
      if isWhiteSpace a then Some rest1
      else match rest1 with
           | String b rest2 =>
               if isWhiteSpace2 a b then Some rest2
               else match rest2 with
                    | String c rest3 => if isWhiteSpace3 a b c then Some rest3 else None
                    | EmptyString => None
                    end
           | EmptyString => None
           end
  | EmptyString => None
  end.

(** The string begins with a white-space code point. *)
Definition startsWithWhiteSpace (s : string) : bool :=
  bool_decide (is_Some (afterWhiteSpace s)).

(** The string ends with a white-space code point. *)
Fixpoint endsWithWhiteSpace (s : string) : bool :=
  match s with
  | String _ rest => bool_decide (afterWhiteSpace s = Some "") || endsWithWhiteSpace rest
  | EmptyString => false
  end.

(** The entries of [MIME_TYPES]. *)
Definition mimeTable : list (string * string) :=
  [ (".js", "application/javascript");
    (".html", "text/html");
    (".css", "text/css");
    (".xml", "application/xml");
    (".svg", "image/svg+xml") ].

(** Three line feeds in a row. *)
Definition tripleNewline : string := newlines 3.

(** What [updateMetaXml] returns once the document is handed to the builder. *)
Definition built {xmlLibrary : XmlLibrary} (document : XmlDocument) : result string :=
  match build document with
  | Ok builtXml => Ok (collapseBlankLines (trim builtXml))
  | Throw cause => Throw (JsError ("Failed to parse XML: " +:+ errorMessageOf cause))
  end.

End ExtraSpec.

(** Further stand-ins for the examples. *)
Module ExtraFixture.

(** The control element as the parser reads it back: the flag as a boolean
    and the score as a number. *)
Definition rereadElement : XmlValue :=
  XObject [("skipUplift", XBool false);
           ("description", XString "d");
           ("score", XNumber 0.5)].

(** The plain document of [Fixture] once enriched and read back. *)
Definition enrichedDocument : XmlDocument :=
  [("LightningComponentBundle",
    XObject [("apiVersion", XNumber 60); ("ai", rereadElement)])].

(** A library that reads back what it builds from the plain document, and
    knows a document without bundle element. *)
Definition xmlLibrary : XmlLibrary :=
  {| parse := λ text,
       if text =? "<plain/>" then Ok Fixture.plainDocument
       else if text =? "<apiVersion,ai>" then Ok enrichedDocument
       else if text =? "<other/>" then Ok [("Other", XString "x")]
       else Throw (JsError "Unexpected end of input");
     build := build (XmlLibrary := Fixture.xmlLibrary) |}.

End ExtraFixture.

(* ===================================================================== *)
(** * The definitions at work                                             *)
(* ===================================================================== *)

Module Examples.

Example split_name_with_colons :
  split ":"%char "ApexClass:ns:Name" = ["ApexClass"; "ns"; "Name"].
Proof. reflexivity. Qed.

Example split_bare_kind : split ":"%char "ApexClass" = ["ApexClass"].
Proof. reflexivity. Qed.

Example split_empty_name : split ":"%char "ApexClass:" = ["ApexClass"; ""].
Proof. reflexivity. Qed.

Example trim_both_ends : trim "  my Name " = "my Name".
Proof. reflexivity. Qed.

(** U+00A0 before the name; U+2028, U+FEFF and a TAB after it. *)
Example trim_beyond_ascii :
  trim (bytes [0xC2; 0xA0]%N +:+ "Util"
          +:+ bytes [0xE2; 0x80; 0xA8; 0xEF; 0xBB; 0xBF; 0x09]%N) = "Util".
Proof. reflexivity. Qed.

(** "caf" and U+00E9 in UTF-8 decode to themselves; the same in ISO 8859-1,
    where the last letter is the byte E9, decodes to "caf" and U+FFFD. *)
Example decode_utf8 :
  Utf8.decode ("caf" +:+ bytes [0xC3; 0xA9]%N) = "caf" +:+ bytes [0xC3; 0xA9]%N
  ∧ Utf8.decode ("caf" +:+ bytes [0xE9]%N) = "caf" +:+ Utf8.replacement.
Proof. split; reflexivity. Qed.

Example includes_marker : includes "prop*Card" "*" = true ∧ includes "propCard" "*" = false.
Proof. split; reflexivity. Qed.

Example endsWith_meta :
  endsWith "alpha.js-meta.xml" ".js-meta.xml" = true ∧ endsWith "alpha.js" ".js-meta.xml" = false.
Proof. split; reflexivity. Qed.

Example toLowerCase_mixed : toLowerCase "TrUe" = "true".
Proof. reflexivity. Qed.

Example collapseBlankLines_run :
  collapseBlankLines ("a" +:+ newlines 4 +:+ "b" +:+ newlines 2 +:+ "c")
    = "a" +:+ newlines 2 +:+ "b" +:+ newlines 2 +:+ "c".
Proof. reflexivity. Qed.

Example allSettled_out_of_order :
  allSettled [Ok 1; Throw (JsError "x"); Ok 3] [2; 0; 1]
    = Some [Fulfilled 1; Rejected (JsError "x"); Fulfilled 3].
Proof. reflexivity. Qed.

Example allSettled_pending : allSettled [Ok 1; Ok 2] [1] = None.
Proof. reflexivity. Qed.

Example parse_trims_and_rejoins :
  ComponentProcessor.parseMetadataEntry Fixture.getTypeByName " ApexClass : ns:Name " None
    = Some {| requested_type := "ApexClass"; requested_componentName := Some "ns:Name" |}.
Proof. reflexivity. Qed.

Example parse_unknown_kind :
  ComponentProcessor.parseMetadataEntry Fixture.getTypeByName "Widget:w" None = None.
Proof. reflexivity. Qed.

(** The skip reasons of the three checks. *)
Example skip_reasons :
  status_message <$>
    ComponentProcessor.getComponentsToSkip Fixture.getTypeByName
      [Fixture.alpha;
       Fixture.component "Util" Fixture.apex None [];
       Fixture.component "bare" Fixture.lwc None []]
      ["LightningComponentBundle:alpha"; "LightningComponentBundle:Ghost";
       "ApexClass:Util"; "LightningComponentBundle:bare"] None
  = [Some "Not found in source project";
     Some "Only Lightning Web Components are currently supported for enrichment";
     Some "Lightning Web Component configuration file does not exist (*.js-meta.xml)"].
Proof. by vm_compute. Qed.

(** A content file named [__proto__] leaves no entry in the bundle. *)
Example bundle_without_proto :
  let file := λ filePath, {| file_componentName := "alpha"; filePath := filePath;
                             fileContents := "x"; mimeType := "text/plain" |} in
  let bundle :=
    EnrichmentHandler.createContentBundle (path := Fixture.path) "alpha"
      [file "lwc/alpha/__proto__"; file "lwc/alpha/alpha.js"] in
  bundle_files bundle !! "__proto__" = None
  ∧ filename <$> bundle_files bundle !! "alpha.js" = Some "alpha.js".
Proof. split; by vm_compute. Qed.

(** A successful enrichment of [alpha]: the control element is set in the
    support file and the metrics count one success. *)
Example run_alpha :
  ∃ metrics fs',
    EnrichMetadata.run (path := Fixture.path) (xmlLibrary := Fixture.xmlLibrary)
      (numberFormat := Fixture.numberFormat) Fixture.getTypeByName
      (Fixture.command [Fixture.alpha] ["LightningComponentBundle:alpha"]) Fixture.fs [0]
      = Some (Ok metrics, fs')
    ∧ Fs.files fs' !! "lwc/alpha/alpha.js-meta.xml" = Some "<apiVersion,ai>"
    ∧ (EnrichmentMetrics.count (EnrichmentMetrics.success metrics),
       EnrichmentMetrics.count (EnrichmentMetrics.fail metrics),
       EnrichmentMetrics.count (EnrichmentMetrics.skipped metrics),
       EnrichmentMetrics.total metrics) = (1, 0, 0, 1).
Proof. eexists _, _. split_and!; by vm_compute. Qed.

(** Of three requests the one for [beta] fails; [gamma]'s support file is
    malformed and [beta] is not merged for want of a response. *)
Example run_three :
  ∃ metrics fs',
    EnrichMetadata.run (path := Fixture.path) (xmlLibrary := Fixture.xmlLibrary)
      (numberFormat := Fixture.numberFormat) Fixture.getTypeByName
      (Fixture.command [Fixture.alpha; Fixture.beta; Fixture.gamma]
         ["LightningComponentBundle:alpha"; "LightningComponentBundle:beta";
          "LightningComponentBundle:gamma"; "LightningComponentBundle:Ghost"])
      Fixture.fs [2; 0; 1]
      = Some (Ok metrics, fs')
    ∧ (status_message <$> EnrichmentMetrics.components (EnrichmentMetrics.success metrics))
      = [Some ""; Some "Failed to parse XML: Unexpected end of input"]
    ∧ (status_message <$> EnrichmentMetrics.components (EnrichmentMetrics.fail metrics))
      = [Some "Error sending request for component beta: 503 Service Unavailable"]
    ∧ (status_message <$> EnrichmentMetrics.components (EnrichmentMetrics.skipped metrics))
      = [Some "Not found in source project"]
    ∧ EnrichmentMetrics.total metrics = 4.
Proof. eexists _, _. split_and!; by vm_compute. Qed.

(** Without a project nothing is done. *)
Example run_without_project :
  EnrichMetadata.run (path := Fixture.path) (xmlLibrary := Fixture.xmlLibrary)
    (numberFormat := Fixture.numberFormat) Fixture.getTypeByName
    {| EnrichMetadata.resolveProject := Throw (JsError "InvalidProjectWorkspaceError");
       EnrichMetadata.parseFlags :=
         EnrichMetadata.parseFlags (Fixture.command [Fixture.alpha] []);
       EnrichMetadata.buildComponentSet := λ _ _, Ok [Fixture.alpha];
       EnrichMetadata.logMetrics := λ _, Ok tt |}
    Fixture.fs [0]
  = Some (Throw (JsError "InvalidProjectWorkspaceError"), Fixture.fs).
Proof. reflexivity. Qed.

End Examples.

(* ===================================================================== *)
(** * Properties of the metrics                                           *)
(* ===================================================================== *)

Module MetricsFacts.
Import EnrichmentMetrics MetricsSpec.

Lemma bucket_eq (b : Bucket) n cs :
  count b = n → components b = cs → b = mkBucket n cs.
Proof. destruct b; simpl; intros; subst; reflexivity. Qed.

Lemma foldl_addRecord records : ∀ metrics,
  foldl addRecord metrics records =
  {| success := {| count := count (success metrics) + length (succeeded records);
                   components := components (success metrics)
                                   ++ map componentStatus (succeeded records) |};
     fail := {| count := count (fail metrics) + length (failed records);
                components := components (fail metrics)
                                ++ map componentStatus (failed records) |};
     skipped := skipped metrics;
     total := total metrics + length records |}.
Proof.
  induction records as [|record records IH]; intros metrics.
  - destruct metrics as [[] [] ? ?]; simpl.
    rewrite !Nat.add_0_r, !app_nil_r. reflexivity.
  - simpl foldl. rewrite IH. unfold addRecord, succeeded, failed, hasResponse.
    simpl List.filter.
    destruct (response record); simpl; rewrite <- ?app_assoc; simpl;
      (f_equal; [f_equal; lia | lia]).
Qed.

Lemma foldl_addSkippedComponent skippedComponents : ∀ metrics,
  foldl addSkippedComponent metrics skippedComponents =
  {| success := success metrics;
     fail := fail metrics;
     skipped := {| count := count (skipped metrics) + length skippedComponents;
                   components := components (skipped metrics) ++ skippedComponents |};
     total := total metrics + length skippedComponents |}.
Proof.
  induction skippedComponents as [|component rest IH]; intros metrics.
  - destruct metrics as [? ? [] ?]; simpl.
    rewrite !Nat.add_0_r, !app_nil_r. reflexivity.
  - simpl foldl. rewrite IH. simpl. f_equal; [|lia].
    f_equal; [lia|]. rewrite <- app_assoc. reflexivity.
Qed.

(** The closed form of [createEnrichmentMetrics]. *)
Lemma createEnrichmentMetrics_eq records skippedComponents :
  createEnrichmentMetrics records skippedComponents =
  {| success := {| count := length (succeeded records);
                   components := map componentStatus (succeeded records) |};
     fail := {| count := length (failed records);
                components := map componentStatus (failed records) |};
     skipped := {| count := length skippedComponents; components := skippedComponents |};
     total := length records + length skippedComponents |}.
Proof.
  unfold createEnrichmentMetrics.
  rewrite foldl_addSkippedComponent, foldl_addRecord. reflexivity.
Qed.

Lemma succeeded_failed_length records :
  length (succeeded records) + length (failed records) = length records.
Proof.
  unfold succeeded, failed.
  induction records as [|r records IH]; simpl; [reflexivity|].
  destruct (hasResponse r); simpl; lia.
Qed.

(** The size of the success bucket does not depend on the messages. *)
Lemma succeeded_withoutMessage records :
  length (succeeded records) = length (succeeded (map (λ r, setMessage r None) records)).
Proof.
  unfold succeeded. induction records as [|r records IH]; [done|].
  simpl. replace (hasResponse (setMessage r None)) with (hasResponse r) by done.
  destruct (hasResponse r); simpl; by rewrite IH.
Qed.

End MetricsFacts.

Section MetricsTheorems.
Import EnrichmentMetrics MetricsSpec MetricsFacts.

Lemma succeeded_failed_permutation records :
  map componentStatus (succeeded records) ++ map componentStatus (failed records)
    ≡ₚ map componentStatus records.
Proof.
  unfold succeeded, failed.
  induction records as [|r records IH]; simpl; [reflexivity|].
  destruct (hasResponse r); simpl.
  - by rewrite IH.
  - by rewrite <- Permutation_middle, IH.
Qed.

Lemma filter_split {A} (p : A → bool) (l : list A) i x :
  l !! i = Some x →
  List.filter p l = List.filter p (take i l) ++ (if p x then [x] else [])
                      ++ List.filter p (drop (S i) l)
  ∧ List.filter p (delete i l) = List.filter p (take i l) ++ List.filter p (drop (S i) l).
Proof.
  intros Hi. split.
  - rewrite <- (take_drop_middle l i x Hi) at 1.
    rewrite List.filter_app. simpl. by destruct (p x).
  - by rewrite delete_take_drop, List.filter_app.
Qed.

(** C1. For every list of request records and every list of skip records,
    the metrics built by [createEnrichmentMetrics] have
    [total = success.count + fail.count + skipped.count]; every count is the
    length of its bucket; the success bucket lists exactly the records with a
    response and the fail bucket exactly the records without one, each once
    and in input order, so that the two buckets together are a rearrangement
    of the input records; the skipped bucket is the list of skip records. *)
Theorem createEnrichmentMetrics_total_and_buckets
    (records : list EnrichmentRequestRecord)
    (skippedComponents : list ComponentEnrichmentStatus) :
  let metrics := createEnrichmentMetrics records skippedComponents in
  total metrics = count (success metrics) + count (fail metrics) + count (skipped metrics)
  ∧ count (success metrics) = length (components (success metrics))
  ∧ count (fail metrics) = length (components (fail metrics))
  ∧ count (skipped metrics) = length (components (skipped metrics))
  ∧ components (success metrics) = map componentStatus (succeeded records)
  ∧ components (fail metrics) = map componentStatus (failed records)
  ∧ components (skipped metrics) = skippedComponents
  ∧ components (success metrics) ++ components (fail metrics)
      ≡ₚ map componentStatus records
  ∧ count (success metrics) + count (fail metrics) = length records.
Proof.
  intros metrics. subst metrics. rewrite createEnrichmentMetrics_eq. simpl.
  pose proof (succeeded_failed_length records) as Hlen.
  rewrite !length_map.
  repeat split; try reflexivity; try lia.
  apply succeeded_failed_permutation.
Qed.

(** A record with a response stands in the success bucket, and the fail
    bucket is what it is without the record. *)
Lemma success_bucket_position
    (records : list EnrichmentRequestRecord)
    (skippedComponents : list ComponentEnrichmentStatus)
    (i : nat) (record : EnrichmentRequestRecord) :
  records !! i = Some record →
  hasResponse record = true →
  components (success (createEnrichmentMetrics records skippedComponents))
      !! length (succeeded (take i records))
    = Some (componentStatus record)
  ∧ fail (createEnrichmentMetrics records skippedComponents)
    = fail (createEnrichmentMetrics (delete i records) skippedComponents).
Proof.
  intros Hi Hhas. rewrite !createEnrichmentMetrics_eq. simpl.
  destruct (filter_split hasResponse records i record Hi) as [Hs _].
  destruct (filter_split (λ r, negb (hasResponse r)) records i record Hi) as [Hf Hf'].
  unfold succeeded, failed. rewrite Hs, Hf, Hf', Hhas. simpl. split; [|done].
  rewrite map_app. simpl.
  rewrite lookup_app_r by (rewrite length_map; lia).
  by rewrite length_map, Nat.sub_diag.
Qed.

(** C6. A record given to the metrics aggregation lands in the success
    bucket when its response is present and in the fail bucket when it is
    absent: its status stands in that bucket, after the statuses of the
    earlier records of the same bucket, and the other bucket is what it would
    be without the record.  A record without response and without message
    gets the message "Enrichment request failed". *)
Theorem createEnrichmentMetrics_classifies_record
    (records : list EnrichmentRequestRecord)
    (skippedComponents : list ComponentEnrichmentStatus)
    (i : nat) (record : EnrichmentRequestRecord) :
  records !! i = Some record →
  let metrics := createEnrichmentMetrics records skippedComponents in
  let others := createEnrichmentMetrics (delete i records) skippedComponents in
  match response record with
  | Some _ =>
      components (success metrics) !! length (succeeded (take i records))
        = Some (componentStatus record)
      ∧ count (success metrics) = S (count (success others))
      ∧ fail metrics = fail others
  | None =>
      components (fail metrics) !! length (failed (take i records))
        = Some (componentStatus record)
      ∧ count (fail metrics) = S (count (fail others))
      ∧ success metrics = success others
      ∧ (message record = None →
         status_message (componentStatus record) = Some "Enrichment request failed")
  end.
Proof.
  intros Hi metrics others. subst metrics others.
  rewrite !createEnrichmentMetrics_eq. simpl.
  destruct (filter_split hasResponse records i record Hi) as [Hs Hs'].
  destruct (filter_split (λ r, negb (hasResponse r)) records i record Hi) as [Hf Hf'].
  unfold succeeded, failed. rewrite Hs, Hs', Hf, Hf'.
  assert (Hhas : hasResponse record = if response record is Some _ then true else false)
    by reflexivity.
  destruct (response record) as [resp|]; rewrite Hhas; simpl.
  - split_and!; [|rewrite !length_app; simpl; lia|reflexivity].
    rewrite map_app. simpl.
    rewrite lookup_app_r by (rewrite length_map; lia).
    by rewrite length_map, Nat.sub_diag.
  - split_and!; [|rewrite !length_app; simpl; lia|reflexivity|by intros ->].
    rewrite map_app. simpl.
    rewrite lookup_app_r by (rewrite length_map; lia).
    by rewrite length_map, Nat.sub_diag.
Qed.

End MetricsTheorems.

Lemma createEnrichmentMetrics_classifies_record_witness :
  [Fixture.requestRecord "alpha" (Some (Fixture.enrichMetadataResult "alpha")) None;
   Fixture.requestRecord "beta" None None] !! 1
    = Some (Fixture.requestRecord "beta" None None)
  ∧ EnrichmentMetrics.components
      (EnrichmentMetrics.fail
         (EnrichmentMetrics.createEnrichmentMetrics
            [Fixture.requestRecord "alpha" (Some (Fixture.enrichMetadataResult "alpha")) None;
             Fixture.requestRecord "beta" None None] [])) !! 0
    = Some {| status_type := "LightningComponentBundle";
              status_componentName := Some "beta";
              status_message := Some "Enrichment request failed" |}.
Proof.
  split; [reflexivity|].
  exact (proj1 (createEnrichmentMetrics_classifies_record
                  [Fixture.requestRecord "alpha"
                     (Some (Fixture.enrichMetadataResult "alpha")) None;
                   Fixture.requestRecord "beta" None None] [] 1
                  (Fixture.requestRecord "beta" None None) eq_refl)).
Defined.

(* ===================================================================== *)
(** * Properties of [Promise.allSettled]                                  *)
(* ===================================================================== *)

Module AllSettledFacts.
Import AllSettledSpec.
Section Facts.
Context {A : Type}.
Implicit Types (promises : list (result A)) (st : AllSettledState A).

Lemma reached_initial promises :
  reached promises []
    (mkAllSettledState (replicate (length promises) None) (length promises)).
Proof.
  split_and!; simpl.
  - apply length_replicate.
  - lia.
  - intros k r Hk. rewrite lookup_replicate_2; [done|].
    by apply lookup_lt_Some in Hk.
Qed.

Lemma reached_step promises settled st index :
  index < length promises →
  reached promises settled st →
  reached promises (settled ++ [index]) (onSettled promises index st).
Proof.
  intros Hlt (Hlen & Hrem & Hval).
  destruct (lookup_lt_is_Some_2 promises index Hlt) as [r Hr].
  unfold onSettled. rewrite Hr. split_and!; simpl.
  - by rewrite length_insert.
  - rewrite length_app. simpl. lia.
  - intros k r' Hk. destruct (decide (k = index)) as [->|Hne].
    + rewrite list_lookup_insert_eq by lia.
      rewrite bool_decide_eq_true_2; [congruence|].
      apply elem_of_app. right. by apply list_elem_of_singleton.
    + rewrite list_lookup_insert_ne by done. rewrite (Hval k r' Hk).
      f_equal. rewrite (bool_decide_ext (k ∈ settled ++ [index]) (k ∈ settled)); [done|].
      rewrite elem_of_app, list_elem_of_singleton. tauto.
Qed.

Lemma reached_foldl promises completion : ∀ settled st,
  Forall (λ index, index < length promises) completion →
  reached promises settled st →
  reached promises (settled ++ completion)
    (foldl (λ st index, onSettled promises index st) st completion).
Proof.
  induction completion as [|index completion IH]; intros settled st Hall Hst; simpl.
  - by rewrite app_nil_r.
  - inversion Hall as [|? ? Hlt Hall']; subst.
    replace (settled ++ index :: completion) with ((settled ++ [index]) ++ completion)
      by (by rewrite <- app_assoc).
    apply IH; [done|]. by apply reached_step.
Qed.

Lemma mapM_id_Some {B C} (f : B → C) (l : list B) :
  mapM id (map (λ a, Some (f a)) l) = Some (map f l).
Proof.
  induction l as [|a l IH]; [done|].
  simpl. rewrite IH. done.
Qed.

(** Whatever the order in which the promises settle, once each has settled
    [Promise.allSettled] resolves with their outcomes in input order. *)
Lemma allSettled_complete promises completion :
  completion ≡ₚ seq 0 (length promises) →
  allSettled promises completion = Some (map settle promises).
Proof.
  intros Hperm. unfold allSettled.
  assert (Hall : Forall (λ index, index < length promises) completion).
  { apply Forall_forall. intros k Hk. rewrite Hperm in Hk.
    apply elem_of_seq in Hk. lia. }
  destruct (reached_foldl promises completion [] _ Hall (reached_initial promises))
    as (Hlen & Hrem & Hval).
  simpl in *. rewrite Hrem.
  rewrite (Permutation_length Hperm), length_seq, Nat.sub_diag. simpl.
  rewrite <- (mapM_id_Some settle promises). f_equal.
  apply list_eq. intros k.
  destruct (promises !! k) as [r|] eqn:Hk.
  - rewrite (Hval k r Hk), list_lookup_fmap, Hk. simpl.
    rewrite bool_decide_eq_true_2; [done|].
    rewrite Hperm. apply elem_of_seq. apply lookup_lt_Some in Hk. lia.
  - rewrite list_lookup_fmap, Hk. simpl.
    apply lookup_ge_None. apply lookup_ge_None in Hk. lia.
Qed.

End Facts.
End AllSettledFacts.

(* ===================================================================== *)
(** * Properties of the dispatcher                                        *)
(* ===================================================================== *)

Module DispatchFacts.
Import EnrichmentHandler DispatchSpec.

Lemma collectResult_settle connection records index record :
  records !! index = Some record →
  collectResult records index (settle (sendEnrichmentRequest connection record))
    = Some (outcome connection record).
Proof.
  intros Hrecord. unfold outcome.
  destruct (sendEnrichmentRequest connection record); simpl; [done|].
  by rewrite Hrecord.
Qed.

Lemma sendEnrichmentRequests_eq connection records completion :
  completion ≡ₚ seq 0 (length records) →
  sendEnrichmentRequests connection records completion
    = Some (map (outcome connection) records).
Proof.
  intros Hperm. unfold sendEnrichmentRequests.
  rewrite AllSettledFacts.allSettled_complete by (by rewrite length_map).
  simpl.
  rewrite <- (AllSettledFacts.mapM_id_Some (outcome connection) records). f_equal.
  apply list_eq. intros k. rewrite list_lookup_imap, !list_lookup_fmap.
  destruct (records !! k) as [record|] eqn:Hk; simpl; [|done].
  by rewrite (collectResult_settle _ _ _ _ Hk).
Qed.

Lemma outcome_fields connection record :
  componentName (outcome connection record) = componentName record
  ∧ componentType (outcome connection record) = componentType record
  ∧ requestBody (outcome connection record) = requestBody record.
Proof.
  unfold outcome, sendEnrichmentRequest.
  destruct (requestPost connection ENDPOINT_ENRICHMENT (requestBody record)); simpl; done.
Qed.

Lemma prefix_app (sub rest : string) : String.prefix sub (sub +:+ rest) = true.
Proof.
  induction sub as [|c sub IH]; simpl; [by destruct rest|].
  destruct (Ascii.ascii_dec c c); [done|congruence].
Qed.

Lemma includes_prefix (s sub : string) :
  String.prefix sub s = true → includes s sub = true.
Proof. destruct s; simpl; by intros ->. Qed.

(** A string includes each of the pieces it is concatenated from. *)
Lemma includes_app (before sub after : string) :
  includes (before +:+ sub +:+ after) sub = true.
Proof.
  induction before as [|c before IH].
  - change ("" +:+ sub +:+ after) with (sub +:+ after).
    apply includes_prefix, prefix_app.
  - change (String.prefix sub (String c before +:+ sub +:+ after)
            || includes (before +:+ sub +:+ after) sub = true).
    rewrite IH. apply orb_true_r.
Qed.

Lemma createEnrichmentRequestRecords_fresh {path : NodePath} fs components record :
  record ∈ createEnrichmentRequestRecords fs components →
  response record = None ∧ message record = None.
Proof.
  unfold createEnrichmentRequestRecords, FileReader.dropNull.
  intros Hin. apply list_elem_of_omap in Hin as (made & Hmade & Heq).
  apply list_elem_of_fmap in Hmade as (component & -> & _). simpl in Heq.
  destruct (componentNameOf component) as [n|]; [|done].
  destruct (truthy n); [|done].
  destruct (length (FileReader.readComponentFiles fs component) =? 0)%nat; [done|].
  by injection Heq as <-.
Qed.

(** The record returned for a request: the input record with the parsed
    response, or with no response and the error text. *)
Lemma outcome_cases connection record :
  match requestPost connection ENDPOINT_ENRICHMENT (requestBody record) with
  | Ok parsed => outcome connection record = withResponse record (Some parsed)
  | Throw error =>
      outcome connection record =
        setMessage (withResponse record None)
          (Some ("Error sending request for component " +:+ componentName record
                   +:+ ": " +:+ errorMessageOf error))
  end.
Proof.
  unfold outcome, sendEnrichmentRequest.
  by destruct (requestPost connection ENDPOINT_ENRICHMENT (requestBody record)).
Qed.

End DispatchFacts.

Section DispatchTheorems.
Import EnrichmentHandler DispatchSpec DispatchFacts.

(** C2. Whatever the order in which the requests complete, dispatch returns
    one record per input record, in input order: the record at index [i]
    carries the name, type and request body of the input record at index
    [i], and it is the record a dispatch of that input record alone returns,
    so the failure of one request changes no other record's outcome. *)
Theorem sendEnrichmentRequests_order_and_isolation
    (connection : Connection) (records : list EnrichmentRequestRecord)
    (completion : list nat) :
  completion ≡ₚ seq 0 (length records) →
  ∃ sent,
    sendEnrichmentRequests connection records completion = Some sent
    ∧ length sent = length records
    ∧ (∀ completion', completion' ≡ₚ seq 0 (length records) →
         sendEnrichmentRequests connection records completion' = Some sent)
    ∧ ∀ i record, records !! i = Some record →
        ∃ returned,
          sent !! i = Some returned
          ∧ componentName returned = componentName record
          ∧ componentType returned = componentType record
          ∧ requestBody returned = requestBody record
          ∧ sendEnrichmentRequests connection [record] [0] = Some [returned].
Proof.
  intros Hperm. exists (map (outcome connection) records). split_and!.
  - by apply sendEnrichmentRequests_eq.
  - by rewrite length_map.
  - intros completion' Hperm'. by apply sendEnrichmentRequests_eq.
  - intros i record Hi. exists (outcome connection record).
    destruct (outcome_fields connection record) as (Hn & Ht & Hb).
    split_and!; try done.
    + by rewrite list_lookup_fmap, Hi.
    + by rewrite sendEnrichmentRequests_eq.
Qed.

Lemma sendEnrichmentRequests_order_and_isolation_witness :
  [1; 2; 0] ≡ₚ seq 0 (length [Fixture.requestRecord "alpha" None None;
                               Fixture.requestRecord "beta" None None;
                               Fixture.requestRecord "gamma" None None])
  ∧ ∃ sent,
      sendEnrichmentRequests Fixture.connection
        [Fixture.requestRecord "alpha" None None;
         Fixture.requestRecord "beta" None None;
         Fixture.requestRecord "gamma" None None] [1; 2; 0] = Some sent
      ∧ (response <$> sent) = [Some (Fixture.enrichMetadataResult "alpha"); None;
                               Some (Fixture.enrichMetadataResult "gamma")].
Proof.
  assert (Hperm : [1; 2; 0] ≡ₚ seq 0 3).
  { transitivity [1; 0; 2]; [apply perm_skip, perm_swap | apply perm_swap]. }
  split; [exact Hperm|].
  destruct (sendEnrichmentRequests_order_and_isolation Fixture.connection
              [Fixture.requestRecord "alpha" None None;
               Fixture.requestRecord "beta" None None;
               Fixture.requestRecord "gamma" None None] [1; 2; 0] Hperm)
    as (sent & Hsent & _).
  exists sent. split; [exact Hsent|].
  vm_compute in Hsent. injection Hsent as <-. reflexivity.
Defined.

(** C7. For every record [enrich] dispatches: when the remote call succeeds
    the returned record carries the parsed result as its response and no
    message; when the call fails the returned record has no response and its
    message is the text "Error sending request for component NAME: ERROR",
    which includes the component's name. *)
Theorem enrich_outcome_of_each_record {path : NodePath}
    (fs : Fs.FileSystem) (connection : Connection)
    (sourceComponents : list SourceComponent) (completion : list nat) :
  let records := createEnrichmentRequestRecords fs sourceComponents in
  completion ≡ₚ seq 0 (length records) →
  ∃ returned,
    enrich fs connection sourceComponents completion = Some returned
    ∧ ∀ i record, records !! i = Some record →
        match requestPost connection ENDPOINT_ENRICHMENT (requestBody record) with
        | Ok parsed =>
            returned !! i = Some {| componentName := componentName record;
                                    componentType := componentType record;
                                    requestBody := requestBody record;
                                    response := Some parsed;
                                    message := None |}
        | Throw error =>
            ∃ text,
              returned !! i = Some {| componentName := componentName record;
                                      componentType := componentType record;
                                      requestBody := requestBody record;
                                      response := None;
                                      message := Some text |}
              ∧ text = "Error sending request for component " +:+ componentName record
                         +:+ ": " +:+ errorMessageOf error
              ∧ includes text (componentName record) = true
        end.
Proof.
  intros records Hperm. exists (map (outcome connection) records). split.
  - unfold enrich. by apply sendEnrichmentRequests_eq.
  - intros i record Hi.
    assert (Hfresh : message record = None).
    { eapply createEnrichmentRequestRecords_fresh, list_elem_of_lookup_2, Hi. }
    rewrite list_lookup_fmap, Hi. simpl.
    pose proof (outcome_cases connection record) as Hcase.
    destruct (requestPost connection ENDPOINT_ENRICHMENT (requestBody record))
      as [parsed|error]; rewrite Hcase.
    + unfold withResponse. by rewrite Hfresh.
    + eexists. split_and!; [reflexivity|reflexivity|].
      apply (includes_app "Error sending request for component ").
Qed.

Lemma enrich_outcome_of_each_record_witness :
  [1; 0] ≡ₚ seq 0 (length (createEnrichmentRequestRecords (path := Fixture.path)
                             Fixture.fs [Fixture.alpha; Fixture.beta]))
  ∧ ∃ returned,
      enrich (path := Fixture.path) Fixture.fs Fixture.connection
        [Fixture.alpha; Fixture.beta] [1; 0] = Some returned
      ∧ (message <$> returned)
          = [None; Some "Error sending request for component beta: 503 Service Unavailable"].
Proof.
  assert (Hperm : [1; 0] ≡ₚ seq 0 (length (createEnrichmentRequestRecords
             (path := Fixture.path) Fixture.fs [Fixture.alpha; Fixture.beta]))).
  { vm_compute. apply perm_swap. }
  split; [exact Hperm|].
  destruct (enrich_outcome_of_each_record (path := Fixture.path) Fixture.fs
              Fixture.connection [Fixture.alpha; Fixture.beta] [1; 0] Hperm)
    as (returned & Hreturned & _).
  exists returned. split; [exact Hreturned|].
  vm_compute in Hreturned. injection Hreturned as <-. reflexivity.
Defined.

End DispatchTheorems.

(* ===================================================================== *)
(** * Properties of the request classifier                                *)
(* ===================================================================== *)

Module ClassifierFacts.
Import ComponentProcessor ClassifierSpec.
Section WithRegistry.
Variable getTypeByName : option string → string → result MetadataType.

Lemma has_fresh {A} (s : ObjectSet.t A) (x : Ref A) :
  Forall (λ y, addr y < addr x) s → ObjectSet.has s x = false.
Proof.
  induction 1 as [|y s Hy _ IH]; simpl; [done|].
  rewrite IH, orb_false_r. apply Nat.eqb_neq. lia.
Qed.

(** Every parsed object is new, so [add] never finds it in the set. *)
Lemma parseRequestedComponents_loop_deref entries projectDir :
  ∀ heap requestedComponents,
    Forall (λ y, addr y < heap) requestedComponents →
    map deref (parseRequestedComponents_loop getTypeByName entries projectDir heap
                 requestedComponents)
      = map deref requestedComponents ++ omap (requestedBy getTypeByName projectDir) entries.
Proof.
  induction entries as [|entry rest IH]; intros heap set Hfresh; simpl.
  - by rewrite app_nil_r.
  - unfold requestedBy at 1. simpl.
    destruct (parseMetadataEntry getTypeByName entry projectDir) as [value|]; simpl.
    + fold (discarded value). destruct (discarded value).
      * apply IH. eapply Forall_impl; [exact Hfresh|]. simpl. lia.
      * unfold ObjectSet.add. rewrite has_fresh by done.
        rewrite IH.
        -- rewrite map_app. simpl. by rewrite <- app_assoc.
        -- apply Forall_app. split.
           ++ eapply Forall_impl; [exact Hfresh|]. simpl. lia.
           ++ constructor; [simpl; lia|constructor].
    + by apply IH.
Qed.

Lemma parseRequestedComponents_deref entries projectDir :
  map deref (parseRequestedComponents getTypeByName entries projectDir)
    = omap (requestedBy getTypeByName projectDir) entries.
Proof.
  unfold parseRequestedComponents.
  by rewrite parseRequestedComponents_loop_deref.
Qed.

Lemma diffRequestedComponents_eq sourceComponents
    (requestedComponents : ObjectSet.t MetadataTypeAndMetadataName) :
  diffRequestedComponents sourceComponents requestedComponents
    = flat_map (missingFor sourceComponents) (map deref requestedComponents).
Proof.
  unfold diffRequestedComponents.
  match goal with |- foldl ?body [] ?l = _ =>
    enough (Hgen : ∀ acc, foldl body acc l
              = acc ++ flat_map (missingFor sourceComponents) (map deref l))
      by apply (Hgen [])
  end.
  induction requestedComponents as [|r rest IH]; intros acc; simpl.
  - by rewrite app_nil_r.
  - rewrite IH. unfold missingFor at 2.
    destruct (requested_componentName (deref r)) as [n|]; [|done].
    destruct (truthy n && _); [|done]. by rewrite <- app_assoc.
Qed.

Lemma filterComponents_eq sourceComponents
    (requestedComponents : ObjectSet.t MetadataTypeAndMetadataName) :
  filterComponents sourceComponents requestedComponents
    = flat_map (filteredFor sourceComponents) (map deref requestedComponents).
Proof.
  unfold filterComponents.
  match goal with |- foldl ?body [] ?l = _ =>
    enough (Hgen : ∀ acc, foldl body acc l
              = acc ++ flat_map (filteredFor sourceComponents) (map deref l))
      by apply (Hgen [])
  end.
  induction requestedComponents as [|r rest IH]; intros acc; simpl.
  - by rewrite app_nil_r.
  - rewrite IH. unfold filteredFor at 2.
    destruct (requested_componentName (deref r)) as [n|]; [|done].
    destruct (truthy n); [|done].
    destruct (createSourceComponentMap sourceComponents !! n) as [sc|]; [|done].
    destruct (bool_decide (typeNameOf sc ≠ _)), (bool_decide (typeNameOf sc = _) && _);
      simpl; by rewrite <- ?app_assoc.
Qed.

(** The closed form of [getComponentsToSkip]. *)
Lemma getComponentsToSkip_eq sourceComponents entries projectDir :
  getComponentsToSkip getTypeByName sourceComponents entries projectDir
    = flat_map (missingFor sourceComponents) (omap (requestedBy getTypeByName projectDir) entries)
      ++ flat_map (filteredFor sourceComponents) (omap (requestedBy getTypeByName projectDir) entries).
Proof.
  unfold getComponentsToSkip.
  by rewrite diffRequestedComponents_eq, filterComponents_eq,
    parseRequestedComponents_deref.
Qed.

End WithRegistry.
End ClassifierFacts.

Module ClassifierLemmas.
Import ComponentProcessor ClassifierSpec ClassifierFacts.
Section WithRegistry.
Variable getTypeByName : option string → string → result MetadataType.

Lemma isWildcard_contributes_nothing sourceComponents projectDir entry parsed :
  parseMetadataEntry getTypeByName entry projectDir = Some parsed →
  isWildcard parsed = true →
  flat_map (missingFor sourceComponents)
    (from_option (λ r, [r]) [] (requestedBy getTypeByName projectDir entry)) = []
  ∧ flat_map (filteredFor sourceComponents)
      (from_option (λ r, [r]) [] (requestedBy getTypeByName projectDir entry)) = [].
Proof.
  intros Hparse Hwild. unfold requestedBy. rewrite Hparse. simpl.
  unfold isWildcard in Hwild. unfold discarded, missingFor, filteredFor.
  destruct (requested_componentName parsed) as [n|] eqn:Hn; simpl.
  - rewrite Hwild, andb_true_r.
    destruct (truthy n) eqn:Htruthy; simpl; [done|].
    by rewrite Hn, Htruthy.
  - by rewrite Hn.
Qed.

Lemma omap_middle {A B} (f : A → option B) (before after : list A) (x : A) :
  omap f (before ++ x :: after)
    = omap f before ++ from_option (λ r, [r]) [] (f x) ++ omap f after.
Proof.
  rewrite omap_app. f_equal. simpl. by destruct (f x).
Qed.

(** A skip record is made from a requested identifier that was kept, has a
    name, and whose name is not empty. *)
Lemma skip_record_origin sourceComponents entries projectDir skip :
  skip ∈ getComponentsToSkip getTypeByName sourceComponents entries projectDir →
  ∃ entry requested n,
    entry ∈ entries
    ∧ requestedBy getTypeByName projectDir entry = Some requested
    ∧ requested_componentName requested = Some n
    ∧ truthy n = true
    ∧ status_type skip = requested_type requested
    ∧ status_componentName skip = Some n.
Proof.
  rewrite getComponentsToSkip_eq, elem_of_app, !list_elem_of_In, !in_flat_map.
  intros [(requested & Hin & Hskip)|(requested & Hin & Hskip)];
    apply list_elem_of_In, list_elem_of_omap in Hin as (entry & Hentry & Hreq);
    exists entry, requested.
  - unfold missingFor in Hskip.
    destruct (requested_componentName requested) as [n|] eqn:Hn; [|done].
    destruct (truthy n) eqn:Ht; [|done]. simpl in Hskip.
    destruct (negb _); [|done]. destruct Hskip as [<-|[]].
    exists n. by split_and!.
  - unfold filteredFor in Hskip.
    destruct (requested_componentName requested) as [n|] eqn:Hn; [|done].
    destruct (truthy n) eqn:Ht; [|done].
    destruct (createSourceComponentMap sourceComponents !! n) as [sc|]; [|done].
    exists n. apply in_app_or in Hskip as [Hskip|Hskip].
    + destruct (bool_decide _); [|done]. destruct Hskip as [<-|[]]. by split_and!.
    + destruct (_ && _); [|done]. destruct Hskip as [<-|[]]. by split_and!.
Qed.

Lemma includes_cons (c : Ascii.ascii) (s : string) (sep : Ascii.ascii) :
  includes (String c s) (String sep "") = false →
  c ≠ sep ∧ includes s (String sep "") = false.
Proof.
  simpl. destruct (Ascii.ascii_dec sep c) as [->|Hne]; simpl.
  - by destruct s.
  - intros Hrest. split; [congruence|done].
Qed.

(** [split] on a string without the separator. *)
Lemma split_without_separator (s : string) :
  includes s ":" = false → split ":"%char s = [s].
Proof.
  induction s as [|c s IH]; [done|].
  intros Hincl. apply includes_cons in Hincl as [Hne Hrest].
  simpl. rewrite (proj2 (Ascii.eqb_neq c ":")) by done.
  by rewrite IH.
Qed.

Lemma split_with_suffix (s after : string) :
  includes s ":" = false →
  split ":"%char (s +:+ String ":" after) = s :: split ":"%char after.
Proof.
  induction s as [|c s IH].
  - intros _. change ("" +:+ String ":" after) with (String ":" after). done.
  - intros Hincl. apply includes_cons in Hincl as [Hne Hrest].
    change ((String c s) +:+ String ":" after) with (String c (s +:+ String ":" after)).
    simpl. rewrite (proj2 (Ascii.eqb_neq c ":")) by done.
    by rewrite IH.
Qed.

(** The forms [Kind] and [Kind:*] parse to an identifier without name. *)
Lemma parseMetadataEntry_whole_kind projectDir (kind : string) (type : MetadataType) :
  includes kind ":" = false →
  getTypeByName projectDir (trim kind) = Ok type →
  parseMetadataEntry getTypeByName kind projectDir
    = Some {| requested_type := type_name type; requested_componentName := None |}
  ∧ parseMetadataEntry getTypeByName (kind +:+ ":*") projectDir
    = Some {| requested_type := type_name type; requested_componentName := None |}.
Proof.
  intros Hkind Htype. unfold parseMetadataEntry. split.
  - rewrite split_without_separator by done. simpl. by rewrite Htype.
  - rewrite split_with_suffix by done. simpl. by rewrite Htype.
Qed.

End WithRegistry.
End ClassifierLemmas.

Section ClassifierTheorems.
Import ComponentProcessor ClassifierSpec ClassifierFacts ClassifierLemmas.

(** C4 (the code does not deduplicate).  The requested set holds a new object
    for every entry, so an identifier supplied twice is diffed twice: the
    skip records of [entry; entry] are those of [entry], each twice over, and
    the identifier of a component that does not exist yields two "not found"
    records. *)
Theorem getComponentsToSkip_repeated_identifier :
  (∀ getTypeByName sourceComponents entry projectDir,
     length (getComponentsToSkip getTypeByName sourceComponents [entry; entry] projectDir)
       = 2 * length (getComponentsToSkip getTypeByName sourceComponents [entry] projectDir))
  ∧ getComponentsToSkip Fixture.getTypeByName []
      ["LightningComponentBundle:Ghost"; "LightningComponentBundle:Ghost"] None
    = [ {| status_type := "LightningComponentBundle";
           status_componentName := Some "Ghost";
           status_message := Some "Not found in source project" |};
        {| status_type := "LightningComponentBundle";
           status_componentName := Some "Ghost";
           status_message := Some "Not found in source project" |} ].
Proof.
  split; [|by vm_compute].
  intros getTypeByName sourceComponents entry projectDir.
  rewrite !getComponentsToSkip_eq. simpl.
  destruct (requestedBy getTypeByName projectDir entry) as [requested|]; simpl; [|done].
  rewrite !app_nil_r, !length_app. lia.
Qed.

(** C5 (as stated, refuted).  The name "all" is an ordinary name: the
    identifier [LightningComponentBundle:all] is kept, and when no component
    of that name exists it yields a "not found" skip record. *)
Lemma name_all_yields_skip_record :
  parseMetadataEntry Fixture.getTypeByName "LightningComponentBundle:all" None
    = Some {| requested_type := "LightningComponentBundle";
              requested_componentName := Some "all" |}
  ∧ getComponentsToSkip Fixture.getTypeByName [] ["LightningComponentBundle:all"] None
    = [ {| status_type := "LightningComponentBundle";
           status_componentName := Some "all";
           status_message := Some "Not found in source project" |} ].
Proof. split; by vm_compute. Qed.

(** C5 (amended).  An entry that parses to an identifier whose name is absent
    (the forms [Kind] and [Kind:*]) or contains the wildcard marker [*] has no
    effect on the classifier: the skip records are those computed without the
    entry, hence so are the components left to process, and no skip record
    bears an absent name, an empty name or a name containing [*]. *)
Theorem wildcard_identifier_is_ignored
    (getTypeByName : option string → string → result MetadataType)
    (sourceComponents : list SourceComponent)
    (before after : list string) (entry : string) (projectDir : option string)
    (parsed : MetadataTypeAndMetadataName) :
  parseMetadataEntry getTypeByName entry projectDir = Some parsed →
  isWildcard parsed = true →
  let skipped :=
    getComponentsToSkip getTypeByName sourceComponents (before ++ entry :: after) projectDir in
  let skippedWithout :=
    getComponentsToSkip getTypeByName sourceComponents (before ++ after) projectDir in
  skipped = skippedWithout
  ∧ EnrichMetadata.componentsToProcess sourceComponents skipped
    = EnrichMetadata.componentsToProcess sourceComponents skippedWithout
  ∧ ∀ skip, skip ∈ skipped →
      ∃ n, status_componentName skip = Some n ∧ n ≠ "" ∧ includes n "*" = false.
Proof.
  intros Hparse Hwild skipped skippedWithout.
  assert (Heq : skipped = skippedWithout).
  { subst skipped skippedWithout. rewrite !getComponentsToSkip_eq.
    destruct (isWildcard_contributes_nothing getTypeByName sourceComponents projectDir
                entry parsed Hparse Hwild) as [Hmissing Hfiltered].
    rewrite omap_middle, omap_app, !flat_map_app, Hmissing, Hfiltered. done. }
  split_and!; [done|by rewrite Heq|].
  intros skip Hskip.
  apply skip_record_origin in Hskip
    as (origin & requested & n & _ & Hreq & Hname & Htruthy & _ & Hstatus).
  exists n. split_and!; [done| |].
  - intros ->. done.
  - unfold requestedBy in Hreq.
    destruct (parseMetadataEntry getTypeByName origin projectDir) as [p|]; [|done].
    simpl in Hreq. destruct (discarded p) eqn:Hdiscarded; [done|].
    injection Hreq as ->. unfold discarded in Hdiscarded.
    rewrite Hname, Htruthy in Hdiscarded. done.
Qed.

Lemma wildcard_identifier_is_ignored_witness :
  parseMetadataEntry Fixture.getTypeByName "LightningComponentBundle:al*" None
    = Some {| requested_type := "LightningComponentBundle";
              requested_componentName := Some "al*" |}
  ∧ getComponentsToSkip Fixture.getTypeByName [Fixture.alpha]
      (["ApexClass:Ghost"] ++ "LightningComponentBundle:al*" :: ["LightningComponentBundle"]) None
    = getComponentsToSkip Fixture.getTypeByName [Fixture.alpha]
        (["ApexClass:Ghost"] ++ ["LightningComponentBundle"]) None.
Proof.
  split; [by vm_compute|].
  apply (wildcard_identifier_is_ignored Fixture.getTypeByName [Fixture.alpha]
           ["ApexClass:Ghost"] ["LightningComponentBundle"]
           "LightningComponentBundle:al*" None
           {| requested_type := "LightningComponentBundle";
              requested_componentName := Some "al*" |});
    by vm_compute.
Defined.

End ClassifierTheorems.

(* ===================================================================== *)
(** * Properties of the string operations                                 *)
(* ===================================================================== *)

Module StringFacts.

Lemma append_cons (c : Ascii.ascii) (s t : string) :
  String c s +:+ t = String c (s +:+ t).
Proof. reflexivity. Qed.

Lemma append_empty_l (t : string) : "" +:+ t = t.
Proof. reflexivity. Qed.

Lemma append_empty_r (s : string) : s +:+ "" = s.
Proof. induction s as [|c s IH]; [done|]. by rewrite append_cons, IH. Qed.

Lemma append_assoc (s t u : string) : (s +:+ t) +:+ u = s +:+ t +:+ u.
Proof. induction s as [|c s IH]; [done|]. by rewrite !append_cons, IH. Qed.

Lemma split_nonempty (sep : Ascii.ascii) (s : string) : split sep s ≠ [].
Proof.
  destruct s as [|c s]; simpl; [done|].
  destruct (Ascii.eqb c sep); [done|]. by destruct (split sep s).
Qed.

Lemma concat_cons_string (sep : string) (c : Ascii.ascii) (head : string)
    (tail : list string) :
  String.concat sep (String c head :: tail) = String c (String.concat sep (head :: tail)).
Proof. by destruct tail. Qed.

Lemma concat_cons_cons (sep x y : string) (rest : list string) :
  String.concat sep (x :: y :: rest) = x +:+ sep +:+ String.concat sep (y :: rest).
Proof. reflexivity. Qed.

(** Joining the pieces of a split gives the string back. *)
Lemma join_split (sep : Ascii.ascii) (s : string) :
  join (String sep "") (split sep s) = s.
Proof.
  unfold join. induction s as [|c s IH]; [done|].
  simpl. destruct (Ascii.eqb_spec c sep) as [->|Hne].
  - pose proof (split_nonempty sep s) as Hne.
    destruct (split sep s) as [|y rest]; [done|].
    rewrite concat_cons_cons, IH. reflexivity.
  - pose proof (split_nonempty sep s) as Hsplit.
    destruct (split sep s) as [|y rest]; [done|].
    by rewrite concat_cons_string, IH.
Qed.

End StringFacts.

(* ===================================================================== *)
(** * Properties of the result merger                                     *)
(* ===================================================================== *)

Module MergeFacts.
Import FileProcessor FileReader MergeSpec.
Section WithCollaborators.
Context {path : NodePath} {xmlLibrary : XmlLibrary} {numberFormat : NumberFormat}.

Lemma updateMetadataFiles_loop_cons file rest records fs :
  updateMetadataFiles_loop (file :: rest) records fs
    = updateMetadataFiles_loop rest (mergeFile (records, fs) file).1
        (mergeFile (records, fs) file).2.
Proof.
  unfold mergeFile, target, attempt. simpl.
  destruct (isMetaXmlFile (filePath file)); simpl; [|done].
  destruct (list_find _ records) as [[index record]|]; simpl; [|done].
  destruct (response record) as [resp|]; simpl; [|done].
  destruct (results resp) as [|enrichmentResult others]; simpl; [done|].
  destruct (updateMetaXml (fileContents file) enrichmentResult) as [updatedXml|error];
    simpl; [|done].
  by destruct (Fs.writeFile fs (filePath file) updatedXml).
Qed.

(** The loop never throws. *)
Lemma updateMetadataFiles_loop_eq files : ∀ records fs,
  updateMetadataFiles_loop files records fs = Ok (foldl mergeFile (records, fs) files).
Proof.
  induction files as [|file rest IH]; intros records fs; [done|].
  rewrite updateMetadataFiles_loop_cons, IH. simpl.
  by destruct (mergeFile (records, fs) file).
Qed.

Lemma target_Some file records index record enrichmentResult :
  target file records = Some (index, record, enrichmentResult) →
  isMetaXmlFile (filePath file) = true
  ∧ list_find (λ r, componentName r = file_componentName file) records
      = Some (index, record)
  ∧ records !! index = Some record
  ∧ ∃ resp, response record = Some resp ∧ head (results resp) = Some enrichmentResult.
Proof.
  unfold target. destruct (isMetaXmlFile (filePath file)); [|done].
  destruct (list_find _ records) as [[i r]|] eqn:Hfind; simpl; [|done].
  destruct (response r) as [resp|] eqn:Hresp; simpl; [|done].
  destruct (head (results resp)) as [res|] eqn:Hres; simpl; [|done].
  intros [= -> -> ->]. apply list_find_Some in Hfind as Hfound.
  destruct Hfound as (Hlookup & _). split_and!; eauto.
Qed.

Lemma mergeFile_preserves st file :
  map withoutMessage (mergeFile st file).1 = map withoutMessage st.1.
Proof.
  unfold mergeFile.
  destruct (target file st.1) as [[[index record] enrichmentResult]|] eqn:Htarget; [|done].
  destruct (attempt file enrichmentResult st.2); [done|]. simpl.
  apply target_Some in Htarget as (_ & _ & Hlookup & _).
  rewrite list_fmap_insert. apply list_insert_id.
  by rewrite list_lookup_fmap, Hlookup.
Qed.

Lemma foldl_mergeFile_preserves files : ∀ st,
  map withoutMessage (foldl mergeFile st files).1 = map withoutMessage st.1.
Proof.
  induction files as [|file rest IH]; intros st; [done|].
  simpl. by rewrite IH, mergeFile_preserves.
Qed.

(** The merge changes nothing of a record but its message. *)
Lemma updateMetadataFiles_preserves fs sourceComponents records :
  ∃ merged fs',
    updateMetadataFiles fs sourceComponents records = Ok (merged, fs')
    ∧ map withoutMessage merged = map withoutMessage records.
Proof.
  unfold updateMetadataFiles. rewrite updateMetadataFiles_loop_eq.
  destruct (foldl mergeFile _ _) as [merged fs'] eqn:Hfold.
  exists merged, fs'. split; [done|].
  change merged with (merged, fs').1. rewrite <- Hfold.
  apply foldl_mergeFile_preserves.
Qed.

(** ** Reading the support files *)

Lemma readComponentXmlFilesInParallel_eq fs sourceComponents :
  readComponentXmlFilesInParallel fs sourceComponents
    = flat_map (xmlFileOf fs) sourceComponents.
Proof.
  unfold readComponentXmlFilesInParallel.
  match goal with |- dropNull (foldl ?body [] ?l) = _ =>
    enough (Hgen : ∀ acc, dropNull (foldl body acc l)
              = dropNull acc ++ flat_map (xmlFileOf fs) l)
      by apply (Hgen [])
  end.
  induction sourceComponents as [|component rest IH]; intros acc; simpl.
  - by rewrite app_nil_r.
  - rewrite IH. unfold xmlFileOf at 2.
    destruct (componentNameOf component) as [n|]; [|done].
    destruct (xml component) as [p|]; [|done].
    destruct (truthy n && truthy p); [|done].
    unfold dropNull. rewrite omap_app, <- app_assoc. simpl.
    by destruct (readFileMetadata fs n p).
Qed.

Lemma readFileMetadata_Some fs componentName filePath' file :
  readFileMetadata fs componentName filePath' = Some file →
  filePath file = filePath'
  ∧ file_componentName file = componentName
  ∧ Fs.readFile fs filePath' = Ok (fileContents file).
Proof.
  unfold readFileMetadata.
  destruct (Fs.readFile fs filePath') as [text|]; simpl; [|done].
  by intros [= <-].
Qed.

Lemma readFileMetadata_unreadable fs componentName filePath' error :
  Fs.readFile fs filePath' = Throw error →
  readFileMetadata fs componentName filePath' = None.
Proof. unfold readFileMetadata. by intros ->. Qed.

Lemma readFileMetadata_Ok fs componentName filePath' text :
  Fs.readFile fs filePath' = Ok text →
  readFileMetadata fs componentName filePath'
    = Some {| file_componentName := componentName;
              filePath := filePath';
              fileContents := text;
              mimeType := getMimeTypeFromExtension filePath' |}.
Proof. unfold readFileMetadata. by intros ->. Qed.

(** What was read is the text of the file. *)
Lemma readComponentXmlFilesInParallel_sound fs sourceComponents file :
  file ∈ readComponentXmlFilesInParallel fs sourceComponents →
  Fs.readFile fs (filePath file) = Ok (fileContents file).
Proof.
  rewrite readComponentXmlFilesInParallel_eq, list_elem_of_In, in_flat_map.
  intros (component & _ & Hin). unfold xmlFileOf in Hin.
  destruct (componentNameOf component) as [n|]; [|done].
  destruct (xml component) as [p|]; [|done].
  destruct (truthy n && truthy p); [|done].
  destruct (readFileMetadata fs n p) as [read|] eqn:Hread; [|done].
  destruct Hin as [<-|[]].
  apply readFileMetadata_Some in Hread as (-> & _ & Htext). done.
Qed.

(** ** One file at a time *)

(** The support file of a named component, once read. *)
Lemma xmlFileOf_readable fs component n xmlPath text :
  componentNameOf component = Some n →
  n ≠ "" →
  xml component = Some xmlPath →
  xmlPath ≠ "" →
  Fs.readFile fs xmlPath = Ok text →
  xmlFileOf fs component
    = [ {| file_componentName := n;
           filePath := xmlPath;
           fileContents := text;
           mimeType := getMimeTypeFromExtension xmlPath |} ].
Proof.
  intros Hname Hn Hxml Hp Hread. unfold xmlFileOf. rewrite Hname, Hxml.
  assert (truthy n = true) as -> by (by destruct n).
  assert (truthy xmlPath = true) as -> by (by destruct xmlPath).
  simpl. by rewrite (readFileMetadata_Ok _ _ _ _ Hread).
Qed.

(** The files read bear names and paths of the components, in their order. *)
Lemma xmlFiles_names fs sourceComponents :
  map file_componentName (flat_map (xmlFileOf fs) sourceComponents)
    `sublist_of` omap componentNameOf sourceComponents.
Proof.
  induction sourceComponents as [|component rest IH]; [done|].
  change (flat_map ?f (component :: rest)) with (f component ++ flat_map f rest).
  change (omap ?f (component :: rest))
    with (match f component with Some y => y :: omap f rest | None => omap f rest end).
  unfold xmlFileOf at 1.
  destruct (componentNameOf component) as [n|]; [|done].
  destruct (xml component) as [p|]; [|by apply sublist_cons].
  destruct (truthy n && truthy p); [|by apply sublist_cons].
  destruct (readFileMetadata fs n p) as [file|] eqn:Hread; [|by apply sublist_cons].
  apply readFileMetadata_Some in Hread as (_ & <- & _). simpl.
  by apply sublist_skip.
Qed.

Lemma xmlFiles_paths fs sourceComponents :
  map filePath (flat_map (xmlFileOf fs) sourceComponents)
    `sublist_of` omap xml sourceComponents.
Proof.
  induction sourceComponents as [|component rest IH]; [done|].
  change (flat_map ?f (component :: rest)) with (f component ++ flat_map f rest).
  change (omap ?f (component :: rest))
    with (match f component with Some y => y :: omap f rest | None => omap f rest end).
  unfold xmlFileOf at 1.
  destruct (componentNameOf component) as [n|];
    [|by destruct (xml component); [apply sublist_cons|]].
  destruct (xml component) as [p|]; [|done].
  destruct (truthy n && truthy p); [|by apply sublist_cons].
  destruct (readFileMetadata fs n p) as [file|] eqn:Hread; [|by apply sublist_cons].
  apply readFileMetadata_Some in Hread as (<- & _ & _). simpl.
  by apply sublist_skip.
Qed.

(** The record found for a name is found at the same place once messages
    have changed. *)
Lemma list_find_name_index (n : string) (records records' : list EnrichmentRequestRecord) :
  map withoutMessage records' = map withoutMessage records →
  fst <$> list_find (λ record, componentName record = n) records'
    = fst <$> list_find (λ record, componentName record = n) records.
Proof.
  revert records'. induction records as [|record rest IH]; intros [|record' rest'] Hsame;
    try done.
  injection Hsame as Hname _ _ _ Htail.
  cbn [list_find]. rewrite Hname.
  destruct (decide (componentName record = n)); [done|].
  specialize (IH rest' Htail).
  destruct (list_find _ rest') as [[]|], (list_find _ rest) as [[]|];
    simpl in *; congruence.
Qed.

Lemma target_stable file (records records' : list EnrichmentRequestRecord)
    index record enrichmentResult :
  map withoutMessage records' = map withoutMessage records →
  target file records = Some (index, record, enrichmentResult) →
  records' !! index = Some record →
  target file records' = Some (index, record, enrichmentResult).
Proof.
  intros Hsame Htarget Hlookup. unfold target in *.
  destruct (isMetaXmlFile (filePath file)); [|done].
  pose proof (list_find_name_index (file_componentName file) records records' Hsame)
    as Hindex.
  destruct (list_find _ records) as [[i r]|] eqn:Hfind; simpl in *; [|done].
  destruct (list_find _ records') as [[i' r']|] eqn:Hfind'; simpl in *; [|done].
  injection Hindex as ->.
  destruct (response r) as [resp|] eqn:Hresp; simpl in *; [|done].
  destruct (head (results resp)) as [res|] eqn:Hres; simpl in *; [|done].
  injection Htarget as -> -> ->.
  apply list_find_Some in Hfind' as (Hlookup' & _).
  assert (r' = record) as -> by congruence.
  rewrite Hresp. simpl. by rewrite Hres.
Qed.

(** The outcome of the [try] block, away from the files. *)
Lemma attempt_Ok file enrichmentResult fs updatedXml :
  updateMetaXml (fileContents file) enrichmentResult = Ok updatedXml →
  filePath file ∉ Fs.readOnly fs →
  attempt file enrichmentResult fs
    = Ok {| Fs.files := <[filePath file := Utf8.encode updatedXml]> (Fs.files fs);
            Fs.readOnly := Fs.readOnly fs |}.
Proof.
  intros Hupdate Hwritable. unfold attempt, Fs.writeFile. rewrite Hupdate. simpl.
  by rewrite bool_decide_eq_false_2.
Qed.

Lemma attempt_Throw file enrichmentResult fs error :
  attempt file enrichmentResult fs = Throw error
  ↔ updateMetaXml (fileContents file) enrichmentResult = Throw error
    ∨ ∃ updatedXml,
        updateMetaXml (fileContents file) enrichmentResult = Ok updatedXml
        ∧ Fs.writeFile fs (filePath file) updatedXml = Throw error.
Proof.
  unfold attempt.
  destruct (updateMetaXml (fileContents file) enrichmentResult) as [updatedXml|e];
    simpl; split.
  - intros Hwrite. right. eauto.
  - intros [?|(u & [= <-] & Hwrite)]; done.
  - intros [= ->]. by left.
  - intros [[= ->]|(u & ? & _)]; done.
Qed.

(** Whether the [try] block throws, and what, depends on the files only
    through the set of protected paths. *)
Lemma attempt_Throw_stable file enrichmentResult fs fs' error :
  Fs.readOnly fs' = Fs.readOnly fs →
  attempt file enrichmentResult fs = Throw error →
  attempt file enrichmentResult fs' = Throw error.
Proof.
  intros Hro. rewrite !attempt_Throw.
  intros [?|(u & Hupdate & Hwrite)]; [by left|]. right. exists u. split; [done|].
  unfold Fs.writeFile in *. rewrite Hro. by destruct (bool_decide _).
Qed.

Lemma mergeFile_readOnly (st : State) file :
  Fs.readOnly (mergeFile st file).2 = Fs.readOnly st.2.
Proof.
  unfold mergeFile.
  destruct (target file st.1) as [[[index record] enrichmentResult]|]; [|done].
  unfold attempt.
  destruct (updateMetaXml (fileContents file) enrichmentResult) as [updatedXml|error];
    simpl; [|done].
  unfold Fs.writeFile. by destruct (bool_decide _).
Qed.

(** A path that is protected keeps its content. *)
Lemma mergeFile_protected (st : State) file p :
  p ∈ Fs.readOnly st.2 →
  Fs.files (mergeFile st file).2 !! p = Fs.files st.2 !! p.
Proof.
  intros Hprotected. unfold mergeFile.
  destruct (target file st.1) as [[[index record] enrichmentResult]|]; [|done].
  unfold attempt.
  destruct (updateMetaXml (fileContents file) enrichmentResult) as [updatedXml|error];
    simpl; [|done].
  unfold Fs.writeFile. destruct (bool_decide _) eqn:Hro; simpl; [done|].
  apply bool_decide_eq_false_1 in Hro.
  apply lookup_insert_ne. intros Heq. by rewrite Heq in Hro.
Qed.

(** An iteration for another name and another path leaves a record and a
    file as they are. *)
Lemma mergeFile_other (st : State) file index record p :
  st.1 !! index = Some record →
  componentName record ≠ file_componentName file →
  filePath file ≠ p →
  (mergeFile st file).1 !! index = Some record
  ∧ Fs.files (mergeFile st file).2 !! p = Fs.files st.2 !! p.
Proof.
  intros Hlookup Hname Hpath. unfold mergeFile.
  destruct (target file st.1) as [[[found foundRecord] enrichmentResult]|] eqn:Htarget;
    [|done].
  apply target_Some in Htarget as (_ & Hfind & Hfound & _).
  apply list_find_Some in Hfind as (_ & Hfoundname & _).
  unfold attempt.
  destruct (updateMetaXml (fileContents file) enrichmentResult) as [updatedXml|error];
    simpl.
  - unfold Fs.writeFile. destruct (bool_decide _); simpl.
    + split; [|done]. rewrite list_lookup_insert_ne; [done|]. intros ->. congruence.
    + split; [done|]. by apply lookup_insert_ne.
  - split; [|done]. rewrite list_lookup_insert_ne; [done|]. intros ->. congruence.
Qed.

Lemma foldl_mergeFile_other files : ∀ (st : State) index record p,
  st.1 !! index = Some record →
  Forall (λ file, componentName record ≠ file_componentName file ∧ filePath file ≠ p)
         files →
  (foldl mergeFile st files).1 !! index = Some record
  ∧ Fs.files (foldl mergeFile st files).2 !! p = Fs.files st.2 !! p.
Proof.
  induction files as [|file rest IH]; intros st index record p Hlookup Hother; [done|].
  apply Forall_cons in Hother as [[Hname Hpath] Hrest]. simpl.
  destruct (mergeFile_other st file index record p Hlookup Hname Hpath) as [Hkept Hfile].
  destruct (IH (mergeFile st file) index record p Hkept Hrest) as [Hkept' Hfile'].
  split; [done|congruence].
Qed.

Lemma foldl_mergeFile_readOnly files : ∀ st : State,
  Fs.readOnly (foldl mergeFile st files).2 = Fs.readOnly st.2.
Proof.
  induction files as [|file rest IH]; intros st; [done|].
  simpl. by rewrite IH, mergeFile_readOnly.
Qed.

(** With one file per name and per path, every file has the outcome of
    its own [try] block: a block that returns leaves its record alone and
    its text in the file; a block that throws leaves the file alone and
    the error text in the message of its record. *)
Lemma foldl_mergeFile_outcome files : ∀ (st : State),
  NoDup (map file_componentName files) →
  NoDup (map filePath files) →
  ∀ file index record enrichmentResult,
    file ∈ files →
    target file st.1 = Some (index, record, enrichmentResult) →
    (∀ updatedXml,
       updateMetaXml (fileContents file) enrichmentResult = Ok updatedXml →
       filePath file ∉ Fs.readOnly st.2 →
       (foldl mergeFile st files).1 !! index = Some record
       ∧ Fs.files (foldl mergeFile st files).2 !! filePath file
         = Some (Utf8.encode updatedXml))
    ∧ (∀ error,
         attempt file enrichmentResult st.2 = Throw error →
         (foldl mergeFile st files).1 !! index
           = Some (setMessage record (Some (errorMessageOf error)))
         ∧ Fs.files (foldl mergeFile st files).2 !! filePath file
           = Fs.files st.2 !! filePath file).
Proof.
  induction files as [|first rest IH]; intros st Hnames Hpaths file index record
    enrichmentResult Hin Htarget; [by apply elem_of_nil in Hin|].
  simpl in Hnames, Hpaths.
  apply NoDup_cons in Hnames as [Hname Hnames], Hpaths as [Hpath Hpaths].
  pose proof Htarget as Hfound.
  apply target_Some in Hfound as (Hmeta & Hfind & Hlookup & _).
  apply list_find_Some in Hfind as (_ & Hrecordname & _).
  apply elem_of_cons in Hin as [->|Hin].
  - (* the file at hand *)
    assert (Hothers : Forall (λ other, file_componentName first ≠ file_componentName other
                                       ∧ filePath other ≠ filePath first) rest).
    { apply Forall_forall. intros other Hother. split.
      - intros Heq. apply Hname. rewrite Heq. by apply list_elem_of_fmap_2.
      - intros Heq. apply Hpath. rewrite <- Heq. by apply list_elem_of_fmap_2. }
    simpl. split.
    + intros updatedXml Hupdate Hwritable.
      assert (Hstep : mergeFile st first
                      = (st.1, {| Fs.files := <[filePath first := Utf8.encode updatedXml]>
                                                (Fs.files st.2);
                                  Fs.readOnly := Fs.readOnly st.2 |})).
      { unfold mergeFile. rewrite Htarget.
        by rewrite (attempt_Ok _ _ _ _ Hupdate Hwritable). }
      rewrite Hstep.
      match goal with |- context [foldl mergeFile ?st1 rest] =>
        destruct (foldl_mergeFile_other rest st1 index record (filePath first)) as [Hkept Hfile]
      end; [done|by rewrite Hrecordname|].
      split; [done|]. rewrite Hfile. simpl. apply lookup_insert_eq.
    + intros error Hattempt.
      assert (Hstep : mergeFile st first
                      = (<[index := setMessage record (Some (errorMessageOf error))]> st.1,
                         st.2)).
      { unfold mergeFile. by rewrite Htarget, Hattempt. }
      rewrite Hstep.
      match goal with |- context [foldl mergeFile ?st1 rest] =>
        destruct (foldl_mergeFile_other rest st1 index
                    (setMessage record (Some (errorMessageOf error))) (filePath first))
          as [Hkept Hfile]
      end.
      * simpl. apply list_lookup_insert_eq. by eapply lookup_lt_Some.
      * simpl. by rewrite Hrecordname.
      * done.
  - (* a later file *)
    assert (Hnamediff : componentName record ≠ file_componentName first).
    { rewrite Hrecordname. intros Heq. apply Hname. rewrite <- Heq.
      by apply list_elem_of_fmap_2. }
    assert (Hpathdiff : filePath first ≠ filePath file).
    { intros Heq. apply Hpath. rewrite Heq. by apply list_elem_of_fmap_2. }
    destruct (mergeFile_other st first index record (filePath file) Hlookup Hnamediff
                Hpathdiff) as [Hkept Hfile].
    assert (Htarget' : target file (mergeFile st first).1
                       = Some (index, record, enrichmentResult)).
    { apply (target_stable file st.1); [apply mergeFile_preserves|done|done]. }
    destruct (IH (mergeFile st first) Hnames Hpaths file index record enrichmentResult
                Hin Htarget') as [Hok Hthrow].
    simpl. split.
    + intros updatedXml Hupdate Hwritable. apply Hok; [done|].
      by rewrite mergeFile_readOnly.
    + intros error Hattempt.
      destruct (Hthrow error) as [Hmessage Hsame].
      { eapply attempt_Throw_stable; [|exact Hattempt]. apply mergeFile_readOnly. }
      split; [done|congruence].
Qed.

(** The same for the merge step and the support file of a component. *)
Lemma updateMetadataFiles_outcome fs sourceComponents enrichmentRecords merged fs'
    component xmlPath text index record enrichmentResult :
  NoDup (omap componentNameOf sourceComponents) →
  NoDup (omap xml sourceComponents) →
  updateMetadataFiles fs sourceComponents enrichmentRecords = Ok (merged, fs') →
  component ∈ sourceComponents →
  reaches fs enrichmentRecords component xmlPath text index record enrichmentResult →
  (∀ updatedXml,
     updateMetaXml text enrichmentResult = Ok updatedXml →
     xmlPath ∉ Fs.readOnly fs →
     merged !! index = Some record
     ∧ Fs.files fs' !! xmlPath = Some (Utf8.encode updatedXml))
  ∧ (∀ error,
       (updateMetaXml text enrichmentResult = Throw error
        ∨ ∃ updatedXml,
            updateMetaXml text enrichmentResult = Ok updatedXml
            ∧ Fs.writeFile fs xmlPath updatedXml = Throw error) →
       merged !! index = Some (setMessage record (Some (errorMessageOf error)))
       ∧ Fs.files fs' !! xmlPath = Fs.files fs !! xmlPath).
Proof.
  intros Hnames Hpaths Hmerged Hin
    (n & resp & Hname & Hn & Hxml & Hp & Hmeta & Hread & Hfind & Hresp & Hres).
  unfold updateMetadataFiles in Hmerged.
  rewrite updateMetadataFiles_loop_eq, readComponentXmlFilesInParallel_eq in Hmerged.
  injection Hmerged as Hmerged.
  set (file := {| file_componentName := n; filePath := xmlPath; fileContents := text;
                  mimeType := getMimeTypeFromExtension xmlPath |}).
  assert (Hfile : file ∈ flat_map (xmlFileOf fs) sourceComponents).
  { apply list_elem_of_In, in_flat_map. exists component.
    split; [by apply list_elem_of_In|].
    rewrite (xmlFileOf_readable fs component n xmlPath text) by done. by left. }
  assert (Htarget : target file (enrichmentRecords, fs).1
                    = Some (index, record, enrichmentResult)).
  { unfold target. simpl. rewrite Hmeta, Hfind. simpl. rewrite Hresp. simpl.
    by rewrite Hres. }
  assert (Hfilenames : NoDup (map file_componentName
                                (flat_map (xmlFileOf fs) sourceComponents)))
    by (eapply sublist_NoDup; [exact Hnames|apply xmlFiles_names]).
  assert (Hfilepaths : NoDup (map filePath (flat_map (xmlFileOf fs) sourceComponents)))
    by (eapply sublist_NoDup; [exact Hpaths|apply xmlFiles_paths]).
  destruct (foldl_mergeFile_outcome (flat_map (xmlFileOf fs) sourceComponents)
              (enrichmentRecords, fs) Hfilenames Hfilepaths
              file index record enrichmentResult Hfile Htarget) as [Hok Hthrow].
  rewrite Hmerged in Hok, Hthrow. simpl in Hok, Hthrow. split.
  - exact Hok.
  - intros error Hfail. apply Hthrow. by apply attempt_Throw.
Qed.

End WithCollaborators.
End MergeFacts.

Module MergeLemmas.
Import FileProcessor FileReader MergeSpec MergeFacts.
Section WithCollaborators.
Context {path : NodePath} {xmlLibrary : XmlLibrary} {numberFormat : NumberFormat}.

Lemma spellsTrue_toLowerCase (s : string) :
  Spec.spellsTrue s → toLowerCase s = "true".
Proof.
  intros (t & r & u & e & -> & Ht & Hr & Hu & He).
  destruct Ht as [->| ->], Hr as [->| ->], Hu as [->| ->], He as [->| ->]; reflexivity.
Qed.

Lemma optOutFlag_eq (document : XmlDocument) :
  Xml.optionalChain
    (Xml.optionalChain (Xml.lookup document FileProcessor.LightningComponentBundle) "ai")
    "skipUplift"
  = Spec.optOutFlag document.
Proof.
  unfold Spec.optOutFlag, FileProcessor.LightningComponentBundle.
  destruct (Xml.lookup document "LightningComponentBundle") as [bundle|]; simpl; [|done].
  by destruct (Xml.getProperty bundle "ai").
Qed.

(** With the opt-out flag set, [updateMetaXml] returns its input. *)
Lemma updateMetaXml_opted_out text document enrichmentResult :
  parse text = Ok document →
  Spec.optedOut document →
  updateMetaXml text enrichmentResult = Ok text.
Proof.
  intros Hparse Hopt. unfold updateMetaXml. rewrite Hparse. simpl.
  rewrite optOutFlag_eq.
  destruct Hopt as [->|(s & -> & Hs)]; simpl; [done|].
  by rewrite (spellsTrue_toLowerCase s Hs).
Qed.

(** Well-formed UTF-8 decodes to itself. *)
Lemma feed_cons decoder b rest :
  Utf8.feed decoder (String b rest) = Utf8.feed (Utf8.step decoder b) rest.
Proof. reflexivity. Qed.

Lemma feed_wellFormed (n : nat) : ∀ (data output : string),
  (String.length data ≤ n)%nat →
  isWellFormed data = true →
  Utf8.feed (Utf8.idle output) data = Utf8.idle (output +:+ data).
Proof.
  induction n as [|n IH]; intros data output Hlen Hwf.
  { destruct data; [|simpl in Hlen; lia]. by rewrite StringFacts.append_empty_r. }
  destruct data as [|a rest1]; [by rewrite StringFacts.append_empty_r|].
  cbn [isWellFormed] in Hwf. cbv zeta in Hwf.
  rewrite feed_cons.
  change (Utf8.step (Utf8.idle output) a) with (Utf8.start output a).
  unfold Utf8.start.
  destruct (code a <=? 0x7F)%N.
  { rewrite IH; [|simpl in Hlen; lia|done]. f_equal. apply StringFacts.append_assoc. }
  destruct ((0xC2 <=? code a)%N && (code a <=? 0xDF)%N).
  { destruct rest1 as [|b rest2]; [done|].
    apply andb_true_iff in Hwf as [Hb Hwf].
    rewrite feed_cons. unfold Utf8.step. cbn [Utf8.needed Utf8.lower Utf8.upper
      Utf8.pending Utf8.output]. rewrite Hb.
    rewrite IH; [|simpl in Hlen; lia|done]. f_equal.
    by rewrite !StringFacts.append_assoc. }
  destruct ((0xE0 <=? code a)%N && (code a <=? 0xEF)%N).
  { destruct rest1 as [|b [|c rest3]]; [done..|].
    apply andb_true_iff in Hwf as [Hbc Hwf].
    apply andb_true_iff in Hbc as [Hbc Hc2]. apply andb_true_iff in Hbc as [Hb Hc1].
    rewrite !feed_cons. unfold Utf8.step.
    cbn [Utf8.needed Utf8.lower Utf8.upper Utf8.pending Utf8.output]. rewrite Hb.
    cbn [Utf8.needed Utf8.lower Utf8.upper Utf8.pending Utf8.output]. rewrite Hc1, Hc2.
    cbn [andb].
    rewrite IH; [|simpl in Hlen; lia|done]. f_equal.
    by rewrite !StringFacts.append_assoc. }
  destruct ((0xF0 <=? code a)%N && (code a <=? 0xF4)%N); [|done].
  destruct rest1 as [|b [|c [|d rest4]]]; [done..|].
  apply andb_true_iff in Hwf as [Hbcd Hwf].
  apply andb_true_iff in Hbcd as [Hbcd Hd2]. apply andb_true_iff in Hbcd as [Hbcd Hd1].
  apply andb_true_iff in Hbcd as [Hbc Hc2]. apply andb_true_iff in Hbc as [Hb Hc1].
  rewrite !feed_cons. unfold Utf8.step.
  cbn [Utf8.needed Utf8.lower Utf8.upper Utf8.pending Utf8.output]. rewrite Hb.
  cbn [Utf8.needed Utf8.lower Utf8.upper Utf8.pending Utf8.output]. rewrite Hc1, Hc2.
  cbn [andb Utf8.needed Utf8.lower Utf8.upper Utf8.pending Utf8.output].
  rewrite Hd1, Hd2. cbn [andb].
  rewrite IH; [|simpl in Hlen; lia|done]. f_equal.
  by rewrite !StringFacts.append_assoc.
Qed.

Lemma decode_wellFormed (data : string) :
  isWellFormed data = true → Utf8.decode data = data.
Proof.
  intros Hwf. unfold Utf8.decode.
  by rewrite (feed_wellFormed (String.length data) data "" (le_n _) Hwf).
Qed.

(** A component whose support file cannot be read contributes no file. *)
Lemma xmlFileOf_unreadable fs component xmlPath error :
  xml component = Some xmlPath →
  Fs.readFile fs xmlPath = Throw error →
  xmlFileOf fs component = [].
Proof.
  intros Hxml Hread. unfold xmlFileOf. rewrite Hxml.
  destruct (componentNameOf component) as [n|]; [|done].
  destruct (truthy n && truthy xmlPath); [|done].
  by rewrite (readFileMetadata_unreadable _ _ _ _ Hread).
Qed.

End WithCollaborators.
End MergeLemmas.

Section OptOutTheorem.
Import FileProcessor FileReader MergeSpec MergeFacts MergeLemmas.

(** C3 (the opted-out file is written back).  [updateMetaXml] returns the
    text of an opted-out file so as not to update it, but the loop writes
    what it gets: the file holds after the merge step the encoding of the
    text it was decoded to.  That is the file as it was when the file is
    well-formed UTF-8, and only when decoding gives the bytes back; a
    support file in ISO 8859-1 that opts out comes out with U+FFFD for its
    letter U+00E9. *)
Theorem updateMetadataFiles_rewrites_opted_out_file :
  (∀ (path : NodePath) (xmlLibrary : XmlLibrary) (numberFormat : NumberFormat)
     (fs : Fs.FileSystem) (sourceComponents : list SourceComponent)
     (enrichmentRecords : list EnrichmentRequestRecord) (component : SourceComponent)
     (supportFile data : string) (document : XmlDocument) (index : nat)
     (record : EnrichmentRequestRecord) (enrichmentResult : EnrichmentResult),
     NoDup (omap componentNameOf sourceComponents) →
     NoDup (omap xml sourceComponents) →
     component ∈ sourceComponents →
     Fs.files fs !! supportFile = Some data →
     supportFile ∉ Fs.readOnly fs →
     reaches fs enrichmentRecords component supportFile (Utf8.decode data) index record
       enrichmentResult →
     parse (Utf8.decode data) = Ok document →
     Spec.optedOut document →
     ∃ merged fs',
       updateMetadataFiles fs sourceComponents enrichmentRecords = Ok (merged, fs')
       ∧ Fs.files fs' !! supportFile = Some (Utf8.decode data)
       ∧ (Fs.files fs' !! supportFile = Fs.files fs !! supportFile
          ↔ Utf8.decode data = data)
       ∧ (isWellFormed data = true →
          Fs.files fs' !! supportFile = Fs.files fs !! supportFile))
  ∧ Spec.optedOut Fixture.optedOutDocument
  ∧ parse (XmlLibrary := Fixture.legacyLibrary) (Utf8.decode Fixture.legacyFile)
    = Ok Fixture.optedOutDocument
  ∧ Fs.files Fixture.legacyFs !! "lwc/epsilon/epsilon.js-meta.xml"
    = Some ("<!-- caf" +:+ bytes [0xE9]%N +:+ " --><opted-out/>")
  ∧ isWellFormed ("<!-- caf" +:+ bytes [0xE9]%N +:+ " --><opted-out/>") = false
  ∧ ∃ fs',
      updateMetadataFiles (path := Fixture.path) (xmlLibrary := Fixture.legacyLibrary)
        (numberFormat := Fixture.numberFormat) Fixture.legacyFs [Fixture.epsilon]
        [Fixture.requestRecord "epsilon" (Some (Fixture.enrichMetadataResult "epsilon")) None]
      = Ok ([Fixture.requestRecord "epsilon" (Some (Fixture.enrichMetadataResult "epsilon"))
               None], fs')
      ∧ Fs.files fs' !! "lwc/epsilon/epsilon.js-meta.xml"
        = Some ("<!-- caf" +:+ bytes [0xEF; 0xBF; 0xBD]%N +:+ " --><opted-out/>")
      ∧ Fs.files fs' !! "lwc/epsilon/epsilon.js-meta.xml"
        ≠ Fs.files Fixture.legacyFs !! "lwc/epsilon/epsilon.js-meta.xml".
Proof.
  assert (Hopt : Spec.optedOut Fixture.optedOutDocument).
  { right. exists "TRUE". split; [reflexivity|].
    exists "T"%char, "R"%char, "U"%char, "E"%char. by split_and!; [|right..]. }
  split_and!; [|exact Hopt|by vm_compute|by vm_compute|by vm_compute|].
  - intros path xmlLibrary numberFormat fs sourceComponents enrichmentRecords component
      supportFile data document index record enrichmentResult
      Hnames Hpaths Hin Hdata Hwritable Hreaches Hparse Hopted.
    destruct (updateMetadataFiles_preserves fs sourceComponents enrichmentRecords)
      as (merged & fs' & Hmerged & _).
    destruct (updateMetadataFiles_outcome fs sourceComponents enrichmentRecords merged fs'
                component supportFile (Utf8.decode data) index record enrichmentResult
                Hnames Hpaths Hmerged Hin Hreaches) as [Hok _].
    destruct (Hok (Utf8.decode data)
                (updateMetaXml_opted_out _ _ enrichmentResult Hparse Hopted) Hwritable)
      as [_ Hwritten].
    exists merged, fs'. unfold Utf8.encode in Hwritten.
    split_and!; [done|done| |].
    + rewrite Hwritten, Hdata. split; congruence.
    + intros Hwf. by rewrite Hwritten, Hdata, (decode_wellFormed data Hwf).
  - eexists. split_and!; [by vm_compute|by vm_compute|].
    vm_compute. intros Hsame. discriminate Hsame.
Qed.

End OptOutTheorem.

Section MergeTheorems.
Import FileProcessor FileReader MergeSpec MergeFacts MergeLemmas.
Context {path : NodePath} {xmlLibrary : XmlLibrary} {numberFormat : NumberFormat}.

(** C8. When parsing, building or writing the support file of a component
    fails, the merge step returns all the same: the record of the component
    has the error text as its message and is otherwise as it was, and the
    file is as it was.  Every other component is dealt with as if nothing
    had failed: when its update is built and its file can be written, the
    file holds the update and its record is as it was, and when its own
    update fails its record has its own error text.  The components have
    distinct names and distinct support files.  And whatever it is given,
    the merge step returns, with as many records as it got. *)
Theorem updateMetadataFiles_captures_merge_failure
    (fs : Fs.FileSystem) (sourceComponents : list SourceComponent)
    (enrichmentRecords : list EnrichmentRequestRecord) (component : SourceComponent)
    (xmlPath text : string) (index : nat) (record : EnrichmentRequestRecord)
    (enrichmentResult : EnrichmentResult) (error : JsThrown) :
  NoDup (omap componentNameOf sourceComponents) →
  NoDup (omap xml sourceComponents) →
  component ∈ sourceComponents →
  reaches fs enrichmentRecords component xmlPath text index record enrichmentResult →
  (updateMetaXml text enrichmentResult = Throw error
   ∨ ∃ updatedXml,
       updateMetaXml text enrichmentResult = Ok updatedXml
       ∧ Fs.writeFile fs xmlPath updatedXml = Throw error) →
  (∃ merged fs' captured,
    updateMetadataFiles fs sourceComponents enrichmentRecords = Ok (merged, fs')
    ∧ length merged = length enrichmentRecords
    ∧ merged !! index = Some captured
    ∧ message captured = Some (errorMessageOf error)
    ∧ withoutMessage captured = withoutMessage record
    ∧ Fs.files fs' !! xmlPath = Fs.files fs !! xmlPath
    ∧ ∀ other otherPath otherText j otherRecord otherResult,
        other ∈ sourceComponents →
        reaches fs enrichmentRecords other otherPath otherText j otherRecord otherResult →
        (∀ updatedXml,
           updateMetaXml otherText otherResult = Ok updatedXml →
           otherPath ∉ Fs.readOnly fs →
           merged !! j = Some otherRecord
           ∧ Fs.files fs' !! otherPath = Some (Utf8.encode updatedXml))
        ∧ (∀ otherError,
             (updateMetaXml otherText otherResult = Throw otherError
              ∨ ∃ updatedXml,
                  updateMetaXml otherText otherResult = Ok updatedXml
                  ∧ Fs.writeFile fs otherPath updatedXml = Throw otherError) →
             ∃ captured',
               merged !! j = Some captured'
               ∧ message captured' = Some (errorMessageOf otherError)
               ∧ Fs.files fs' !! otherPath = Fs.files fs !! otherPath))
  ∧ ∀ anyFs anyComponents anyRecords,
      ∃ merged fs',
        updateMetadataFiles anyFs anyComponents anyRecords = Ok (merged, fs')
        ∧ length merged = length anyRecords.
Proof.
  intros Hnames Hpaths Hin Hreaches Hfail.
  split; cycle 1.
  { intros anyFs anyComponents anyRecords.
    destruct (updateMetadataFiles_preserves anyFs anyComponents anyRecords)
      as (merged & fs' & Hmerged & Hsame).
    exists merged, fs'. split; [done|].
    by rewrite <- (length_map withoutMessage merged), Hsame, length_map. }
  destruct (updateMetadataFiles_preserves fs sourceComponents enrichmentRecords)
    as (merged & fs' & Hmerged & Hsame).
  destruct (updateMetadataFiles_outcome fs sourceComponents enrichmentRecords merged fs'
              component xmlPath text index record enrichmentResult
              Hnames Hpaths Hmerged Hin Hreaches) as [_ Hthrow].
  destruct (Hthrow error Hfail) as [Hcaptured Huntouched].
  exists merged, fs', (setMessage record (Some (errorMessageOf error))).
  split_and!; [done| |done|done|done|done|].
  - by rewrite <- (length_map withoutMessage merged), Hsame, length_map.
  - intros other otherPath otherText j otherRecord otherResult Hother Hotherreaches.
    destruct (updateMetadataFiles_outcome fs sourceComponents enrichmentRecords merged fs'
                other otherPath otherText j otherRecord otherResult
                Hnames Hpaths Hmerged Hother Hotherreaches) as [Hok Hotherthrow].
    split; [exact Hok|].
    intros otherError Hotherfail.
    destruct (Hotherthrow otherError Hotherfail) as [Hj Hfile].
    by exists (setMessage otherRecord (Some (errorMessageOf otherError))).
Qed.

(** C9 (as stated, refuted).  The support file of [delta] is not on disk and
    [delta]'s record has a response; the merge returns the record as it was,
    with no message. *)
Lemma unreadable_support_file_sets_no_message :
  Fs.readFile Fixture.fs "lwc/delta/delta.js-meta.xml"
    = Throw (JsError
        "ENOENT: no such file or directory, open 'lwc/delta/delta.js-meta.xml'")
  ∧ updateMetadataFiles (path := Fixture.path) (xmlLibrary := Fixture.xmlLibrary)
      (numberFormat := Fixture.numberFormat) Fixture.fs [Fixture.delta]
      [Fixture.requestRecord "delta" (Some (Fixture.enrichMetadataResult "delta")) None]
    = Ok ([Fixture.requestRecord "delta" (Some (Fixture.enrichMetadataResult "delta")) None],
          Fixture.fs)
  ∧ message (Fixture.requestRecord "delta" (Some (Fixture.enrichMetadataResult "delta")) None)
    = None.
Proof. split_and!; by vm_compute. Qed.

(** C9 (amended).  A component whose support file cannot be read is passed
    over by the merge step: the records and files that result are those the
    merge yields without the component, so its record is returned unchanged,
    no message is set for it, and the other records are unaffected. *)
Theorem unreadable_support_file_is_passed_over
    (fs : Fs.FileSystem) (before after : list SourceComponent)
    (component : SourceComponent) (enrichmentRecords : list EnrichmentRequestRecord)
    (xmlPath : string) (error : JsThrown) :
  xml component = Some xmlPath →
  Fs.readFile fs xmlPath = Throw error →
  updateMetadataFiles fs (before ++ component :: after) enrichmentRecords
    = updateMetadataFiles fs (before ++ after) enrichmentRecords
  ∧ updateMetadataFiles fs [component] enrichmentRecords = Ok (enrichmentRecords, fs).
Proof.
  intros Hxml Hread.
  pose proof (xmlFileOf_unreadable fs component xmlPath error Hxml Hread) as Hnone.
  unfold updateMetadataFiles. rewrite !readComponentXmlFilesInParallel_eq. split.
  - rewrite !flat_map_app. simpl. by rewrite Hnone.
  - simpl. by rewrite Hnone.
Qed.

(** C10. A record with a response is counted in the success bucket also
    after the merge step, whatever the merge step did to its message: the
    merge leaves the response in place, the record's status stands in the
    success bucket with the record's message (the merge error, if the merge
    failed) as its text, the fail bucket is what it would be without the
    record, and the size of the success bucket is what it was before the
    merge. *)
Theorem merge_failure_stays_in_success_bucket
    (fs : Fs.FileSystem) (sourceComponents : list SourceComponent)
    (enrichmentRecords : list EnrichmentRequestRecord)
    (skippedComponents : list ComponentEnrichmentStatus)
    (i : nat) (record : EnrichmentRequestRecord) :
  enrichmentRecords !! i = Some record →
  is_Some (response record) →
  ∃ merged fs' record',
    updateMetadataFiles fs sourceComponents enrichmentRecords = Ok (merged, fs')
    ∧ merged !! i = Some record'
    ∧ response record' = response record
    ∧ let metrics := EnrichmentMetrics.createEnrichmentMetrics merged skippedComponents in
      EnrichmentMetrics.components (EnrichmentMetrics.success metrics)
          !! length (MetricsSpec.succeeded (take i merged))
        = Some (EnrichmentMetrics.componentStatus record')
      ∧ status_message (EnrichmentMetrics.componentStatus record')
        = Some (default "" (message record'))
      ∧ EnrichmentMetrics.fail metrics
        = EnrichmentMetrics.fail
            (EnrichmentMetrics.createEnrichmentMetrics (delete i merged) skippedComponents)
      ∧ EnrichmentMetrics.count (EnrichmentMetrics.success metrics)
        = EnrichmentMetrics.count
            (EnrichmentMetrics.success
               (EnrichmentMetrics.createEnrichmentMetrics enrichmentRecords
                  skippedComponents)).
Proof.
  intros Hi [resp Hresp].
  destruct (updateMetadataFiles_preserves fs sourceComponents enrichmentRecords)
    as (merged & fs' & Hmerged & Hsame).
  assert (Hi' : ∃ record', merged !! i = Some record'
                           ∧ withoutMessage record' = withoutMessage record).
  { apply (f_equal (λ l, l !! i)) in Hsame.
    rewrite !list_lookup_fmap, Hi in Hsame. simpl in Hsame.
    destruct (merged !! i) as [record'|]; [|done].
    exists record'. split; [done|]. simpl in Hsame. congruence. }
  destruct Hi' as (record' & Hi' & Hwithout).
  assert (Hresp' : response record' = response record)
    by exact (f_equal response Hwithout).
  assert (Hhas : MetricsSpec.hasResponse record' = true).
  { unfold MetricsSpec.hasResponse. by rewrite Hresp', Hresp. }
  destruct (success_bucket_position merged skippedComponents i record' Hi' Hhas)
    as (Hplace & Hfail).
  exists merged, fs', record'. split_and!; [done|done|done|].
  cbv zeta. split_and!; [exact Hplace| |exact Hfail|].
  - unfold EnrichmentMetrics.componentStatus. simpl. rewrite Hresp', Hresp.
    by destruct (message record').
  - rewrite !MetricsFacts.createEnrichmentMetrics_eq. simpl.
    rewrite (MetricsFacts.succeeded_withoutMessage merged),
      (MetricsFacts.succeeded_withoutMessage enrichmentRecords).
    fold withoutMessage. by rewrite Hsame.
Qed.

End MergeTheorems.

Lemma updateMetadataFiles_captures_merge_failure_witness :
  let gammaRecord :=
    Fixture.requestRecord "gamma" (Some (Fixture.enrichMetadataResult "gamma")) None in
  let alphaRecord :=
    Fixture.requestRecord "alpha" (Some (Fixture.enrichMetadataResult "alpha")) None in
  FileProcessor.updateMetaXml (xmlLibrary := Fixture.xmlLibrary)
    (numberFormat := Fixture.numberFormat) "<LightningComponentBundle>"
    (Fixture.enrichmentResult "gamma")
    = Throw (JsError "Failed to parse XML: Unexpected end of input")
  ∧ ∃ merged fs' captured,
      FileProcessor.updateMetadataFiles (path := Fixture.path)
        (xmlLibrary := Fixture.xmlLibrary) (numberFormat := Fixture.numberFormat)
        Fixture.fs [Fixture.gamma; Fixture.alpha] [gammaRecord; alphaRecord]
        = Ok (merged, fs')
      ∧ merged !! 0 = Some captured
      ∧ message captured = Some "Failed to parse XML: Unexpected end of input"
      ∧ merged !! 1 = Some alphaRecord
      ∧ Fs.files fs' !! "lwc/alpha/alpha.js-meta.xml" = Some "<apiVersion,ai>".
Proof.
  intros gammaRecord alphaRecord.
  split; [by vm_compute|].
  destruct (updateMetadataFiles_captures_merge_failure (path := Fixture.path)
              (xmlLibrary := Fixture.xmlLibrary) (numberFormat := Fixture.numberFormat)
              Fixture.fs [Fixture.gamma; Fixture.alpha] [gammaRecord; alphaRecord]
              Fixture.gamma "lwc/gamma/gamma.js-meta.xml" "<LightningComponentBundle>"
              0 gammaRecord (Fixture.enrichmentResult "gamma")
              (JsError "Failed to parse XML: Unexpected end of input"))
    as [(merged & fs' & captured & Hmerged & _ & Hcaptured & Hmessage & _ & _ & Hothers) _].
  - apply (bool_decide_unpack _). by vm_compute.
  - apply (bool_decide_unpack _). by vm_compute.
  - apply list_elem_of_here.
  - exists "gamma", (Fixture.enrichMetadataResult "gamma").
    split_and!; try reflexivity; done.
  - left. by vm_compute.
  - destruct (Hothers Fixture.alpha "lwc/alpha/alpha.js-meta.xml" "<plain/>" 1 alphaRecord
                (Fixture.enrichmentResult "alpha")) as [Hok _].
    + apply list_elem_of_further, list_elem_of_here.
    + exists "alpha", (Fixture.enrichMetadataResult "alpha").
      split_and!; try reflexivity; done.
    + destruct (Hok "<apiVersion,ai>") as [Halpha Hfile]; [by vm_compute|apply not_elem_of_empty|].
      exists merged, fs', captured. by split_and!.
Defined.

Lemma unreadable_support_file_is_passed_over_witness :
  let records :=
    [Fixture.requestRecord "alpha" (Some (Fixture.enrichMetadataResult "alpha")) None;
     Fixture.requestRecord "delta" (Some (Fixture.enrichMetadataResult "delta")) None] in
  xml Fixture.delta = Some "lwc/delta/delta.js-meta.xml"
  ∧ Fs.readFile Fixture.fs "lwc/delta/delta.js-meta.xml"
    = Throw (JsError
        "ENOENT: no such file or directory, open 'lwc/delta/delta.js-meta.xml'")
  ∧ FileProcessor.updateMetadataFiles (path := Fixture.path)
      (xmlLibrary := Fixture.xmlLibrary) (numberFormat := Fixture.numberFormat)
      Fixture.fs ([Fixture.alpha] ++ Fixture.delta :: [Fixture.beta]) records
    = FileProcessor.updateMetadataFiles (path := Fixture.path)
        (xmlLibrary := Fixture.xmlLibrary) (numberFormat := Fixture.numberFormat)
        Fixture.fs ([Fixture.alpha] ++ [Fixture.beta]) records.
Proof.
  intros records. split_and!; [reflexivity|by vm_compute|].
  exact (proj1 (unreadable_support_file_is_passed_over (path := Fixture.path)
                  (xmlLibrary := Fixture.xmlLibrary) (numberFormat := Fixture.numberFormat)
                  Fixture.fs [Fixture.alpha] [Fixture.beta] Fixture.delta records
                  "lwc/delta/delta.js-meta.xml"
                  (JsError
                     "ENOENT: no such file or directory, open 'lwc/delta/delta.js-meta.xml'")
                  eq_refl eq_refl)).
Defined.

Lemma merge_failure_stays_in_success_bucket_witness :
  let gammaRecord :=
    Fixture.requestRecord "gamma" (Some (Fixture.enrichMetadataResult "gamma")) None in
  [gammaRecord] !! 0 = Some gammaRecord
  ∧ is_Some (response gammaRecord)
  ∧ ∃ merged fs' record',
      FileProcessor.updateMetadataFiles (path := Fixture.path)
        (xmlLibrary := Fixture.xmlLibrary) (numberFormat := Fixture.numberFormat)
        Fixture.fs [Fixture.gamma] [gammaRecord] = Ok (merged, fs')
      ∧ merged !! 0 = Some record'
      ∧ message record' = Some "Failed to parse XML: Unexpected end of input"
      ∧ EnrichmentMetrics.components
          (EnrichmentMetrics.success (EnrichmentMetrics.createEnrichmentMetrics merged []))
          !! 0
        = Some {| status_type := "LightningComponentBundle";
                  status_componentName := Some "gamma";
                  status_message := Some "Failed to parse XML: Unexpected end of input" |}.
Proof.
  intros gammaRecord.
  assert (Hresp : is_Some (response gammaRecord)) by (eexists; reflexivity).
  split_and!; [reflexivity|exact Hresp|].
  destruct (merge_failure_stays_in_success_bucket (path := Fixture.path)
              (xmlLibrary := Fixture.xmlLibrary) (numberFormat := Fixture.numberFormat)
              Fixture.fs [Fixture.gamma] [gammaRecord] [] 0 gammaRecord eq_refl Hresp)
    as (merged & fs' & record' & Hmerged & Hlookup & _ & Hplace & _).
  exists merged, fs', record'.
  vm_compute in Hmerged. injection Hmerged as <- <-.
  injection Hlookup as <-.
  split_and!; reflexivity.
Defined.

Section ParseTheorems.
Import ComponentProcessor ClassifierSpec ClassifierFacts ClassifierLemmas StringFacts.
Variable getTypeByName : option string → string → result MetadataType.

(** X1. An entry is split at its first colon only.  For a kind token without
    colon that the registry knows, [kind:rest] parses to the registry's name
    of the type and to the name [rest], trimmed, with any further colons
    kept; the name is absent when [rest] trims to the marker [*]. *)
Theorem parseMetadataEntry_splits_at_first_colon
    (projectDir : option string) (kind rest : string) (type : MetadataType) :
  includes kind ":" = false →
  getTypeByName projectDir (trim kind) = Ok type →
  parseMetadataEntry getTypeByName (kind +:+ ":" +:+ rest) projectDir
    = Some {| requested_type := type_name type;
              requested_componentName :=
                if trim rest =? "*" then None else Some (trim rest) |}.
Proof.
  intros Hkind Htype. unfold parseMetadataEntry.
  change (kind +:+ ":" +:+ rest) with (kind +:+ String ":" rest).
  rewrite split_with_suffix by done.
  assert (Hlen : (0 <? length (split ":" rest))%nat = true).
  { pose proof (split_nonempty ":" rest). by destruct (split ":" rest). }
  simpl. rewrite Htype. simpl. rewrite Hlen.
  by rewrite (join_split ":" rest).
Qed.

(** X2. An entry whose kind token the registry does not know is dropped
    without trace: it parses to nothing, with or without a name part, and
    the skip records are those computed without the entry, be it the bare
    kind or the kind with a name. *)
Theorem unknown_kind_is_dropped
    (sourceComponents : list SourceComponent) (before after : list string)
    (projectDir : option string) (kind rest : string) (error : JsThrown) :
  includes kind ":" = false →
  getTypeByName projectDir (trim kind) = Throw error →
  parseMetadataEntry getTypeByName kind projectDir = None
  ∧ parseMetadataEntry getTypeByName (kind +:+ ":" +:+ rest) projectDir = None
  ∧ getComponentsToSkip getTypeByName sourceComponents
      (before ++ kind :: after) projectDir
    = getComponentsToSkip getTypeByName sourceComponents (before ++ after) projectDir
  ∧ getComponentsToSkip getTypeByName sourceComponents
      (before ++ (kind +:+ ":" +:+ rest) :: after) projectDir
    = getComponentsToSkip getTypeByName sourceComponents (before ++ after) projectDir.
Proof.
  intros Hkind Htype.
  assert (Hbare : parseMetadataEntry getTypeByName kind projectDir = None).
  { unfold parseMetadataEntry. rewrite split_without_separator by done.
    simpl. by rewrite Htype. }
  assert (Hnamed : parseMetadataEntry getTypeByName (kind +:+ ":" +:+ rest) projectDir = None).
  { unfold parseMetadataEntry.
    change (kind +:+ ":" +:+ rest) with (kind +:+ String ":" rest).
    rewrite split_with_suffix by done. simpl. by rewrite Htype. }
  split_and!; [done|done| |].
  - rewrite !getComponentsToSkip_eq, omap_middle.
    unfold requestedBy at 2 5. rewrite Hbare. simpl.
    by rewrite <- !omap_app.
  - rewrite !getComponentsToSkip_eq, omap_middle.
    unfold requestedBy at 2 5. rewrite Hnamed. simpl.
    by rewrite <- !omap_app.
Qed.

End ParseTheorems.

Lemma parseMetadataEntry_splits_at_first_colon_witness :
  let noBreakSpace := bytes [0xC2; 0xA0]%N in
  includes " ApexClass " ":" = false
  ∧ ComponentProcessor.parseMetadataEntry Fixture.getTypeByName
      (" ApexClass " +:+ ":" +:+ (noBreakSpace +:+ "ns:Util" +:+ noBreakSpace))
      (Some "/project")
    = Some {| requested_type := "ApexClass"; requested_componentName := Some "ns:Util" |}.
Proof.
  intros noBreakSpace. split; [reflexivity|].
  exact (parseMetadataEntry_splits_at_first_colon Fixture.getTypeByName (Some "/project")
           " ApexClass " (noBreakSpace +:+ "ns:Util" +:+ noBreakSpace) Fixture.apex
           eq_refl eq_refl).
Defined.

Lemma unknown_kind_is_dropped_witness :
  Fixture.getTypeByName None (trim "Widget")
    = Throw (JsError "Missing metadata type definition in registry for id 'Widget'.")
  ∧ ComponentProcessor.getComponentsToSkip Fixture.getTypeByName [Fixture.alpha]
      (["LightningComponentBundle:Ghost"] ++ "Widget" :: []) None
    = ComponentProcessor.getComponentsToSkip Fixture.getTypeByName [Fixture.alpha]
        (["LightningComponentBundle:Ghost"] ++ []) None
  ∧ ComponentProcessor.getComponentsToSkip Fixture.getTypeByName [Fixture.alpha]
      (["LightningComponentBundle:Ghost"] ++ ("Widget" +:+ ":" +:+ "w") :: []) None
    = ComponentProcessor.getComponentsToSkip Fixture.getTypeByName [Fixture.alpha]
        (["LightningComponentBundle:Ghost"] ++ []) None.
Proof.
  split; [reflexivity|].
  exact (proj2 (proj2 (unknown_kind_is_dropped Fixture.getTypeByName [Fixture.alpha]
                         ["LightningComponentBundle:Ghost"] [] None "Widget" "w"
                         (JsError "Missing metadata type definition in registry for id 'Widget'.")
                         eq_refl eq_refl))).
Defined.

(* ===================================================================== *)
(** * Further properties: the three skip reasons                          *)
(* ===================================================================== *)

Module ReasonFacts.
Import ComponentProcessor ClassifierSpec ClassifierFacts ClassifierLemmas ExtraSpec.

Lemma namesOf_snoc sourceComponents component :
  namesOf (sourceComponents ++ [component])
    = namesOf sourceComponents
      ++ match componentNameOf component with
         | Some n => if truthy n then [n] else []
         | None => []
         end.
Proof.
  unfold namesOf. rewrite omap_app. simpl.
  destruct (componentNameOf component) as [n|]; simpl; [|done].
  by destruct (truthy n).
Qed.

Lemma getExistingSourceComponentNames_snoc sourceComponents component :
  getExistingSourceComponentNames (sourceComponents ++ [component])
    = match componentNameOf component with
      | Some n =>
          if truthy n then {[n]} ∪ getExistingSourceComponentNames sourceComponents
          else getExistingSourceComponentNames sourceComponents
      | None => getExistingSourceComponentNames sourceComponents
      end.
Proof. unfold getExistingSourceComponentNames. by rewrite foldl_app. Qed.

Lemma createSourceComponentMap_snoc sourceComponents component :
  createSourceComponentMap (sourceComponents ++ [component])
    = match componentNameOf component with
      | Some n =>
          if truthy n then <[n := component]> (createSourceComponentMap sourceComponents)
          else createSourceComponentMap sourceComponents
      | None => createSourceComponentMap sourceComponents
      end.
Proof. unfold createSourceComponentMap. by rewrite foldl_app. Qed.

(** The set of existing names holds the names of the components. *)
Lemma elem_of_existing_names sourceComponents n :
  n ∈ getExistingSourceComponentNames sourceComponents ↔ n ∈ namesOf sourceComponents.
Proof.
  induction sourceComponents as [|component sourceComponents IH] using rev_ind.
  - unfold getExistingSourceComponentNames, namesOf. simpl. set_solver.
  - rewrite getExistingSourceComponentNames_snoc, namesOf_snoc, elem_of_app.
    destruct (componentNameOf component) as [m|]; [|set_solver].
    destruct (truthy m); set_solver.
Qed.

(** The component map is defined on the names of the components. *)
Lemma createSourceComponentMap_is_Some sourceComponents n :
  is_Some (createSourceComponentMap sourceComponents !! n) ↔ n ∈ namesOf sourceComponents.
Proof.
  induction sourceComponents as [|component sourceComponents IH] using rev_ind.
  - unfold createSourceComponentMap, namesOf. simpl. rewrite lookup_empty.
    split; [by intros [? ?]|by intros ?%elem_of_nil].
  - rewrite createSourceComponentMap_snoc, namesOf_snoc, elem_of_app.
    destruct (componentNameOf component) as [m|]; [|set_solver].
    destruct (truthy m); [|set_solver].
    rewrite lookup_insert_is_Some, IH, list_elem_of_singleton.
    destruct (decide (m = n)); naive_solver.
Qed.

(** What the map holds under a name is a component of that name. *)
Lemma createSourceComponentMap_Some sourceComponents n component :
  createSourceComponentMap sourceComponents !! n = Some component →
  component ∈ sourceComponents ∧ componentNameOf component = Some n ∧ truthy n = true.
Proof.
  induction sourceComponents as [|last sourceComponents IH] using rev_ind.
  - unfold createSourceComponentMap. simpl. by rewrite lookup_empty.
  - rewrite createSourceComponentMap_snoc, elem_of_app, list_elem_of_singleton.
    destruct (componentNameOf last) as [m|] eqn:Hm; [|naive_solver].
    destruct (truthy m) eqn:Ht; [|naive_solver].
    destruct (decide (m = n)) as [->|Hne].
    + rewrite lookup_insert_eq. intros [= <-]. auto.
    + rewrite lookup_insert_ne by done. naive_solver.
Qed.

(** With one component per name the map holds each named component. *)
Lemma createSourceComponentMap_unique sourceComponents n component :
  NoDup (namesOf sourceComponents) →
  component ∈ sourceComponents →
  componentNameOf component = Some n →
  truthy n = true →
  createSourceComponentMap sourceComponents !! n = Some component.
Proof.
  induction sourceComponents as [|last sourceComponents IH] using rev_ind.
  - by intros _ ?%elem_of_nil.
  - rewrite namesOf_snoc, createSourceComponentMap_snoc, elem_of_app, list_elem_of_singleton.
    intros Hnodup Hin Hname Htruthy.
    apply NoDup_app in Hnodup as (Hnodup & Hfresh & _).
    destruct Hin as [Hin| ->].
    + destruct (componentNameOf last) as [m|] eqn:Hm; [|by apply IH].
      destruct (truthy m) eqn:Ht; [|by apply IH].
      destruct (decide (m = n)) as [->|Hne]; [|rewrite lookup_insert_ne by done; by apply IH].
      exfalso. apply (Hfresh n); [|by apply list_elem_of_singleton].
      unfold namesOf. apply list_elem_of_omap. exists component.
      split; [done|]. rewrite Hname. simpl. by rewrite Htruthy.
    + rewrite Hname, Htruthy. by rewrite lookup_insert_eq.
Qed.

(** The skip records a requested identifier with a name yields: not found
    when the name is unknown, else what the type and the support file of the
    component under that name call for. *)
Lemma records_for_name sourceComponents (requested : MetadataTypeAndMetadataName) n :
  requested_componentName requested = Some n →
  truthy n = true →
  missingFor sourceComponents requested ++ filteredFor sourceComponents requested
    = match createSourceComponentMap sourceComponents !! n with
      | None => [withMessage requested "Not found in source project"]
      | Some sourceComponent =>
          if bool_decide (typeNameOf sourceComponent ≠ Some LightningComponentBundle)
          then [withMessage requested
                  "Only Lightning Web Components are currently supported for enrichment"]
          else if negb (truthy_opt (xml sourceComponent))
          then [withMessage requested
                  "Lightning Web Component configuration file does not exist (*.js-meta.xml)"]
          else []
      end.
Proof.
  intros Hname Htruthy. unfold missingFor, filteredFor. rewrite Hname, Htruthy. simpl.
  pose proof (elem_of_existing_names sourceComponents n) as Hset.
  pose proof (createSourceComponentMap_is_Some sourceComponents n) as Hmap.
  destruct (createSourceComponentMap sourceComponents !! n) as [sc|] eqn:Hlookup.
  - rewrite bool_decide_eq_true_2 by (apply Hset, Hmap; eauto). simpl.
    destruct (decide (typeNameOf sc = Some LightningComponentBundle)) as [Heq|Hne].
    + rewrite (bool_decide_eq_false_2 (typeNameOf sc ≠ _)) by (intros ?; done).
      rewrite (bool_decide_eq_true_2 (typeNameOf sc = _)) by done. simpl.
      by destruct (truthy_opt (xml sc)).
    + rewrite (bool_decide_eq_true_2 (typeNameOf sc ≠ _)) by done.
      by rewrite (bool_decide_eq_false_2 (typeNameOf sc = _)) by done.
  - rewrite bool_decide_eq_false_2; [done|].
    intros Hin%Hset%Hmap. by destruct Hin.
Qed.

Lemma requestedBy_Some getTypeByName projectDir entry requested n :
  parseMetadataEntry getTypeByName entry projectDir = Some requested →
  requested_componentName requested = Some n →
  includes n "*" = false →
  requestedBy getTypeByName projectDir entry = Some requested.
Proof.
  intros Hparse Hname Hstar. unfold requestedBy. rewrite Hparse. simpl.
  unfold discarded. by rewrite Hname, Hstar, andb_false_r.
Qed.

(** A requested identifier with a name contributes its records to the
    result. *)
Lemma records_in_result getTypeByName sourceComponents entries projectDir entry requested skip :
  entry ∈ entries →
  requestedBy getTypeByName projectDir entry = Some requested →
  skip ∈ missingFor sourceComponents requested ++ filteredFor sourceComponents requested →
  skip ∈ getComponentsToSkip getTypeByName sourceComponents entries projectDir.
Proof.
  intros Hentry Hreq Hskip. rewrite getComponentsToSkip_eq.
  assert (Hin : requested ∈ omap (requestedBy getTypeByName projectDir) entries)
    by (apply list_elem_of_omap; eauto).
  apply elem_of_app in Hskip as [Hskip|Hskip]; apply elem_of_app; [left|right];
    apply list_elem_of_In, in_flat_map; exists requested;
    by rewrite <- !list_elem_of_In.
Qed.

(** Every skip record is one of the records of a requested identifier that
    has a name. *)
Lemma skip_record_cases getTypeByName sourceComponents entries projectDir skip :
  skip ∈ getComponentsToSkip getTypeByName sourceComponents entries projectDir →
  ∃ requested n,
    requested_componentName requested = Some n
    ∧ truthy n = true
    ∧ status_componentName skip = Some n
    ∧ skip ∈ missingFor sourceComponents requested ++ filteredFor sourceComponents requested.
Proof.
  intros Hskip.
  destruct (skip_record_origin _ _ _ _ _ Hskip)
    as (entry & requested0 & n0 & _ & _ & _ & _ & _ & Hstatus).
  revert Hskip.
  rewrite getComponentsToSkip_eq, elem_of_app, !list_elem_of_In, !in_flat_map.
  intros [(requested & _ & Hin)|(requested & _ & Hin)];
    apply list_elem_of_In in Hin; exists requested, n0.
  - assert (Hname : requested_componentName requested = Some n0 ∧ truthy n0 = true).
    { unfold missingFor in Hin.
      destruct (requested_componentName requested) as [n|] eqn:Hn; [|by apply elem_of_nil in Hin].
      destruct (truthy n) eqn:Ht; [|by apply elem_of_nil in Hin]. simpl in Hin.
      destruct (negb _); [|by apply elem_of_nil in Hin].
      apply list_elem_of_singleton in Hin as ->. simpl in Hstatus.
      rewrite Hn in Hstatus. by injection Hstatus as ->. }
    destruct Hname. split_and!; [done..|]. apply elem_of_app. by left.
  - assert (Hname : requested_componentName requested = Some n0 ∧ truthy n0 = true).
    { unfold filteredFor in Hin.
      destruct (requested_componentName requested) as [n|] eqn:Hn; [|by apply elem_of_nil in Hin].
      destruct (truthy n) eqn:Ht; [|by apply elem_of_nil in Hin].
      destruct (createSourceComponentMap sourceComponents !! n); [|by apply elem_of_nil in Hin].
      apply elem_of_app in Hin as [Hin|Hin].
      + destruct (bool_decide _); [|by apply elem_of_nil in Hin].
        apply list_elem_of_singleton in Hin as ->. simpl in Hstatus.
        rewrite Hn in Hstatus. by injection Hstatus as ->.
      + destruct (_ && _); [|by apply elem_of_nil in Hin].
        apply list_elem_of_singleton in Hin as ->. simpl in Hstatus.
        rewrite Hn in Hstatus. by injection Hstatus as ->. }
    destruct Hname. split_and!; [done..|]. apply elem_of_app. by right.
Qed.

(** The components left to process are the named source components whose
    name no skip record bears. *)
Lemma elem_of_componentsToProcess sourceComponents componentsToSkip component :
  component ∈ EnrichMetadata.componentsToProcess sourceComponents componentsToSkip
  ↔ component ∈ sourceComponents
    ∧ ∃ n, componentNameOf component = Some n
           ∧ truthy n = true
           ∧ ∀ skip, skip ∈ componentsToSkip → status_componentName skip ≠ Some n.
Proof.
  unfold EnrichMetadata.componentsToProcess.
  rewrite list_elem_of_In, filter_In, <- list_elem_of_In.
  split.
  - intros [Hin Hkeep]. split; [done|].
    destruct (componentNameOf component) as [n|]; [|done].
    apply andb_true_iff in Hkeep as [Htruthy Hnone]. exists n. split_and!; [done..|].
    intros skip Hskip Heq. apply negb_true_iff in Hnone.
    assert (existsb (λ skip, bool_decide (status_componentName skip = Some n)) componentsToSkip
            = true) as Hsome; [|congruence].
    apply existsb_exists. exists skip. split; [by apply list_elem_of_In|].
    by apply bool_decide_eq_true_2.
  - intros [Hin (n & Hname & Htruthy & Hnone)]. split; [done|].
    rewrite Hname, Htruthy. simpl. apply negb_true_iff.
    destruct (existsb _ componentsToSkip) eqn:Hex; [|done].
    apply existsb_exists in Hex as (skip & Hskip & Heq).
    apply bool_decide_eq_true_1 in Heq. apply list_elem_of_In in Hskip.
    by destruct (Hnone skip Hskip).
Qed.

End ReasonFacts.

Section ReasonTheorems.
Import ComponentProcessor ClassifierSpec ClassifierFacts ClassifierLemmas ExtraSpec ReasonFacts.
Variable getTypeByName : option string → string → result MetadataType.

(** X3. A requested identifier whose name no source component bears yields
    the skip record "Not found in source project", whatever its kind; and
    every skip record bearing that name has this reason. *)
Theorem unknown_name_is_reported_not_found
    (sourceComponents : list SourceComponent) (entries : list string)
    (projectDir : option string) (entry : string)
    (requested : MetadataTypeAndMetadataName) (n : string) :
  entry ∈ entries →
  parseMetadataEntry getTypeByName entry projectDir = Some requested →
  requested_componentName requested = Some n →
  n ≠ "" →
  includes n "*" = false →
  (∀ component, component ∈ sourceComponents → componentNameOf component ≠ Some n) →
  let skipped := getComponentsToSkip getTypeByName sourceComponents entries projectDir in
  withMessage requested "Not found in source project" ∈ skipped
  ∧ ∀ skip, skip ∈ skipped → status_componentName skip = Some n →
      status_message skip = Some "Not found in source project".
Proof.
  intros Hentry Hparse Hname Hn Hstar Habsent skipped.
  assert (Htruthy : truthy n = true) by (by destruct n).
  assert (Hnone : createSourceComponentMap sourceComponents !! n = None).
  { destruct (createSourceComponentMap sourceComponents !! n) as [sc|] eqn:Hsc; [|done].
    apply createSourceComponentMap_Some in Hsc as (Hin & Hsc & _).
    by destruct (Habsent sc Hin). }
  split.
  - eapply records_in_result; [done|by eapply requestedBy_Some|].
    rewrite (records_for_name _ _ n) by done. rewrite Hnone.
    by apply list_elem_of_singleton.
  - intros skip Hskip Hstatus.
    apply skip_record_cases in Hskip as (requested' & n' & Hname' & Htruthy' & Hstatus' & Hin).
    assert (n' = n) as -> by congruence.
    rewrite (records_for_name _ _ n) in Hin by done. rewrite Hnone in Hin.
    by apply list_elem_of_singleton in Hin as ->.
Qed.

(** X4. With one source component per name, a requested identifier that
    names a component of another type than LightningComponentBundle yields
    the skip record "Only Lightning Web Components are currently supported
    for enrichment", every skip record of that name has this reason, and the
    component is not among the components left to process. *)
Theorem unsupported_type_is_skipped
    (sourceComponents : list SourceComponent) (entries : list string)
    (projectDir : option string) (entry : string)
    (requested : MetadataTypeAndMetadataName) (n : string)
    (component : SourceComponent) :
  entry ∈ entries →
  parseMetadataEntry getTypeByName entry projectDir = Some requested →
  requested_componentName requested = Some n →
  n ≠ "" →
  includes n "*" = false →
  NoDup (namesOf sourceComponents) →
  component ∈ sourceComponents →
  componentNameOf component = Some n →
  typeNameOf component ≠ Some LightningComponentBundle →
  let skipped := getComponentsToSkip getTypeByName sourceComponents entries projectDir in
  withMessage requested
    "Only Lightning Web Components are currently supported for enrichment" ∈ skipped
  ∧ (∀ skip, skip ∈ skipped → status_componentName skip = Some n →
       status_message skip
         = Some "Only Lightning Web Components are currently supported for enrichment")
  ∧ component ∉ EnrichMetadata.componentsToProcess sourceComponents skipped.
Proof.
  intros Hentry Hparse Hname Hn Hstar Hnodup Hin Hcomponent Htype skipped.
  assert (Htruthy : truthy n = true) by (by destruct n).
  pose proof (createSourceComponentMap_unique _ _ _ Hnodup Hin Hcomponent Htruthy) as Hmap.
  assert (Hrecord : withMessage requested
            "Only Lightning Web Components are currently supported for enrichment" ∈ skipped).
  { eapply records_in_result; [done|by eapply requestedBy_Some|].
    rewrite (records_for_name _ _ n) by done. rewrite Hmap.
    rewrite bool_decide_eq_true_2 by done. by apply list_elem_of_singleton. }
  split_and!; [done| |].
  - intros skip Hskip Hstatus.
    apply skip_record_cases in Hskip as (requested' & n' & Hname' & Htruthy' & Hstatus' & Hin').
    assert (n' = n) as -> by congruence.
    rewrite (records_for_name _ _ n) in Hin' by done. rewrite Hmap in Hin'.
    rewrite bool_decide_eq_true_2 in Hin' by done.
    by apply list_elem_of_singleton in Hin' as ->.
  - intros (_ & n' & Hname' & _ & Hnone)%elem_of_componentsToProcess.
    assert (n' = n) as -> by congruence.
    apply (Hnone _ Hrecord). simpl. done.
Qed.

(** X5. With one source component per name, a requested identifier that
    names a LightningComponentBundle without support file yields the skip
    record "Lightning Web Component configuration file does not exist
    (*.js-meta.xml)", every skip record of that name has this reason, and the
    component is not among the components left to process. *)
Theorem missing_support_file_is_skipped
    (sourceComponents : list SourceComponent) (entries : list string)
    (projectDir : option string) (entry : string)
    (requested : MetadataTypeAndMetadataName) (n : string)
    (component : SourceComponent) :
  entry ∈ entries →
  parseMetadataEntry getTypeByName entry projectDir = Some requested →
  requested_componentName requested = Some n →
  n ≠ "" →
  includes n "*" = false →
  NoDup (namesOf sourceComponents) →
  component ∈ sourceComponents →
  componentNameOf component = Some n →
  typeNameOf component = Some LightningComponentBundle →
  truthy_opt (xml component) = false →
  let skipped := getComponentsToSkip getTypeByName sourceComponents entries projectDir in
  withMessage requested
    "Lightning Web Component configuration file does not exist (*.js-meta.xml)" ∈ skipped
  ∧ (∀ skip, skip ∈ skipped → status_componentName skip = Some n →
       status_message skip
         = Some "Lightning Web Component configuration file does not exist (*.js-meta.xml)")
  ∧ component ∉ EnrichMetadata.componentsToProcess sourceComponents skipped.
Proof.
  intros Hentry Hparse Hname Hn Hstar Hnodup Hin Hcomponent Htype Hxml skipped.
  assert (Htruthy : truthy n = true) by (by destruct n).
  pose proof (createSourceComponentMap_unique _ _ _ Hnodup Hin Hcomponent Htruthy) as Hmap.
  assert (Hcase : ∀ requested',
            requested_componentName requested' = Some n →
            missingFor sourceComponents requested' ++ filteredFor sourceComponents requested'
              = [withMessage requested'
                   "Lightning Web Component configuration file does not exist (*.js-meta.xml)"]).
  { intros requested' Hname'. rewrite (records_for_name _ _ n) by done. rewrite Hmap.
    rewrite bool_decide_eq_false_2 by (intros ?; done). by rewrite Hxml. }
  assert (Hrecord : withMessage requested
            "Lightning Web Component configuration file does not exist (*.js-meta.xml)"
            ∈ skipped).
  { eapply records_in_result; [done|by eapply requestedBy_Some|].
    rewrite Hcase by done. by apply list_elem_of_singleton. }
  split_and!; [done| |].
  - intros skip Hskip Hstatus.
    apply skip_record_cases in Hskip as (requested' & n' & Hname' & Htruthy' & Hstatus' & Hin').
    assert (n' = n) as -> by congruence.
    rewrite Hcase in Hin' by done.
    by apply list_elem_of_singleton in Hin' as ->.
  - intros (_ & n' & Hname' & _ & Hnone)%elem_of_componentsToProcess.
    assert (n' = n) as -> by congruence.
    apply (Hnone _ Hrecord). simpl. done.
Qed.

(** X6. With one source component per name, a LightningComponentBundle that
    has a support file is never skipped: whatever is requested, no skip
    record bears its name, and it is among the components left to process. *)
Theorem supported_component_is_processed
    (sourceComponents : list SourceComponent) (entries : list string)
    (projectDir : option string) (n : string) (component : SourceComponent) :
  NoDup (namesOf sourceComponents) →
  component ∈ sourceComponents →
  componentNameOf component = Some n →
  n ≠ "" →
  typeNameOf component = Some LightningComponentBundle →
  truthy_opt (xml component) = true →
  let skipped := getComponentsToSkip getTypeByName sourceComponents entries projectDir in
  (∀ skip, skip ∈ skipped → status_componentName skip ≠ Some n)
  ∧ component ∈ EnrichMetadata.componentsToProcess sourceComponents skipped.
Proof.
  intros Hnodup Hin Hcomponent Hn Htype Hxml skipped.
  assert (Htruthy : truthy n = true) by (by destruct n).
  pose proof (createSourceComponentMap_unique _ _ _ Hnodup Hin Hcomponent Htruthy) as Hmap.
  assert (Hnone : ∀ skip, skip ∈ skipped → status_componentName skip ≠ Some n).
  { intros skip Hskip Hstatus.
    apply skip_record_cases in Hskip as (requested' & n' & Hname' & Htruthy' & Hstatus' & Hin').
    assert (n' = n) as -> by congruence.
    rewrite (records_for_name _ _ n) in Hin' by done. rewrite Hmap in Hin'.
    rewrite bool_decide_eq_false_2 in Hin' by (intros ?; done).
    rewrite Hxml in Hin'. by apply elem_of_nil in Hin'. }
  split; [done|].
  apply elem_of_componentsToProcess. split; [done|]. exists n. by split_and!.
Qed.

(** X7. A requested identifier yields at most one skip record, so there are
    never more skip records than entries. *)
Theorem getComponentsToSkip_at_most_one_per_entry
    (sourceComponents : list SourceComponent) (entries : list string)
    (projectDir : option string) :
  (length (getComponentsToSkip getTypeByName sourceComponents entries projectDir)
     ≤ length entries)%nat.
Proof.
  rewrite getComponentsToSkip_eq.
  assert (Hone : ∀ requested,
    (length (missingFor sourceComponents requested)
     + length (filteredFor sourceComponents requested) ≤ 1)%nat).
  { intros requested. rewrite <- length_app.
    destruct (requested_componentName requested) as [n|] eqn:Hname.
    - destruct (truthy n) eqn:Htruthy.
      + rewrite (records_for_name _ _ n) by done.
        destruct (createSourceComponentMap sourceComponents !! n) as [sc|];
          [|simpl; lia].
        destruct (bool_decide _); [simpl; lia|]. destruct (negb _); simpl; lia.
      + unfold missingFor, filteredFor. rewrite Hname, Htruthy. simpl. lia.
    - unfold missingFor, filteredFor. rewrite Hname. simpl. lia. }
  assert (Hall : ∀ requests : list MetadataTypeAndMetadataName,
    (length (flat_map (missingFor sourceComponents) requests)
     + length (flat_map (filteredFor sourceComponents) requests) ≤ length requests)%nat).
  { induction requests as [|requested requests IH]; [done|].
    change (flat_map ?f (requested :: requests)) with (f requested ++ flat_map f requests).
    rewrite !length_app. pose proof (Hone requested).
    change (length (requested :: requests)) with (S (length requests)). lia. }
  assert (Hkept : (length (omap (requestedBy getTypeByName projectDir) entries)
                   ≤ length entries)%nat).
  { clear. induction entries as [|entry entries IH]; [done|].
    rewrite (omap_middle _ [] entries entry), !length_app.
    destruct (requestedBy getTypeByName projectDir entry); simpl in *; lia. }
  rewrite length_app.
  pose proof (Hall (omap (requestedBy getTypeByName projectDir) entries)). lia.
Qed.

End ReasonTheorems.

Lemma unknown_name_is_reported_not_found_witness :
  ComponentProcessor.parseMetadataEntry Fixture.getTypeByName "ApexClass:Ghost" None
    = Some {| requested_type := "ApexClass"; requested_componentName := Some "Ghost" |}
  ∧ {| status_type := "ApexClass"; status_componentName := Some "Ghost";
       status_message := Some "Not found in source project" |}
    ∈ ComponentProcessor.getComponentsToSkip Fixture.getTypeByName [Fixture.alpha]
        ["LightningComponentBundle:alpha"; "ApexClass:Ghost"] None.
Proof.
  split; [reflexivity|].
  refine (proj1 (unknown_name_is_reported_not_found Fixture.getTypeByName [Fixture.alpha]
                   ["LightningComponentBundle:alpha"; "ApexClass:Ghost"] None
                   "ApexClass:Ghost"
                   {| requested_type := "ApexClass"; requested_componentName := Some "Ghost" |}
                   "Ghost" _ eq_refl eq_refl _ eq_refl _)).
  - apply list_elem_of_further, list_elem_of_here.
  - discriminate.
  - intros component Hin. apply list_elem_of_singleton in Hin as ->. discriminate.
Defined.

Lemma unsupported_type_is_skipped_witness :
  let util := Fixture.component "Util" Fixture.apex None [] in
  NoDup (ExtraSpec.namesOf [Fixture.alpha; util])
  ∧ typeNameOf util ≠ Some ComponentProcessor.LightningComponentBundle
  ∧ {| status_type := "ApexClass"; status_componentName := Some "Util";
       status_message :=
         Some "Only Lightning Web Components are currently supported for enrichment" |}
    ∈ ComponentProcessor.getComponentsToSkip Fixture.getTypeByName [Fixture.alpha; util]
        ["ApexClass:Util"] None.
Proof.
  intros util.
  assert (Hnodup : NoDup (ExtraSpec.namesOf [Fixture.alpha; util])).
  { apply (bool_decide_unpack _). by vm_compute. }
  assert (Htype : typeNameOf util ≠ Some ComponentProcessor.LightningComponentBundle)
    by discriminate.
  split_and!; [done..|].
  refine (proj1 (unsupported_type_is_skipped Fixture.getTypeByName [Fixture.alpha; util]
                   ["ApexClass:Util"] None "ApexClass:Util"
                   {| requested_type := "ApexClass"; requested_componentName := Some "Util" |}
                   "Util" util _ eq_refl eq_refl _ eq_refl Hnodup _ eq_refl Htype)).
  - apply list_elem_of_here.
  - discriminate.
  - apply list_elem_of_further, list_elem_of_here.
Defined.

Lemma missing_support_file_is_skipped_witness :
  let bare := Fixture.component "bare" Fixture.lwc None [] in
  NoDup (ExtraSpec.namesOf [Fixture.alpha; bare])
  ∧ truthy_opt (xml bare) = false
  ∧ {| status_type := "LightningComponentBundle"; status_componentName := Some "bare";
       status_message :=
         Some "Lightning Web Component configuration file does not exist (*.js-meta.xml)" |}
    ∈ ComponentProcessor.getComponentsToSkip Fixture.getTypeByName [Fixture.alpha; bare]
        ["LightningComponentBundle:bare"] None.
Proof.
  intros bare.
  assert (Hnodup : NoDup (ExtraSpec.namesOf [Fixture.alpha; bare])).
  { apply (bool_decide_unpack _). by vm_compute. }
  split_and!; [done..|].
  refine (proj1 (missing_support_file_is_skipped Fixture.getTypeByName [Fixture.alpha; bare]
                   ["LightningComponentBundle:bare"] None "LightningComponentBundle:bare"
                   {| requested_type := "LightningComponentBundle";
                      requested_componentName := Some "bare" |}
                   "bare" bare _ eq_refl eq_refl _ eq_refl Hnodup _ eq_refl eq_refl eq_refl)).
  - apply list_elem_of_here.
  - discriminate.
  - apply list_elem_of_further, list_elem_of_here.
Defined.

Lemma supported_component_is_processed_witness :
  NoDup (ExtraSpec.namesOf [Fixture.alpha; Fixture.beta])
  ∧ Fixture.alpha
    ∈ EnrichMetadata.componentsToProcess [Fixture.alpha; Fixture.beta]
        (ComponentProcessor.getComponentsToSkip Fixture.getTypeByName
           [Fixture.alpha; Fixture.beta]
           ["ApexClass:alpha"; "LightningComponentBundle:Ghost"] None).
Proof.
  assert (Hnodup : NoDup (ExtraSpec.namesOf [Fixture.alpha; Fixture.beta])).
  { apply (bool_decide_unpack _). by vm_compute. }
  split; [done|].
  refine (proj2 (supported_component_is_processed Fixture.getTypeByName
                   [Fixture.alpha; Fixture.beta]
                   ["ApexClass:alpha"; "LightningComponentBundle:Ghost"] None
                   "alpha" Fixture.alpha Hnodup _ eq_refl _ eq_refl eq_refl)).
  - apply list_elem_of_here.
  - discriminate.
Defined.

(* ===================================================================== *)
(** * Further properties: bundles and request records                     *)
(* ===================================================================== *)

Module BundleFacts.
Import FileReader EnrichmentHandler ExtraSpec.
Section WithPath.
Context {path : NodePath}.

Lemma readFileMetadata_readable fs componentName filePath' :
  readFileMetadata fs componentName filePath'
    = if readable fs filePath'
      then data ← Fs.files fs !! filePath';
           Some {| file_componentName := componentName;
                   filePath := filePath';
                   fileContents := Utf8.decode data;
                   mimeType := getMimeTypeFromExtension filePath' |}
      else None.
Proof.
  unfold readFileMetadata, Fs.readFile, readable.
  destruct (Fs.files fs !! filePath') as [text|] eqn:Hfile.
  - by rewrite (bool_decide_eq_true_2 (is_Some (Some text))) by eauto.
  - by rewrite (bool_decide_eq_false_2 (is_Some None)) by (by intros [? ?]).
Qed.

Lemma dropNull_map_read fs componentName filePaths :
  map filePath (dropNull (map (readFileMetadata fs componentName) filePaths))
    = List.filter (readable fs) filePaths.
Proof.
  unfold dropNull. induction filePaths as [|p filePaths IH]; [done|].
  change (map ?f (p :: filePaths)) with (f p :: map f filePaths).
  change (List.filter ?f (p :: filePaths))
    with (if f p then p :: List.filter f filePaths else List.filter f filePaths).
  rewrite <- IH. clear IH.
  change (omap id (?x :: ?l)) with (match x with Some y => y :: omap id l | None => omap id l end).
  rewrite readFileMetadata_readable.
  destruct (readable fs p) eqn:Hreadable; [|done].
  apply bool_decide_eq_true_1 in Hreadable as [text Hfile].
  by rewrite Hfile.
Qed.

Lemma readComponentFiles_named fs component n :
  componentNameOf component = Some n →
  truthy n = true →
  readComponentFiles fs component
    = dropNull (map (readFileMetadata fs n) (walkContent component)).
Proof. intros Hname Htruthy. unfold readComponentFiles. by rewrite Hname, Htruthy. Qed.

(** Assigning under a key of an object literal and reading a key. *)
Lemma lookup_setProperty {A} (object : gmap string A) (key : string) (value : A)
    (read : string) :
  setProperty object key value !! read
    = if bool_decide (key = read ∧ key ≠ "__proto__") then Some value else object !! read.
Proof.
  unfold setProperty. destruct (String.eqb_spec key "__proto__") as [Hproto|Hplain].
  - rewrite bool_decide_eq_false_2; [done|]. by intros [_ ?].
  - destruct (decide (key = read)) as [->|Hne].
    + rewrite bool_decide_eq_true_2 by done. apply lookup_insert_eq.
    + rewrite bool_decide_eq_false_2 by (by intros [? _]). by apply lookup_insert_ne.
Qed.

(** The last file of a given base name, if the name is a key at all. *)
Lemma createContentBundle_lookup componentName files key :
  bundle_files (createContentBundle componentName files) !! key
    = if key =? "__proto__" then None
      else createContentBundleFile
             <$> last (List.filter (λ file, bool_decide (basename (filePath file) = key))
                         files).
Proof.
  unfold createContentBundle. simpl.
  induction files as [|file files IH] using rev_ind; [by destruct (key =? "__proto__")|].
  rewrite foldl_app, List.filter_app. simpl. rewrite lookup_setProperty, IH.
  destruct (String.eqb_spec key "__proto__") as [Hproto|Hplain].
  - rewrite bool_decide_eq_false_2; [done|]. intros [Hkey Hne]. congruence.
  - destruct (decide (basename (filePath file) = key)) as [Hkey|Hne].
    + rewrite bool_decide_eq_true_2 by (split; congruence).
      rewrite bool_decide_eq_true_2 by done. by rewrite last_snoc.
    + rewrite bool_decide_eq_false_2 by (by intros [? _]).
      rewrite bool_decide_eq_false_2 by done. by rewrite app_nil_r.
Qed.

Lemma length_omap_le {A B} (f : A → option B) (l : list A) :
  (length (omap f l) ≤ length l)%nat.
Proof.
  induction l as [|x l IH]; [done|].
  change (omap f (x :: l))
    with (match f x with Some y => y :: omap f l | None => omap f l end).
  destruct (f x); rewrite ?length_cons; lia.
Qed.

(** Where a request record comes from. *)
Lemma createEnrichmentRequestRecords_origin fs components record :
  record ∈ createEnrichmentRequestRecords fs components
  ↔ ∃ component n,
      component ∈ components
      ∧ componentNameOf component = Some n
      ∧ truthy n = true
      ∧ readComponentFiles fs component ≠ []
      ∧ record = {| componentName := n;
                    componentType := type component;
                    requestBody :=
                      createEnrichmentRequestBody
                        (createContentBundle n (readComponentFiles fs component));
                    response := None;
                    message := None |}.
Proof.
  unfold createEnrichmentRequestRecords, dropNull.
  rewrite list_elem_of_omap. split.
  - intros (made & Hmade & Heq). apply list_elem_of_fmap in Hmade as (component & -> & Hin).
    simpl in Heq. destruct (componentNameOf component) as [n|] eqn:Hname; [|done].
    destruct (truthy n) eqn:Htruthy; [|done].
    destruct (length (readComponentFiles fs component) =? 0)%nat eqn:Hlen; [done|].
    injection Heq as <-. exists component, n. split_and!; try done.
    intros Hnil. rewrite Hnil in Hlen. done.
  - intros (component & n & Hin & Hname & Htruthy & Hfiles & ->).
    eexists. split; [apply list_elem_of_fmap; exists component; split; [reflexivity|done]|].
    simpl. rewrite Hname, Htruthy.
    destruct (readComponentFiles fs component); [done|]. done.
Qed.

End WithPath.
End BundleFacts.

Section BundleTheorems.
Import FileReader EnrichmentHandler ExtraSpec BundleFacts.
Context {path : NodePath}.

(** X8. [readComponentFiles] reads what it can: the files returned are those
    of the component's content paths that are readable, in the order of
    enumeration, each with the component's name, the bytes on disk decoded
    as UTF-8 and the MIME type of its path; unreadable files are left out
    one by one. *)
Theorem readComponentFiles_reads_the_readable
    (fs : Fs.FileSystem) (component : SourceComponent) (n : string) :
  componentNameOf component = Some n →
  n ≠ "" →
  map filePath (readComponentFiles fs component)
    = List.filter (readable fs) (walkContent component)
  ∧ ∀ file, file ∈ readComponentFiles fs component →
      file_componentName file = n
      ∧ (∃ data, Fs.files fs !! filePath file = Some data
                 ∧ fileContents file = Utf8.decode data)
      ∧ mimeType file = getMimeTypeFromExtension (filePath file).
Proof.
  intros Hname Hn. assert (Htruthy : truthy n = true) by (by destruct n).
  rewrite (readComponentFiles_named fs component n) by done.
  split; [apply dropNull_map_read|].
  intros file Hfile. unfold dropNull in Hfile.
  apply list_elem_of_omap in Hfile as (made & Hmade & Heq).
  apply list_elem_of_fmap in Hmade as (p & -> & _). simpl in Heq.
  rewrite readFileMetadata_readable in Heq.
  destruct (readable fs p); [|done].
  destruct (Fs.files fs !! p) as [data|] eqn:Hdata; [|done].
  simpl in Heq. injection Heq as <-. simpl. split_and!; [done|by exists data|done].
Qed.

(** X9. The files of a content bundle are keyed by base name, and of several
    files with one base name the last one wins: the entry under a key is the
    bundle file made from the last file of that base name, and the bundle
    bears the component's name.  The base name [__proto__] is no key: a file
    of that name leaves no entry. *)
Theorem createContentBundle_last_file_wins
    (componentName : string) (files : list FileReadResult) (key : string) :
  resourceName (createContentBundle componentName files) = componentName
  ∧ (key ≠ "__proto__" →
     bundle_files (createContentBundle componentName files) !! key
       = createContentBundleFile
           <$> last (List.filter (λ file, bool_decide (basename (filePath file) = key))
                       files))
  ∧ bundle_files (createContentBundle componentName files) !! "__proto__" = None.
Proof.
  split; [done|].
  assert (Hlookup : ∀ read,
            bundle_files (createContentBundle componentName files) !! read
              = if read =? "__proto__" then None
                else createContentBundleFile
                       <$> last (List.filter
                                   (λ file, bool_decide (basename (filePath file) = read))
                                   files)).
  { intros read. unfold createContentBundle. simpl.
    induction files as [|file files IH] using rev_ind;
      [by destruct (read =? "__proto__")|].
    rewrite foldl_app, List.filter_app. simpl. rewrite lookup_setProperty, IH.
    destruct (String.eqb_spec read "__proto__") as [Hproto|Hplain].
    - rewrite bool_decide_eq_false_2; [done|]. intros [Hkey Hne]. congruence.
    - destruct (decide (basename (filePath file) = read)) as [Hkey|Hne].
      + rewrite bool_decide_eq_true_2 by (split; congruence).
        rewrite bool_decide_eq_true_2 by done. by rewrite last_snoc.
      + rewrite bool_decide_eq_false_2 by (by intros [? _]).
        rewrite bool_decide_eq_false_2 by done. by rewrite app_nil_r. }
  split.
  - intros Hkey. rewrite Hlookup. by destruct (String.eqb_spec key "__proto__").
  - by rewrite Hlookup.
Qed.

(** X10. A component gets a request record exactly when it has a non-empty
    name and at least one readable content file; components without
    readable file are left out silently.  Every record made is without
    response and message and carries one bundle, named after the
    component. *)
Theorem createEnrichmentRequestRecords_one_per_readable_component
    (fs : Fs.FileSystem) (components : list SourceComponent) :
  (∀ n, (∃ record, record ∈ createEnrichmentRequestRecords fs components
                   ∧ componentName record = n)
        ↔ ∃ component filePath',
            component ∈ components
            ∧ componentNameOf component = Some n
            ∧ n ≠ ""
            ∧ filePath' ∈ walkContent component
            ∧ readable fs filePath' = true)
  ∧ (∀ record, record ∈ createEnrichmentRequestRecords fs components →
       response record = None
       ∧ message record = None
       ∧ ∃ bundle, contentBundles (requestBody record) = [bundle]
                   ∧ resourceName bundle = componentName record)
  ∧ (length (createEnrichmentRequestRecords fs components) ≤ length components)%nat.
Proof.
  split_and!.
  - intros n. split.
    + intros (record & Hrecord & <-).
      apply createEnrichmentRequestRecords_origin in Hrecord
        as (component & n & Hin & Hname & Htruthy & Hfiles & ->). simpl.
      assert (Hpaths : List.filter (readable fs) (walkContent component) ≠ []).
      { rewrite <- dropNull_map_read with (componentName := n).
        rewrite <- (readComponentFiles_named fs component n) by done.
        by destruct (readComponentFiles fs component). }
      destruct (List.filter (readable fs) (walkContent component)) as [|p rest] eqn:Hfilter;
        [done|].
      assert (Hp : In p (List.filter (readable fs) (walkContent component)))
        by (rewrite Hfilter; by left).
      apply filter_In in Hp as [Hp Hreadable].
      exists component, p. split_and!; [done|done| |by apply list_elem_of_In|done].
      by intros ->.
    + intros (component & p & Hin & Hname & Hn & Hp & Hreadable).
      assert (Htruthy : truthy n = true) by (by destruct n).
      exists {| componentName := n;
                componentType := type component;
                requestBody :=
                  createEnrichmentRequestBody
                    (createContentBundle n (readComponentFiles fs component));
                response := None;
                message := None |}.
      split; [|reflexivity].
      apply createEnrichmentRequestRecords_origin. exists component, n.
      split_and!; try done.
      intros Hnil. apply (f_equal (map filePath)) in Hnil.
      rewrite (readComponentFiles_named fs component n) in Hnil by done.
      rewrite dropNull_map_read in Hnil. simpl in Hnil.
      assert (Hp' : In p (List.filter (readable fs) (walkContent component))).
      { apply filter_In. split; [by apply list_elem_of_In|done]. }
      rewrite Hnil in Hp'. destruct Hp'.
  - intros record Hrecord.
    apply createEnrichmentRequestRecords_origin in Hrecord
      as (component & n & _ & _ & _ & _ & ->). simpl. eauto.
  - unfold createEnrichmentRequestRecords, dropNull.
    etrans; [apply length_omap_le|]. by rewrite length_map.
Qed.

End BundleTheorems.

Lemma readComponentFiles_reads_the_readable_witness :
  let component :=
    Fixture.component "alpha" Fixture.lwc None
      ["lwc/alpha/alpha.js"; "lwc/alpha/alpha.css"; "lwc/alpha/alpha.js-meta.xml"] in
  componentNameOf component = Some "alpha"
  ∧ map filePath (FileReader.readComponentFiles (path := Fixture.path) Fixture.fs component)
    = ["lwc/alpha/alpha.js"; "lwc/alpha/alpha.js-meta.xml"].
Proof.
  intros component. split; [reflexivity|].
  refine (eq_trans (proj1 (readComponentFiles_reads_the_readable (path := Fixture.path)
                             Fixture.fs component "alpha" eq_refl _)) _).
  - discriminate.
  - by vm_compute.
Defined.

(* ===================================================================== *)
(** * Further properties: the update of a support file                    *)
(* ===================================================================== *)

Module XmlFacts.
Import ExtraSpec.

Lemma lookup_assign_eq props key value :
  Xml.lookup (Xml.assign props key value) key = Some value.
Proof.
  induction props as [|[k v] props IH]; simpl.
  - by rewrite String.eqb_refl.
  - destruct (k =? key) eqn:Hk; simpl; by rewrite Hk.
Qed.

Lemma lookup_assign_ne props key key' value :
  key ≠ key' →
  Xml.lookup (Xml.assign props key value) key' = Xml.lookup props key'.
Proof.
  intros Hne. induction props as [|[k v] props IH]; simpl.
  - by rewrite (proj2 (String.eqb_neq key key')).
  - destruct (k =? key) eqn:Hk; simpl.
    + apply String.eqb_eq in Hk as ->. by rewrite (proj2 (String.eqb_neq key key')).
    + by rewrite IH.
Qed.

(** Assigning to a property that exists keeps the order of the properties. *)
Lemma keys_assign_present props key value :
  is_Some (Xml.lookup props key) →
  map fst (Xml.assign props key value) = map fst props.
Proof.
  induction props as [|[k v] props IH]; simpl.
  - by intros [? ?].
  - destruct (k =? key) eqn:Hk; simpl; [done|]. intros Hsome. by rewrite IH.
Qed.

Lemma keys_assign_absent props key value :
  Xml.lookup props key = None →
  map fst (Xml.assign props key value) = map fst props ++ [key].
Proof.
  induction props as [|[k v] props IH]; simpl; [done|].
  destruct (k =? key) eqn:Hk; simpl; [done|]. intros Hnone. by rewrite IH.
Qed.

(** Assigning what is already there changes nothing. *)
Lemma assign_same props key value :
  Xml.lookup props key = Some value → Xml.assign props key value = props.
Proof.
  induction props as [|[k v] props IH]; simpl; [done|].
  destruct (k =? key) eqn:Hk; simpl.
  - by intros [= ->].
  - intros Hsome. by rewrite IH.
Qed.

(** Of two assignments to one property the second stands. *)
Lemma assign_overwrite props key value value' :
  Xml.assign (Xml.assign props key value) key value' = Xml.assign props key value'.
Proof.
  induction props as [|[k v] props IH]; simpl.
  - by rewrite String.eqb_refl.
  - destruct (k =? key) eqn:Hk; simpl; rewrite Hk; [done|]. by rewrite IH.
Qed.

Lemma assign_assign props key value :
  Xml.assign (Xml.assign props key value) key value = Xml.assign props key value.
Proof. apply assign_overwrite. Qed.

(** ** Blank lines *)

Lemma includes_newlines_short k :
  (k ≤ 2)%nat → includes (newlines k) tripleNewline = false.
Proof. intros Hk. destruct k as [|[|[|k]]]. 1-3: reflexivity. lia. Qed.

Lemma prefix_cons (a b : Ascii.ascii) (s t : string) :
  String.prefix (String a s) (String b t)
    = if Ascii.ascii_dec a b then String.prefix s t else false.
Proof. reflexivity. Qed.

Lemma includes_cons_eq (c : Ascii.ascii) (s sub : string) :
  includes (String c s) sub = String.prefix sub (String c s) || includes s sub.
Proof. reflexivity. Qed.

Lemma prefix_triple_after_other c t :
  c ≠ newline → String.prefix tripleNewline (String c t) = false.
Proof.
  intros Hc. unfold tripleNewline. change (newlines 3) with (String newline (newlines 2)).
  rewrite prefix_cons. destruct (Ascii.ascii_dec newline c) as [Heq|]; [|done].
  by destruct Hc.
Qed.

Lemma prefix_triple_one c t :
  c ≠ newline → String.prefix tripleNewline (String newline (String c t)) = false.
Proof.
  intros Hc. unfold tripleNewline. change (newlines 3) with (String newline (newlines 2)).
  rewrite prefix_cons. destruct (Ascii.ascii_dec newline newline); [|done].
  change (newlines 2) with (String newline (newlines 1)).
  rewrite prefix_cons. destruct (Ascii.ascii_dec newline c) as [Heq|]; [|done].
  by destruct Hc.
Qed.

Lemma prefix_triple_two c t :
  c ≠ newline →
  String.prefix tripleNewline (String newline (String newline (String c t))) = false.
Proof.
  intros Hc. unfold tripleNewline. change (newlines 3) with (String newline (newlines 2)).
  rewrite prefix_cons. destruct (Ascii.ascii_dec newline newline); [|done].
  change (newlines 2) with (String newline (newlines 1)).
  rewrite prefix_cons. destruct (Ascii.ascii_dec newline newline); [|done].
  change (newlines 1) with (String newline "").
  rewrite prefix_cons. destruct (Ascii.ascii_dec newline c) as [Heq|]; [|done].
  by destruct Hc.
Qed.

Lemma includes_after_short_run k c rest :
  (k ≤ 2)%nat → c ≠ newline →
  includes (newlines k +:+ String c rest) tripleNewline = includes rest tripleNewline.
Proof.
  intros Hk Hc.
  destruct k as [|[|[|k]]]. 4: lia.
  - change (newlines 0 +:+ String c rest) with (String c rest).
    by rewrite includes_cons_eq, prefix_triple_after_other.
  - change (newlines 1 +:+ String c rest) with (String newline (String c rest)).
    by rewrite !includes_cons_eq, prefix_triple_one, prefix_triple_after_other.
  - change (newlines 2 +:+ String c rest)
      with (String newline (String newline (String c rest))).
    by rewrite !includes_cons_eq, prefix_triple_two, prefix_triple_one,
      prefix_triple_after_other.
Qed.

(** No run of three line feeds survives. *)
Lemma collapseBlankLines_from_no_triple s : ∀ run,
  includes (collapseBlankLines_from run s) tripleNewline = false.
Proof.
  induction s as [|c s IH]; intros run; simpl.
  - apply includes_newlines_short. lia.
  - destruct (Ascii.eqb_spec c newline) as [->|Hne]; [apply IH|].
    rewrite includes_after_short_run by (done || lia). apply IH.
Qed.

End XmlFacts.

Section UpdateTheorems.
Import FileProcessor ExtraSpec XmlFacts MergeLemmas.
Context {xmlLibrary : XmlLibrary} {numberFormat : NumberFormat}.

Lemma updateMetaXml_parsed text document enrichmentResult :
  parse text = Ok document →
  updateMetaXml text enrichmentResult
    = if skipsUplift document then Ok text
      else
        let document1 :=
          if negb (Xml.isTruthy (Xml.lookup document LightningComponentBundle))
          then Xml.assign document LightningComponentBundle (XObject [])
          else document in
        match Xml.lookup document1 LightningComponentBundle with
        | Some bundle =>
            match Xml.assignProperty bundle "ai" (aiElement enrichmentResult) with
            | Ok bundle' => built (Xml.assign document1 LightningComponentBundle bundle')
            | Throw cause =>
                Throw (JsError ("Failed to parse XML: " +:+ errorMessageOf cause))
            end
        | None =>
            Throw (JsError ("Failed to parse XML: "
                              +:+ "Cannot set properties of undefined (setting 'ai')"))
        end.
Proof.
  intros Hparse. unfold updateMetaXml, skipsUplift, built. rewrite Hparse.
  change (Ok document ≫= ?k) with (k document). cbv beta zeta.
  rewrite optOutFlag_eq.
  destruct (Xml.isTrue (Spec.optOutFlag document)
            || (toLowerCase (Xml.toStringOpt (Spec.optOutFlag document)) =? "true"));
    [reflexivity|].
  generalize (if negb (Xml.isTruthy (Xml.lookup document LightningComponentBundle))
              then Xml.assign document LightningComponentBundle (XObject [])
              else document).
  intros document1. unfold aiElement.
  destruct (Xml.lookup document1 LightningComponentBundle) as [bundle|]; [|reflexivity].
  destruct (Xml.assignProperty bundle "ai" _) as [bundle'|cause]; [|reflexivity].
  change (Ok bundle' ≫= ?k) with (k bundle'). cbv beta.
  destruct (build _); reflexivity.
Qed.

(** X11. The update merges, it does not replace.  For a document whose
    bundle element is an object and does not opt out, the document handed to
    the builder has the same root elements in the same order, every root
    element but the bundle as parsed, and in the bundle the control element
    with [skipUplift] "false", the description and the score as a string,
    next to every other property of the bundle as parsed. *)
Theorem updateMetaXml_merges_control_element
    (text : string) (document : XmlDocument) (props : list (string * XmlValue))
    (enrichmentResult : EnrichmentResult) :
  parse text = Ok document →
  Xml.lookup document "LightningComponentBundle" = Some (XObject props) →
  skipsUplift document = false →
  ∃ document' props',
    updateMetaXml text enrichmentResult = built document'
    ∧ map fst document' = map fst document
    ∧ (∀ key, key ≠ "LightningComponentBundle" →
         Xml.lookup document' key = Xml.lookup document key)
    ∧ Xml.lookup document' "LightningComponentBundle" = Some (XObject props')
    ∧ Xml.lookup props' "ai"
      = Some (XObject [ ("skipUplift", XString "false");
                        ("description", XString (description enrichmentResult));
                        ("score",
                         XString (numberToString (descriptionScore enrichmentResult))) ])
    ∧ (∀ key, key ≠ "ai" → Xml.lookup props' key = Xml.lookup props key).
Proof.
  intros Hparse Hbundle Hskip.
  exists (Xml.assign document "LightningComponentBundle"
            (XObject (Xml.assign props "ai" (aiElement enrichmentResult)))),
         (Xml.assign props "ai" (aiElement enrichmentResult)).
  split_and!.
  - rewrite (updateMetaXml_parsed _ _ _ Hparse), Hskip.
    unfold LightningComponentBundle. cbv zeta. rewrite Hbundle. simpl. by rewrite Hbundle.
  - apply keys_assign_present. rewrite Hbundle. eauto.
  - intros key Hne. by apply lookup_assign_ne.
  - apply lookup_assign_eq.
  - apply lookup_assign_eq.
  - intros key Hne. by apply lookup_assign_ne.
Qed.

(** X12. A document without bundle element gets one: the document handed to
    the builder has the bundle element after the root elements parsed, and
    the bundle holds the control element alone. *)
Theorem updateMetaXml_creates_bundle_element
    (text : string) (document : XmlDocument) (enrichmentResult : EnrichmentResult) :
  parse text = Ok document →
  Xml.lookup document "LightningComponentBundle" = None →
  ∃ document',
    updateMetaXml text enrichmentResult = built document'
    ∧ map fst document' = map fst document ++ ["LightningComponentBundle"]
    ∧ (∀ key, key ≠ "LightningComponentBundle" →
         Xml.lookup document' key = Xml.lookup document key)
    ∧ Xml.lookup document' "LightningComponentBundle"
      = Some (XObject [("ai", aiElement enrichmentResult)]).
Proof.
  intros Hparse Hbundle.
  assert (Hskip : skipsUplift document = false).
  { unfold skipsUplift, Spec.optOutFlag. by rewrite Hbundle. }
  exists (Xml.assign document "LightningComponentBundle"
            (XObject [("ai", aiElement enrichmentResult)])).
  split_and!.
  - rewrite (updateMetaXml_parsed _ _ _ Hparse), Hskip.
    unfold LightningComponentBundle. cbv zeta. rewrite Hbundle. simpl.
    rewrite lookup_assign_eq. simpl.
    by rewrite assign_overwrite.
  - by apply keys_assign_absent.
  - intros key Hne. by apply lookup_assign_ne.
  - apply lookup_assign_eq.
Qed.

(** X13. Whatever fails in the update surfaces as "Failed to parse XML: ..."
    with the cause's text: the parser's error, the builder's error, or the
    [TypeError] of assigning to a bundle element that is a primitive. *)
Theorem updateMetaXml_failure_is_wrapped
    (text : string) (enrichmentResult : EnrichmentResult) (error : JsThrown) :
  updateMetaXml text enrichmentResult = Throw error →
  ∃ cause, error = JsError ("Failed to parse XML: " +:+ errorMessageOf cause)
           ∧ (parse text = Throw cause
              ∨ ∃ document, parse text = Ok document ∧ skipsUplift document = false).
Proof.
  intros Hthrow.
  destruct (parse text) as [document|cause] eqn:Hparse.
  - rewrite (updateMetaXml_parsed _ _ _ Hparse) in Hthrow.
    destruct (skipsUplift document) eqn:Hskip; [done|]. cbv zeta in Hthrow.
    destruct (Xml.lookup _ LightningComponentBundle) as [bundle|].
    + destruct (Xml.assignProperty bundle "ai" _) as [bundle'|cause].
      * unfold built in Hthrow. destruct (build _) as [builtXml|cause]; [done|].
        injection Hthrow as <-. exists cause. eauto.
      * injection Hthrow as <-. exists cause. eauto.
    + injection Hthrow as <-.
      exists (JsError "Cannot set properties of undefined (setting 'ai')"). eauto.
  - unfold updateMetaXml in Hthrow. rewrite Hparse in Hthrow. simpl in Hthrow.
    injection Hthrow as <-. exists cause. eauto.
Qed.

(** X14. A support file that was rewritten holds no run of three or more
    line feeds. *)
Theorem updateMetaXml_leaves_no_blank_run
    (text updatedXml : string) (document : XmlDocument)
    (enrichmentResult : EnrichmentResult) :
  parse text = Ok document →
  skipsUplift document = false →
  updateMetaXml text enrichmentResult = Ok updatedXml →
  includes updatedXml tripleNewline = false.
Proof.
  intros Hparse Hskip. rewrite (updateMetaXml_parsed _ _ _ Hparse), Hskip. cbv zeta.
  destruct (Xml.lookup _ LightningComponentBundle) as [bundle|]; [|done].
  destruct (Xml.assignProperty bundle "ai" _) as [bundle'|cause]; [|done].
  unfold built. destruct (build _) as [builtXml|cause]; [|done].
  intros [= <-]. apply collapseBlankLines_from_no_triple.
Qed.

(** X15. Merging the same result a second time gives the same text, when
    the parser reads the text of the first update back as the document that
    was built, but for the control element: this may come back as any value
    that does not opt out, say with the flag as a boolean and the score as a
    number, as a parser that types the values it reads returns it. *)
Theorem updateMetaXml_is_idempotent
    (text updatedXml : string) (document : XmlDocument)
    (props : list (string * XmlValue)) (readBack : XmlValue)
    (enrichmentResult : EnrichmentResult) :
  parse text = Ok document →
  Xml.lookup document "LightningComponentBundle" = Some (XObject props) →
  skipsUplift document = false →
  updateMetaXml text enrichmentResult = Ok updatedXml →
  parse updatedXml
    = Ok (Xml.assign document "LightningComponentBundle"
            (XObject (Xml.assign props "ai" readBack))) →
  skipsUplift (Xml.assign document "LightningComponentBundle"
                 (XObject (Xml.assign props "ai" readBack))) = false →
  updateMetaXml updatedXml enrichmentResult = Ok updatedXml.
Proof.
  intros Hparse Hbundle Hskip Hfirst Hback Hskip'.
  rewrite (updateMetaXml_parsed _ _ _ Hparse), Hskip in Hfirst.
  unfold LightningComponentBundle in Hfirst. cbv zeta in Hfirst.
  rewrite Hbundle in Hfirst. simpl in Hfirst. rewrite Hbundle in Hfirst. simpl in Hfirst.
  rewrite (updateMetaXml_parsed _ _ _ Hback), Hskip'.
  unfold LightningComponentBundle. cbv zeta.
  rewrite lookup_assign_eq. simpl. rewrite lookup_assign_eq. simpl.
  by rewrite (assign_overwrite document), (assign_overwrite props).
Qed.

End UpdateTheorems.

Lemma updateMetaXml_merges_control_element_witness :
  parse (XmlLibrary := Fixture.xmlLibrary) "<plain/>" = Ok Fixture.plainDocument
  ∧ ∃ document',
      FileProcessor.updateMetaXml (xmlLibrary := Fixture.xmlLibrary)
        (numberFormat := Fixture.numberFormat) "<plain/>" (Fixture.enrichmentResult "alpha")
        = ExtraSpec.built (xmlLibrary := Fixture.xmlLibrary) document'
      ∧ map fst document' = ["LightningComponentBundle"]
      ∧ Xml.optionalChain (Xml.lookup document' "LightningComponentBundle") "apiVersion"
        = Some (XNumber 60).
Proof.
  split; [reflexivity|].
  destruct (updateMetaXml_merges_control_element (xmlLibrary := Fixture.xmlLibrary)
              (numberFormat := Fixture.numberFormat) "<plain/>" Fixture.plainDocument
              [("apiVersion", XNumber 60)] (Fixture.enrichmentResult "alpha")
              eq_refl eq_refl eq_refl)
    as (document' & props' & Hupdate & Hkeys & _ & Hbundle & _ & Hother).
  exists document'. split_and!; [exact Hupdate|exact Hkeys|].
  rewrite Hbundle. simpl. by rewrite Hother.
Defined.

Lemma updateMetaXml_creates_bundle_element_witness :
  parse (XmlLibrary := ExtraFixture.xmlLibrary) "<other/>" = Ok [("Other", XString "x")]
  ∧ ∃ document',
      FileProcessor.updateMetaXml (xmlLibrary := ExtraFixture.xmlLibrary)
        (numberFormat := Fixture.numberFormat) "<other/>" (Fixture.enrichmentResult "alpha")
        = ExtraSpec.built (xmlLibrary := ExtraFixture.xmlLibrary) document'
      ∧ map fst document' = ["Other"; "LightningComponentBundle"].
Proof.
  split; [reflexivity|].
  destruct (updateMetaXml_creates_bundle_element (xmlLibrary := ExtraFixture.xmlLibrary)
              (numberFormat := Fixture.numberFormat) "<other/>" [("Other", XString "x")]
              (Fixture.enrichmentResult "alpha") eq_refl eq_refl)
    as (document' & Hupdate & Hkeys & _).
  exists document'. split; [exact Hupdate|exact Hkeys].
Defined.

Lemma updateMetaXml_failure_is_wrapped_witness :
  FileProcessor.updateMetaXml (xmlLibrary := Fixture.xmlLibrary)
    (numberFormat := Fixture.numberFormat) "<LightningComponentBundle>"
    (Fixture.enrichmentResult "gamma")
    = Throw (JsError "Failed to parse XML: Unexpected end of input")
  ∧ ∃ cause,
      JsError "Failed to parse XML: Unexpected end of input"
        = JsError ("Failed to parse XML: " +:+ errorMessageOf cause).
Proof.
  split; [reflexivity|].
  destruct (updateMetaXml_failure_is_wrapped (xmlLibrary := Fixture.xmlLibrary)
              (numberFormat := Fixture.numberFormat) "<LightningComponentBundle>"
              (Fixture.enrichmentResult "gamma")
              (JsError "Failed to parse XML: Unexpected end of input") eq_refl)
    as (cause & Hcause & _).
  by exists cause.
Defined.

Lemma updateMetaXml_leaves_no_blank_run_witness :
  FileProcessor.updateMetaXml (xmlLibrary := Fixture.xmlLibrary)
    (numberFormat := Fixture.numberFormat) "<plain/>" (Fixture.enrichmentResult "alpha")
    = Ok "<apiVersion,ai>"
  ∧ includes "<apiVersion,ai>" ExtraSpec.tripleNewline = false.
Proof.
  split; [reflexivity|].
  exact (updateMetaXml_leaves_no_blank_run (xmlLibrary := Fixture.xmlLibrary)
           (numberFormat := Fixture.numberFormat) "<plain/>" "<apiVersion,ai>"
           Fixture.plainDocument (Fixture.enrichmentResult "alpha")
           eq_refl eq_refl eq_refl).
Defined.

Lemma updateMetaXml_is_idempotent_witness :
  parse (XmlLibrary := ExtraFixture.xmlLibrary) "<apiVersion,ai>"
    = Ok [("LightningComponentBundle",
           XObject [("apiVersion", XNumber 60);
                    ("ai", XObject [("skipUplift", XBool false);
                                    ("description", XString "d");
                                    ("score", XNumber 0.5)])])]
  ∧ FileProcessor.updateMetaXml (xmlLibrary := ExtraFixture.xmlLibrary)
      (numberFormat := Fixture.numberFormat) "<plain/>" (Fixture.enrichmentResult "alpha")
    = Ok "<apiVersion,ai>"
  ∧ FileProcessor.updateMetaXml (xmlLibrary := ExtraFixture.xmlLibrary)
      (numberFormat := Fixture.numberFormat) "<apiVersion,ai>"
      (Fixture.enrichmentResult "alpha")
    = Ok "<apiVersion,ai>".
Proof.
  split_and!; [reflexivity|reflexivity|].
  exact (updateMetaXml_is_idempotent (xmlLibrary := ExtraFixture.xmlLibrary)
           (numberFormat := Fixture.numberFormat) "<plain/>" "<apiVersion,ai>"
           Fixture.plainDocument [("apiVersion", XNumber 60)] ExtraFixture.rereadElement
           (Fixture.enrichmentResult "alpha")
           eq_refl eq_refl eq_refl eq_refl eq_refl eq_refl).
Defined.

(* ===================================================================== *)
(** * Further properties: what the merge step touches                     *)
(* ===================================================================== *)

Module TouchFacts.
Import FileProcessor FileReader MergeSpec MergeFacts.
Section WithCollaborators.
Context {path : NodePath} {xmlLibrary : XmlLibrary} {numberFormat : NumberFormat}.

(** One iteration changes at most the file at hand, and only when it is not
    protected and a record with a response was found for it. *)
Lemma mergeFile_touches (st : State) (file : FileReadResult) :
  ∀ p, Fs.files (mergeFile st file).2 !! p ≠ Fs.files st.2 !! p →
    p = filePath file
    ∧ isMetaXmlFile p = true
    ∧ (p ∉ Fs.readOnly st.2)
    ∧ ∃ index record,
        st.1 !! index = Some record
        ∧ componentName record = file_componentName file
        ∧ is_Some (response record).
Proof.
  unfold mergeFile.
  destruct (target file st.1) as [[[index record] enrichmentResult]|] eqn:Htarget;
    [|done].
  pose proof Htarget as Hfound.
  apply target_Some in Hfound as (Hmeta & Hfind & Hlookup & resp & Hresp & _).
  apply list_find_Some in Hfind as (_ & Hname & _).
  unfold attempt.
  destruct (updateMetaXml (fileContents file) enrichmentResult) as [updatedXml|error];
    simpl; [|done].
  unfold Fs.writeFile. destruct (bool_decide _) eqn:Hprotected; simpl; [done|].
  apply bool_decide_eq_false_1 in Hprotected.
  intros p Hchanged.
  destruct (decide (filePath file = p)) as [<-|Hne].
  - split_and!; [done|done|done|]. exists index, record. rewrite Hresp. eauto.
  - by rewrite lookup_insert_ne in Hchanged.
Qed.

Lemma foldl_mergeFile_touches (files : list FileReadResult) : ∀ st : State,
  ∀ p, Fs.files (foldl mergeFile st files).2 !! p ≠ Fs.files st.2 !! p →
    (p ∉ Fs.readOnly st.2)
    ∧ ∃ file index record,
        file ∈ files
        ∧ p = filePath file
        ∧ isMetaXmlFile p = true
        ∧ st.1 !! index = Some record
        ∧ componentName record = file_componentName file
        ∧ is_Some (response record).
Proof.
  induction files as [|file files IH]; intros st; simpl; [done|].
  pose proof (IH (mergeFile st file)) as Hrest.
  pose proof (mergeFile_touches st file) as Hstep.
  intros p Hchanged.
  destruct (decide (Fs.files (mergeFile st file).2 !! p = Fs.files st.2 !! p)) as [Hsame|Hdiff].
  - assert (Hlater : Fs.files (foldl mergeFile (mergeFile st file) files).2 !! p
                     ≠ Fs.files (mergeFile st file).2 !! p) by congruence.
    destruct (Hrest p Hlater)
      as (Hwritable & f & index & record & Hf & Hp & Hmeta & Hlookup & Hname & Hresp).
    rewrite mergeFile_readOnly in Hwritable. split; [done|].
    pose proof (mergeFile_preserves st file) as Hpreserved.
    apply (f_equal (λ l, l !! index)) in Hpreserved.
    rewrite !list_lookup_fmap, Hlookup in Hpreserved. simpl in Hpreserved.
    destruct (st.1 !! index) as [record0|] eqn:Hlookup0; [|done].
    simpl in Hpreserved. injection Hpreserved as Hsamename _ _ Hsameresponse.
    exists f, index, record0. split_and!; try done.
    + by apply list_elem_of_further.
    + congruence.
    + by rewrite <- Hsameresponse.
  - destruct (Hstep p Hdiff)
      as (Hp & Hmeta & Hwritable & index & record & Hlookup & Hname & Hresp).
    split; [done|].
    exists file, index, record. split_and!; try done. apply list_elem_of_here.
Qed.

(** The loop leaves the protected files as they are. *)
Lemma foldl_mergeFile_protected (files : list FileReadResult) (st : State) (p : string) :
  p ∈ Fs.readOnly st.2 →
  Fs.files (foldl mergeFile st files).2 !! p = Fs.files st.2 !! p.
Proof.
  intros Hprotected.
  destruct (decide (Fs.files (foldl mergeFile st files).2 !! p = Fs.files st.2 !! p))
    as [Hsame|Hdiff]; [done|].
  by destruct (foldl_mergeFile_touches files st p Hdiff) as [Hwritable _].
Qed.

(** A file that was read for the merge is the support file of a component. *)
Lemma readComponentXmlFilesInParallel_origin fs sourceComponents file :
  file ∈ readComponentXmlFilesInParallel fs sourceComponents →
  ∃ component,
    component ∈ sourceComponents
    ∧ xml component = Some (filePath file)
    ∧ componentNameOf component = Some (file_componentName file).
Proof.
  rewrite readComponentXmlFilesInParallel_eq, list_elem_of_In, in_flat_map.
  intros (component & Hin & Hfile). exists component. unfold xmlFileOf in Hfile.
  destruct (componentNameOf component) as [n|]; [|done].
  destruct (xml component) as [p|]; [|done].
  destruct (truthy n && truthy p); [|done].
  unfold readFileMetadata in Hfile.
  destruct (Fs.readFile fs p) as [text|]; simpl in Hfile; [|done].
  destruct Hfile as [<-|[]]. split_and!; [by apply list_elem_of_In|done|done].
Qed.

(** An iteration leaves alone the records that have no response. *)
Lemma mergeFile_keeps_failed (st : State) file index record :
  st.1 !! index = Some record →
  response record = None →
  (mergeFile st file).1 !! index = Some record.
Proof.
  intros Hlookup Hresp. unfold mergeFile.
  destruct (target file st.1) as [[[found foundRecord] enrichmentResult]|] eqn:Htarget;
    [|done].
  apply target_Some in Htarget as (_ & _ & Hfound & resp & Hresp' & _).
  destruct (attempt file enrichmentResult st.2); [done|]. simpl.
  destruct (decide (found = index)) as [->|Hne]; [congruence|].
  by rewrite list_lookup_insert_ne.
Qed.

Lemma foldl_mergeFile_keeps_failed files : ∀ (st : State) index record,
  st.1 !! index = Some record →
  response record = None →
  (foldl mergeFile st files).1 !! index = Some record.
Proof.
  induction files as [|file files IH]; intros st index record Hlookup Hresp; [done|].
  simpl. apply IH; [|done]. by apply mergeFile_keeps_failed.
Qed.

(** With no result to merge an iteration does nothing. *)
Lemma mergeFile_nothing_to_merge (st : State) file :
  (∀ record resp, record ∈ st.1 → response record = Some resp → results resp = []) →
  mergeFile st file = st.
Proof.
  intros Hnone. unfold mergeFile.
  destruct (target file st.1) as [[[index record] enrichmentResult]|] eqn:Htarget; [|done].
  apply target_Some in Htarget as (_ & _ & Hlookup & resp & Hresp & Hhead).
  apply list_elem_of_lookup_2 in Hlookup.
  rewrite (Hnone record resp Hlookup Hresp) in Hhead. done.
Qed.

End WithCollaborators.
End TouchFacts.

Section TouchTheorems.
Import FileProcessor FileReader MergeSpec MergeFacts TouchFacts.
Context {path : NodePath} {xmlLibrary : XmlLibrary} {numberFormat : NumberFormat}.

(** X16. The merge step writes support files only, and none that is
    protected: a path whose content differs after the merge is not among the
    write-protected paths and is a [.js-meta.xml] file, the support file of
    one of the source components, for whose name there is a record with a
    response.  So every protected file, and every file that is no such
    support file, holds after the merge what it held before. *)
Theorem updateMetadataFiles_writes_support_files_only
    (fs : Fs.FileSystem) (sourceComponents : list SourceComponent)
    (enrichmentRecords : list EnrichmentRequestRecord) :
  ∃ merged fs',
    updateMetadataFiles fs sourceComponents enrichmentRecords = Ok (merged, fs')
    ∧ (∀ p, Fs.files fs' !! p ≠ Fs.files fs !! p →
         (p ∉ Fs.readOnly fs)
         ∧ isMetaXmlFile p = true
         ∧ ∃ component record,
             component ∈ sourceComponents
             ∧ xml component = Some p
             ∧ record ∈ enrichmentRecords
             ∧ componentNameOf component = Some (componentName record)
             ∧ is_Some (response record))
    ∧ (∀ p, p ∈ Fs.readOnly fs → Fs.files fs' !! p = Fs.files fs !! p).
Proof.
  unfold updateMetadataFiles. rewrite updateMetadataFiles_loop_eq.
  pose proof (foldl_mergeFile_touches (readComponentXmlFilesInParallel fs sourceComponents)
                (enrichmentRecords, fs)) as Htouched.
  destruct (foldl mergeFile _ _) as [merged fs'] eqn:Hfold.
  exists merged, fs'. simpl in Htouched.
  assert (Hchanged : ∀ p, Fs.files fs' !! p ≠ Fs.files fs !! p →
            (p ∉ Fs.readOnly fs)
            ∧ isMetaXmlFile p = true
            ∧ ∃ component record,
                component ∈ sourceComponents
                ∧ xml component = Some p
                ∧ record ∈ enrichmentRecords
                ∧ componentNameOf component = Some (componentName record)
                ∧ is_Some (response record)).
  { intros p Hdiff.
    destruct (Htouched p Hdiff)
      as (Hwritable & file & index & record & Hfile & -> & Hmeta & Hlookup & Hname & Hresp).
    split_and!; [done|done|].
    apply readComponentXmlFilesInParallel_origin in Hfile
      as (component & Hin & Hxml & Hcname).
    exists component, record. split_and!; try done.
    - by eapply list_elem_of_lookup_2.
    - by rewrite Hname. }
  split_and!; [done|exact Hchanged|].
  intros p Hprotected.
  destruct (decide (Fs.files fs' !! p = Fs.files fs !! p)) as [Hsame|Hdiff]; [done|].
  by destruct (Hchanged p Hdiff) as [Hwritable _].
Qed.

(** X17. With no result to merge nothing happens: when no record has a
    response with a result, the merge returns the records and the files as
    they were. *)
Theorem updateMetadataFiles_without_results
    (fs : Fs.FileSystem) (sourceComponents : list SourceComponent)
    (enrichmentRecords : list EnrichmentRequestRecord) :
  (∀ record resp, record ∈ enrichmentRecords →
     response record = Some resp → results resp = []) →
  updateMetadataFiles fs sourceComponents enrichmentRecords = Ok (enrichmentRecords, fs).
Proof.
  intros Hnone. unfold updateMetadataFiles. rewrite updateMetadataFiles_loop_eq. f_equal.
  induction (readComponentXmlFilesInParallel fs sourceComponents) as [|file files IH];
    [done|].
  simpl. by rewrite (mergeFile_nothing_to_merge (enrichmentRecords, fs) file).
Qed.

(** X18. The merge step changes messages only, and only of records that
    have a response: it returns as many records as it was given, each with
    the name, type, request body and response it had, and a record without
    response is returned as it was, its failure message included. *)
Theorem updateMetadataFiles_changes_messages_only
    (fs : Fs.FileSystem) (sourceComponents : list SourceComponent)
    (enrichmentRecords : list EnrichmentRequestRecord) :
  ∃ merged fs',
    updateMetadataFiles fs sourceComponents enrichmentRecords = Ok (merged, fs')
    ∧ length merged = length enrichmentRecords
    ∧ ∀ i record, enrichmentRecords !! i = Some record →
        ∃ record',
          merged !! i = Some record'
          ∧ componentName record' = componentName record
          ∧ componentType record' = componentType record
          ∧ requestBody record' = requestBody record
          ∧ response record' = response record
          ∧ (response record = None → record' = record).
Proof.
  unfold updateMetadataFiles. rewrite updateMetadataFiles_loop_eq.
  pose proof (foldl_mergeFile_preserves (readComponentXmlFilesInParallel fs sourceComponents)
                (enrichmentRecords, fs)) as Hsame.
  pose proof (foldl_mergeFile_keeps_failed
                (readComponentXmlFilesInParallel fs sourceComponents)
                (enrichmentRecords, fs)) as Hfailed.
  destruct (foldl mergeFile _ _) as [merged fs'] eqn:Hfold. simpl in *.
  exists merged, fs'. split_and!; [done| |].
  - by rewrite <- (length_map withoutMessage merged), Hsame, length_map.
  - intros i record Hi.
    pose proof (f_equal (λ l, l !! i) Hsame) as Hi'.
    rewrite !list_lookup_fmap, Hi in Hi'. simpl in Hi'.
    destruct (merged !! i) as [record'|] eqn:Hmerged; [|done].
    simpl in Hi'. injection Hi' as Hsamename Hsametype Hsamebody Hsameresponse.
    exists record'. split_and!; [done..|].
    intros Hresp. pose proof (Hfailed i record Hi Hresp). congruence.
Qed.

End TouchTheorems.

Lemma updateMetadataFiles_without_results_witness :
  let records := [Fixture.requestRecord "alpha" None (Some "Error sending request");
                  Fixture.requestRecord "beta" None None] in
  FileProcessor.updateMetadataFiles (path := Fixture.path)
    (xmlLibrary := Fixture.xmlLibrary) (numberFormat := Fixture.numberFormat)
    Fixture.fs [Fixture.alpha; Fixture.beta] records
  = Ok (records, Fixture.fs).
Proof.
  intros records.
  apply (updateMetadataFiles_without_results (path := Fixture.path)
           (xmlLibrary := Fixture.xmlLibrary) (numberFormat := Fixture.numberFormat)).
  intros record resp Hin Hresp.
  apply elem_of_cons in Hin as [->|Hin]; [discriminate|].
  apply list_elem_of_singleton in Hin as ->. discriminate.
Defined.

(* ===================================================================== *)
(** * Further properties: from dispatch to metrics                        *)
(* ===================================================================== *)

Module CountFacts.
Import EnrichmentHandler EnrichmentMetrics MetricsSpec MetricsFacts DispatchSpec DispatchFacts
  ExtraSpec.

(** A dispatched record has a response exactly when its call was accepted. *)
Lemma hasResponse_outcome connection record :
  hasResponse (outcome connection record) = accepted connection record.
Proof.
  unfold accepted. pose proof (outcome_cases connection record) as Hcase.
  destruct (requestPost connection ENDPOINT_ENRICHMENT (requestBody record));
    by rewrite Hcase.
Qed.

Lemma length_filter_map {A B} (p : B → bool) (f : A → B) (l : list A) :
  length (List.filter p (map f l)) = length (List.filter (λ a, p (f a)) l).
Proof.
  induction l as [|a l IH]; [done|].
  change (map f (a :: l)) with (f a :: map f l).
  change (List.filter p (f a :: map f l))
    with (if p (f a) then f a :: List.filter p (map f l) else List.filter p (map f l)).
  change (List.filter (λ a, p (f a)) (a :: l))
    with (if p (f a) then a :: List.filter (λ a, p (f a)) l
          else List.filter (λ a, p (f a)) l).
  destruct (p (f a)); rewrite ?length_cons; by rewrite IH.
Qed.

Lemma length_filter_ext {A} (p q : A → bool) (l : list A) :
  (∀ a, p a = q a) → length (List.filter p l) = length (List.filter q l).
Proof.
  intros Hext. induction l as [|a l IH]; [done|].
  change (List.filter p (a :: l)) with (if p a then a :: List.filter p l else List.filter p l).
  change (List.filter q (a :: l)) with (if q a then a :: List.filter q l else List.filter q l).
  rewrite (Hext a). destruct (q a); rewrite ?length_cons; by rewrite IH.
Qed.

Lemma succeeded_outcomes connection records :
  length (succeeded (map (outcome connection) records))
    = length (List.filter (accepted connection) records).
Proof.
  unfold succeeded. rewrite length_filter_map.
  apply length_filter_ext, hasResponse_outcome.
Qed.

Lemma failed_outcomes connection records :
  length (failed (map (outcome connection) records))
    = length (List.filter (λ record, negb (accepted connection record)) records).
Proof.
  unfold failed. rewrite length_filter_map.
  apply length_filter_ext. intros record. by rewrite hasResponse_outcome.
Qed.

(** The count of failed records does not depend on the messages. *)
Lemma failed_withoutMessage records :
  length (failed records) = length (failed (map (λ r, setMessage r None) records)).
Proof.
  unfold failed. rewrite length_filter_map. by apply length_filter_ext.
Qed.

End CountFacts.

Section CountTheorems.
Import EnrichmentHandler EnrichmentMetrics MetricsSpec MetricsFacts DispatchSpec DispatchFacts
  ExtraSpec CountFacts.

(** X19. Dispatch and metrics agree with the remote service: of the records
    dispatched, as many are counted successful as calls were accepted and as
    many failed as calls were rejected, whatever the order of completion; one
    rejected call costs one success and no more. *)
Theorem dispatch_counts_follow_the_calls
    (connection : Connection) (records : list EnrichmentRequestRecord)
    (completion : list nat) (skippedComponents : list ComponentEnrichmentStatus) :
  completion ≡ₚ seq 0 (length records) →
  ∃ sent,
    sendEnrichmentRequests connection records completion = Some sent
    ∧ count (success (createEnrichmentMetrics sent skippedComponents))
      = length (List.filter (accepted connection) records)
    ∧ count (fail (createEnrichmentMetrics sent skippedComponents))
      = length (List.filter (λ record, negb (accepted connection record)) records)
    ∧ total (createEnrichmentMetrics sent skippedComponents)
      = length records + length skippedComponents.
Proof.
  intros Hperm. exists (map (outcome connection) records).
  rewrite createEnrichmentMetrics_eq. simpl.
  rewrite succeeded_outcomes, failed_outcomes, length_map.
  split_and!; [by apply sendEnrichmentRequests_eq|done..].
Qed.

End CountTheorems.

Section RunTheorems.
Import EnrichmentHandler EnrichmentMetrics MetricsSpec MetricsFacts DispatchSpec DispatchFacts
  ExtraSpec CountFacts MergeSpec MergeFacts BundleFacts ReasonFacts.
Context {path : NodePath} {xmlLibrary : XmlLibrary} {numberFormat : NumberFormat}.
Variable getTypeByName : option string → string → result MetadataType.

(** X20. No request is made under a skipped name: a record created for the
    components left to process never bears the name of a skip record. *)
Theorem skipped_names_are_not_dispatched
    (fs : Fs.FileSystem) (sourceComponents : list SourceComponent)
    (componentsToSkip : list ComponentEnrichmentStatus)
    (record : EnrichmentRequestRecord) (skip : ComponentEnrichmentStatus) :
  record ∈ createEnrichmentRequestRecords fs
             (EnrichMetadata.componentsToProcess sourceComponents componentsToSkip) →
  skip ∈ componentsToSkip →
  status_componentName skip ≠ Some (componentName record).
Proof.
  intros Hrecord Hskip.
  apply createEnrichmentRequestRecords_origin in Hrecord
    as (component & n & Hin & Hname & _ & _ & ->). simpl.
  apply elem_of_componentsToProcess in Hin as (_ & n' & Hname' & _ & Hnone).
  assert (n' = n) as -> by congruence. by apply Hnone.
Qed.

(** X21. Once the project, the flags, the component set and the connection
    are obtained, and provided the log can be written, the command returns
    whatever the requests and the files do: the metrics it returns have as
    total the number of requests made plus the number of skip records, as
    skipped bucket the list of skip records, and as success and fail counts
    the numbers of accepted and of rejected calls, a failure of the merge
    step notwithstanding; and every write-protected file holds what it
    held. *)
Theorem run_reports_every_request
    (command : EnrichMetadata.Command) (fs : Fs.FileSystem) (completion : list nat)
    (projectPath : string) (flags : EnrichMetadata.Flags)
    (sourceComponents : list SourceComponent) (connection : Connection) :
  EnrichMetadata.resolveProject command = Ok projectPath →
  EnrichMetadata.parseFlags command = Ok flags →
  EnrichMetadata.buildComponentSet command (EnrichMetadata.flag_metadata flags)
    [projectPath] = Ok sourceComponents →
  EnrichMetadata.getConnection (EnrichMetadata.target_org flags) = Ok connection →
  (∀ metrics, EnrichMetadata.logMetrics command metrics = Ok tt) →
  let componentsToSkip :=
    ComponentProcessor.getComponentsToSkip getTypeByName sourceComponents
      (EnrichMetadata.flag_metadata flags) (Some projectPath) in
  let records :=
    createEnrichmentRequestRecords fs
      (EnrichMetadata.componentsToProcess sourceComponents componentsToSkip) in
  completion ≡ₚ seq 0 (length records) →
  ∃ metrics fs',
    EnrichMetadata.run getTypeByName command fs completion = Some (Ok metrics, fs')
    ∧ total metrics = length records + length componentsToSkip
    ∧ components (skipped metrics) = componentsToSkip
    ∧ count (success metrics) = length (List.filter (accepted connection) records)
    ∧ count (fail metrics)
      = length (List.filter (λ record, negb (accepted connection record)) records)
    ∧ ∀ p, p ∈ Fs.readOnly fs → Fs.files fs' !! p = Fs.files fs !! p.
Proof.
  intros Hproject Hflags Hbuild Hconnection Hlog componentsToSkip records Hperm.
  unfold EnrichMetadata.run, EnrichMetadata.prepare.
  rewrite Hproject. simpl. rewrite Hflags. simpl. rewrite Hbuild. simpl.
  rewrite Hconnection. simpl. unfold enrich.
  fold componentsToSkip. fold records.
  rewrite (sendEnrichmentRequests_eq connection records completion Hperm). simpl.
  pose proof (TouchFacts.foldl_mergeFile_protected
                (FileReader.readComponentXmlFilesInParallel fs
                   (EnrichMetadata.componentsToProcess sourceComponents componentsToSkip))
                (map (outcome connection) records, fs)) as Hprotected.
  pose proof (foldl_mergeFile_preserves
                (FileReader.readComponentXmlFilesInParallel fs
                   (EnrichMetadata.componentsToProcess sourceComponents componentsToSkip))
                (map (outcome connection) records, fs)) as Hsame.
  unfold FileProcessor.updateMetadataFiles. rewrite updateMetadataFiles_loop_eq.
  destruct (foldl mergeFile _ _) as [merged fs'] eqn:Hfold. simpl in *.
  exists (createEnrichmentMetrics merged componentsToSkip), fs'.
  rewrite Hlog. simpl.
  rewrite createEnrichmentMetrics_eq. simpl.
  assert (Hlen : length merged = length records).
  { by rewrite <- (length_map withoutMessage merged), Hsame, !length_map. }
  rewrite (succeeded_withoutMessage merged), (failed_withoutMessage merged).
  fold withoutMessage. rewrite Hsame. unfold withoutMessage.
  rewrite <- succeeded_withoutMessage, <- failed_withoutMessage.
  rewrite succeeded_outcomes, failed_outcomes, Hlen.
  by split_and!.
Qed.

End RunTheorems.

Lemma dispatch_counts_follow_the_calls_witness :
  let records := [Fixture.requestRecord "alpha" None None;
                  Fixture.requestRecord "beta" None None;
                  Fixture.requestRecord "gamma" None None] in
  [1; 2; 0] ≡ₚ seq 0 (length records)
  ∧ ∃ sent,
      EnrichmentHandler.sendEnrichmentRequests Fixture.connection records [1; 2; 0]
        = Some sent
      ∧ EnrichmentMetrics.count
          (EnrichmentMetrics.success (EnrichmentMetrics.createEnrichmentMetrics sent []))
        = 2
      ∧ EnrichmentMetrics.count
          (EnrichmentMetrics.fail (EnrichmentMetrics.createEnrichmentMetrics sent []))
        = 1.
Proof.
  intros records.
  assert (Hperm : [1; 2; 0] ≡ₚ seq 0 (length records)).
  { transitivity [1; 0; 2]; [apply perm_skip, perm_swap | apply perm_swap]. }
  split; [exact Hperm|].
  destruct (dispatch_counts_follow_the_calls Fixture.connection records [1; 2; 0] [] Hperm)
    as (sent & Hsent & Hsuccess & Hfail & _).
  exists sent. split_and!; [exact Hsent|exact Hsuccess|exact Hfail].
Defined.

Lemma skipped_names_are_not_dispatched_witness :
  let util := Fixture.component "Util" Fixture.apex None ["classes/Util.cls"] in
  let skip := {| status_type := "ApexClass"; status_componentName := Some "Util";
                 status_message :=
                   Some "Only Lightning Web Components are currently supported for enrichment" |} in
  let records :=
    EnrichmentHandler.createEnrichmentRequestRecords (path := Fixture.path) Fixture.fs
      (EnrichMetadata.componentsToProcess [Fixture.alpha; util] [skip]) in
  (componentName <$> records) = ["alpha"]
  ∧ ∀ record, record ∈ records → Some "Util" ≠ Some (componentName record).
Proof.
  intros util skip records. split; [by vm_compute|].
  intros record Hrecord.
  exact (skipped_names_are_not_dispatched (path := Fixture.path) Fixture.fs
           [Fixture.alpha; util] [skip] record skip Hrecord (list_elem_of_here _ _)).
Defined.

Lemma run_reports_every_request_witness :
  let command :=
    Fixture.command [Fixture.alpha; Fixture.beta]
      ["LightningComponentBundle:alpha"; "LightningComponentBundle:Ghost"] in
  [1; 0] ≡ₚ seq 0 2
  ∧ ∃ metrics fs',
      EnrichMetadata.run (path := Fixture.path) (xmlLibrary := Fixture.xmlLibrary)
        (numberFormat := Fixture.numberFormat) Fixture.getTypeByName command
        Fixture.protectedFs [1; 0]
        = Some (Ok metrics, fs')
      ∧ EnrichmentMetrics.total metrics = 3
      ∧ Fs.files fs' !! "lwc/alpha/alpha.js-meta.xml" = Some "<plain/>".
Proof.
  intros command.
  assert (Hperm : [1; 0] ≡ₚ seq 0 2) by apply perm_swap.
  split; [exact Hperm|].
  destruct (run_reports_every_request (path := Fixture.path)
              (xmlLibrary := Fixture.xmlLibrary) (numberFormat := Fixture.numberFormat)
              Fixture.getTypeByName command Fixture.protectedFs [1; 0] "/project"
              {| EnrichMetadata.target_org :=
                   {| EnrichMetadata.getConnection := Ok Fixture.connection |};
                 EnrichMetadata.flag_metadata :=
                   ["LightningComponentBundle:alpha"; "LightningComponentBundle:Ghost"] |}
              [Fixture.alpha; Fixture.beta] Fixture.connection
              eq_refl eq_refl eq_refl eq_refl (λ _, eq_refl) Hperm)
    as (metrics & fs' & Hrun & Htotal & _ & _ & _ & Hprotected).
  exists metrics, fs'. split_and!; [exact Hrun|exact Htotal|].
  rewrite (Hprotected "lwc/alpha/alpha.js-meta.xml")
    by (by vm_compute).
  reflexivity.
Defined.

(* ===================================================================== *)
(** * Further properties: white space, MIME types, bundle keys            *)
(* ===================================================================== *)

Module TrimFacts.
Import ExtraSpec StringFacts.

(** [trimStart] drops one white-space code point after the other. *)
Lemma trimStart_eq (s : string) :
  trimStart s = match afterWhiteSpace s with
                | Some rest => trimStart rest
                | None => s
                end.
Proof.
  destruct s as [|a [|b [|c rest]]]; cbn [trimStart afterWhiteSpace]; [done|..].
  - by destruct (isWhiteSpace a).
  - destruct (isWhiteSpace a); [done|]. by destruct (isWhiteSpace2 a b).
  - destruct (isWhiteSpace a); [done|]. destruct (isWhiteSpace2 a b); [done|].
    by destruct (isWhiteSpace3 a b c).
Qed.

Lemma afterWhiteSpace_length (s rest : string) :
  afterWhiteSpace s = Some rest → (String.length rest < String.length s)%nat.
Proof.
  destruct s as [|a [|b [|c tail]]]; cbn [afterWhiteSpace]; [done|..].
  - destruct (isWhiteSpace a); [|done]. intros [= <-]. simpl. lia.
  - destruct (isWhiteSpace a); [intros [= <-]; simpl; lia|].
    destruct (isWhiteSpace2 a b); [|done]. intros [= <-]. simpl. lia.
  - destruct (isWhiteSpace a); [intros [= <-]; simpl; lia|].
    destruct (isWhiteSpace2 a b); [intros [= <-]; simpl; lia|].
    destruct (isWhiteSpace3 a b c); [|done]. intros [= <-]. simpl. lia.
Qed.

(** White space at the start of a string is at the start of what the string
    is a prefix of. *)
Lemma afterWhiteSpace_app (s rest t : string) :
  afterWhiteSpace s = Some rest → afterWhiteSpace (s +:+ t) = Some (rest +:+ t).
Proof.
  destruct s as [|a [|b [|c tail]]]; cbn [afterWhiteSpace]; [done|..].
  - destruct (isWhiteSpace a) eqn:Ha; [|done]. intros [= <-].
    rewrite append_cons. cbn [afterWhiteSpace]. by rewrite Ha.
  - rewrite !append_cons. cbn [afterWhiteSpace].
    destruct (isWhiteSpace a); [by intros [= <-]|].
    destruct (isWhiteSpace2 a b); [|done]. by intros [= <-].
  - rewrite !append_cons. cbn [afterWhiteSpace].
    destruct (isWhiteSpace a); [by intros [= <-]|].
    destruct (isWhiteSpace2 a b); [by intros [= <-]|].
    destruct (isWhiteSpace3 a b c); [|done]. by intros [= <-].
Qed.

(** An induction along the white space a string begins with. *)
Lemma afterWhiteSpace_ind (P : string → Prop) :
  (∀ s, (∀ rest, afterWhiteSpace s = Some rest → P rest) → P s) → ∀ s, P s.
Proof.
  intros Hstep s. remember (String.length s) as n eqn:Hn.
  revert s Hn. induction n as [n IH] using lt_wf_ind. intros s ->.
  apply Hstep. intros rest Hrest. apply (IH (String.length rest)); [|done].
  by apply afterWhiteSpace_length.
Qed.

Lemma trimStart_no_lead (s : string) : afterWhiteSpace (trimStart s) = None.
Proof.
  induction s as [s IH] using afterWhiteSpace_ind.
  rewrite trimStart_eq. destruct (afterWhiteSpace s) as [rest|] eqn:Hrest; [|done].
  by apply IH.
Qed.

Lemma trimStart_id (s : string) : afterWhiteSpace s = None → trimStart s = s.
Proof. intros Hnone. by rewrite trimStart_eq, Hnone. Qed.

(** White space before a string does not count. *)
Lemma trimStart_app_blank (s t : string) :
  trimStart s = "" → trimStart (s +:+ t) = trimStart t.
Proof.
  induction s as [s IH] using afterWhiteSpace_ind. intros Hblank.
  rewrite trimStart_eq in Hblank.
  destruct (afterWhiteSpace s) as [rest|] eqn:Hrest.
  - rewrite (trimStart_eq (s +:+ t)), (afterWhiteSpace_app s rest t Hrest).
    by apply IH.
  - by rewrite Hblank.
Qed.

(** A string is what [trimEnd] keeps of it, and white space. *)
Lemma trimEnd_split (s : string) : ∃ w, s = trimEnd s +:+ w ∧ trimStart w = "".
Proof.
  induction s as [|c s (w & Hs & Hw)]; [by exists ""|].
  cbn [trimEnd]. destruct (isBlank (String c s)) eqn:Hblank.
  - exists (String c s). split; [done|]. by apply String.eqb_eq.
  - exists w. split; [|done]. by rewrite append_cons, <- Hs.
Qed.

Lemma trimEnd_keeps_text (c : Ascii.ascii) (s : string) :
  isBlank (String c s) = false → isBlank (String c (trimEnd s)) = false.
Proof.
  intros Hblank. destruct (isBlank (String c (trimEnd s))) eqn:Hkept; [|done].
  apply String.eqb_eq in Hkept.
  destruct (trimEnd_split s) as (w & Hs & Hw).
  assert (Hall : trimStart (String c s) = "").
  { rewrite Hs at 1. rewrite <- append_cons.
    by rewrite (trimStart_app_blank _ w Hkept). }
  unfold isBlank in Hblank. by rewrite Hall in Hblank.
Qed.

Lemma trimEnd_idempotent (s : string) : trimEnd (trimEnd s) = trimEnd s.
Proof.
  induction s as [|c s IH]; [done|].
  cbn [trimEnd]. destruct (isBlank (String c s)) eqn:Hblank; [done|].
  cbn [trimEnd]. by rewrite (trimEnd_keeps_text c s Hblank), IH.
Qed.

Lemma trimEnd_no_lead (s : string) :
  afterWhiteSpace s = None → afterWhiteSpace (trimEnd s) = None.
Proof.
  intros Hnone. destruct (afterWhiteSpace (trimEnd s)) as [rest|] eqn:Hrest; [|done].
  destruct (trimEnd_split s) as (w & Hs & _).
  rewrite Hs, (afterWhiteSpace_app _ rest w Hrest) in Hnone. done.
Qed.

(** Trimming what is trimmed changes nothing. *)
Lemma trim_idempotent (s : string) : trim (trim s) = trim s.
Proof.
  unfold trim.
  rewrite (trimStart_id (trimEnd (trimStart s)))
    by apply trimEnd_no_lead, trimStart_no_lead.
  apply trimEnd_idempotent.
Qed.

Lemma trimEnd_no_trail (s : string) : endsWithWhiteSpace (trimEnd s) = false.
Proof.
  induction s as [|c s IH]; [done|].
  cbn [trimEnd]. destruct (isBlank (String c s)) eqn:Hblank; [done|].
  cbn [endsWithWhiteSpace]. rewrite IH, orb_false_r.
  apply bool_decide_eq_false_2. intros Hlast.
  pose proof (trimEnd_keeps_text c s Hblank) as Hkept.
  unfold isBlank in Hkept. by rewrite trimStart_eq, Hlast in Hkept.
Qed.

End TrimFacts.

Module NameFacts.
Import ComponentProcessor ClassifierLemmas StringFacts.

(** An entry with a name part, whatever the registry says of its kind. *)
Lemma parseMetadataEntry_with_name
    (getTypeByName : option string → string → result MetadataType)
    (projectDir : option string) (kind rest : string) :
  includes kind ":" = false →
  parseMetadataEntry getTypeByName (kind +:+ ":" +:+ rest) projectDir
    = match getTypeByName projectDir (trim kind) with
      | Ok type =>
          Some {| requested_type := type_name type;
                  requested_componentName :=
                    if trim rest =? "*" then None else Some (trim rest) |}
      | Throw _ => None
      end.
Proof.
  intros Hkind. unfold parseMetadataEntry.
  change (kind +:+ ":" +:+ rest) with (kind +:+ String ":" rest).
  rewrite split_with_suffix by done.
  assert (Hlen : (0 <? length (split ":" rest))%nat = true).
  { pose proof (split_nonempty ":" rest). by destruct (split ":" rest). }
  simpl. destruct (getTypeByName projectDir (trim kind)) as [type|error]; [|done].
  simpl. rewrite Hlen. by rewrite (join_split ":" rest).
Qed.

End NameFacts.

Module BundleKeyFacts.
Import FileReader EnrichmentHandler ExtraSpec BundleFacts.
Section WithPath.
Context {path : NodePath}.

(** A file that was read is a readable content file with its text. *)
Lemma readComponentFiles_on_disk fs component n file :
  componentNameOf component = Some n →
  truthy n = true →
  file ∈ readComponentFiles fs component →
  filePath file ∈ walkContent component
  ∧ Fs.readFile fs (filePath file) = Ok (fileContents file).
Proof.
  intros Hname Htruthy. rewrite (readComponentFiles_named fs component n) by done.
  unfold dropNull. intros Hfile.
  apply list_elem_of_omap in Hfile as (made & Hmade & Heq).
  apply list_elem_of_fmap in Hmade as (p & -> & Hp). simpl in Heq.
  rewrite readFileMetadata_readable in Heq.
  destruct (readable fs p); [|done].
  destruct (Fs.files fs !! p) as [data|] eqn:Hdata; [|done].
  simpl in Heq. injection Heq as <-. simpl. unfold Fs.readFile. by rewrite Hdata.
Qed.

(** A readable content path is the path of a file that was read. *)
Lemma readComponentFiles_of_readable fs component n p :
  componentNameOf component = Some n →
  truthy n = true →
  p ∈ walkContent component →
  readable fs p = true →
  ∃ file, file ∈ readComponentFiles fs component ∧ filePath file = p.
Proof.
  intros Hname Htruthy Hp Hreadable.
  assert (Hpath : p ∈ map filePath (readComponentFiles fs component)).
  { rewrite (readComponentFiles_named fs component n) by done.
    rewrite dropNull_map_read. apply list_elem_of_In, filter_In.
    split; [by apply list_elem_of_In|done]. }
  apply list_elem_of_fmap in Hpath as (file & -> & Hfile). eauto.
Qed.

End WithPath.
End BundleKeyFacts.

Module MimeFacts.
Import ExtraSpec.

Lemma MIME_TYPES_lookup (ext mime : string) :
  MIME_TYPES !! ext = Some mime ↔ (ext, mime) ∈ mimeTable.
Proof.
  unfold MIME_TYPES. fold mimeTable. split.
  - apply elem_of_list_to_map_2.
  - apply elem_of_list_to_map_1. apply (bool_decide_unpack _). by vm_compute.
Qed.

End MimeFacts.

Section MoreTheorems.
Import ComponentProcessor FileReader EnrichmentHandler ExtraSpec BundleFacts
  TrimFacts NameFacts BundleKeyFacts MimeFacts.
Context {path : NodePath}.
Variable getTypeByName : option string → string → result MetadataType.

(** X22. White space around the name part of an entry is insignificant,
    be it a space, a tab, a line terminator, U+00A0, U+FEFF or another white
    space of ECMAScript: [kind:rest] parses as [kind:rest'] does, [rest']
    being [rest] trimmed, and the name parsed is [rest'], which neither
    begins nor ends with a white-space code point. *)
Theorem parseMetadataEntry_ignores_space_around_name
    (projectDir : option string) (kind rest : string) :
  includes kind ":" = false →
  parseMetadataEntry getTypeByName (kind +:+ ":" +:+ rest) projectDir
    = parseMetadataEntry getTypeByName (kind +:+ ":" +:+ trim rest) projectDir
  ∧ ∀ parsed n,
      parseMetadataEntry getTypeByName (kind +:+ ":" +:+ rest) projectDir = Some parsed →
      requested_componentName parsed = Some n →
      n = trim rest ∧ startsWithWhiteSpace n = false ∧ endsWithWhiteSpace n = false.
Proof.
  intros Hkind.
  rewrite !(parseMetadataEntry_with_name getTypeByName projectDir kind) by done.
  rewrite trim_idempotent. split; [done|].
  intros parsed n Hparsed Hname.
  destruct (getTypeByName projectDir (trim kind)) as [type|error]; [|done].
  injection Hparsed as <-. simpl in Hname.
  destruct (trim rest =? "*"); [done|]. injection Hname as <-.
  split_and!; [done| |].
  - apply bool_decide_eq_false_2. intros [after Hafter].
    unfold trim in Hafter. by rewrite (trimEnd_no_lead _ (trimStart_no_lead rest)) in Hafter.
  - apply trimEnd_no_trail.
Qed.

(** X23. The MIME type of a file is looked up by its extension in lower
    case: a file whose extension is one of the five known ones, in any case,
    gets the type of the table, and every other file, one without extension
    included, gets "application/octet-stream"; the type is never empty. *)
Theorem getMimeTypeFromExtension_by_lower_case_extension (filePath' : string) :
  (∀ ext mime, (ext, mime) ∈ mimeTable →
     toLowerCase (extname filePath') = ext →
     getMimeTypeFromExtension filePath' = mime)
  ∧ ((∀ mime, (toLowerCase (extname filePath'), mime) ∉ mimeTable) →
     getMimeTypeFromExtension filePath' = "application/octet-stream")
  ∧ getMimeTypeFromExtension filePath' ≠ "".
Proof.
  unfold getMimeTypeFromExtension. cbv zeta. split_and!.
  - intros ext mime Hin <-. apply MIME_TYPES_lookup in Hin as Hlookup. rewrite Hlookup.
    repeat (apply elem_of_cons in Hin as [[= _ ->]|Hin]; [done|]).
    by apply elem_of_nil in Hin.
  - intros Hnone.
    destruct (MIME_TYPES !! toLowerCase (extname filePath')) as [mime|] eqn:Hlookup; [|done].
    apply MIME_TYPES_lookup in Hlookup. by destruct (Hnone mime).
  - destruct (MIME_TYPES !! toLowerCase (extname filePath')) as [mime|] eqn:Hlookup; [|done].
    apply MIME_TYPES_lookup in Hlookup as Hin.
    repeat (apply elem_of_cons in Hin as [[= _ ->]|Hin]; [done|]).
    by apply elem_of_nil in Hin.
Qed.

(** X24. The bundle of a request record holds the readable content files of
    its component under their base names: a key is present exactly when it
    is not [__proto__] and a readable content path of the component has that
    base name, and the entry under it bears that name and the text of such a
    file. *)
Theorem request_bundle_holds_the_readable_files
    (fs : Fs.FileSystem) (components : list SourceComponent)
    (record : EnrichmentRequestRecord) :
  record ∈ createEnrichmentRequestRecords fs components →
  ∃ component bundle,
    component ∈ components
    ∧ componentNameOf component = Some (componentName record)
    ∧ contentBundles (requestBody record) = [bundle]
    ∧ (∀ key, is_Some (bundle_files bundle !! key)
              ↔ key ≠ "__proto__"
                ∧ ∃ p, p ∈ walkContent component ∧ readable fs p = true
                       ∧ basename p = key)
    ∧ ∀ key entry, bundle_files bundle !! key = Some entry →
        filename entry = key
        ∧ ∃ p, p ∈ walkContent component
               ∧ basename p = key
               ∧ Fs.readFile fs p = Ok (content entry).
Proof.
  intros Hrecord.
  apply createEnrichmentRequestRecords_origin in Hrecord
    as (component & n & Hin & Hname & Htruthy & _ & ->).
  exists component, (createContentBundle n (readComponentFiles fs component)).
  assert (Hfile : ∀ key file,
            file ∈ List.filter (λ file, bool_decide (basename (filePath file) = key))
                     (readComponentFiles fs component) →
            basename (filePath file) = key
            ∧ filePath file ∈ walkContent component
            ∧ Fs.readFile fs (filePath file) = Ok (fileContents file)).
  { intros key file Hfile. apply list_elem_of_In, filter_In in Hfile as [Hfile Hkey].
    apply bool_decide_eq_true_1 in Hkey. apply list_elem_of_In in Hfile.
    destruct (readComponentFiles_on_disk fs component n file Hname Htruthy Hfile).
    by split_and!. }
  split_and!; [done|done|done| |].
  - intros key. rewrite createContentBundle_lookup.
    destruct (String.eqb_spec key "__proto__") as [Hproto|Hplain].
    { split; [by intros [? ?]|by intros [? _]]. }
    split.
    + intros [entry Hentry]. split; [done|].
      destruct (last _) as [file|] eqn:Hlast; [|done].
      apply last_Some_elem_of in Hlast.
      destruct (Hfile key file Hlast) as (Hkey & Hp & Htext).
      exists (filePath file). split_and!; [done| |done].
      apply bool_decide_eq_true_2. unfold Fs.readFile in Htext.
      by destruct (Fs.files fs !! filePath file).
    + intros (_ & p & Hp & Hreadable & Hkey).
      destruct (readComponentFiles_of_readable fs component n p Hname Htruthy Hp Hreadable)
        as (file & Hread & <-).
      assert (Hkept : file ∈ List.filter
                (λ file, bool_decide (basename (filePath file) = key))
                (readComponentFiles fs component)).
      { apply list_elem_of_In, filter_In. split; [by apply list_elem_of_In|].
        by apply bool_decide_eq_true_2. }
      destruct (List.filter _ (readComponentFiles fs component)) as [|f l] eqn:Hfilter;
        [by apply elem_of_nil in Hkept|].
      destruct (last (f :: l)) as [latest|] eqn:Hlast; [by eexists|].
      by apply last_None in Hlast.
  - intros key entry. rewrite createContentBundle_lookup.
    destruct (key =? "__proto__"); [done|].
    destruct (last _) as [file|] eqn:Hlast; [|done].
    intros [= <-]. apply last_Some_elem_of in Hlast.
    destruct (Hfile key file Hlast) as (Hkey & Hp & Htext).
    split; [done|]. exists (filePath file). by split_and!.
Qed.

End MoreTheorems.

Lemma parseMetadataEntry_ignores_space_around_name_witness :
  let noBreakSpace := bytes [0xC2; 0xA0]%N in
  let lineSeparator := bytes [0xE2; 0x80; 0xA8]%N in
  includes "ApexClass" ":" = false
  ∧ ComponentProcessor.parseMetadataEntry Fixture.getTypeByName
      ("ApexClass" +:+ ":" +:+ (noBreakSpace +:+ " Util" +:+ lineSeparator)) None
    = ComponentProcessor.parseMetadataEntry Fixture.getTypeByName
        ("ApexClass" +:+ ":" +:+ "Util") None.
Proof.
  intros noBreakSpace lineSeparator. split; [reflexivity|].
  exact (proj1 (parseMetadataEntry_ignores_space_around_name Fixture.getTypeByName None
                  "ApexClass" (noBreakSpace +:+ " Util" +:+ lineSeparator) eq_refl)).
Defined.

Lemma request_bundle_holds_the_readable_files_witness :
  let both := Fixture.component "alpha" Fixture.lwc (Some "lwc/alpha/alpha.js-meta.xml")
                ["lwc/alpha/alpha.js"; "lwc/alpha/alpha.css"] in
  ∃ record,
    EnrichmentHandler.createEnrichmentRequestRecords (path := Fixture.path) Fixture.fs [both]
      = [record]
    ∧ ∃ bundle,
        contentBundles (requestBody record) = [bundle]
        ∧ is_Some (bundle_files bundle !! "alpha.js")
        ∧ ¬ is_Some (bundle_files bundle !! "alpha.css").
Proof.
  intros both.
  destruct (EnrichmentHandler.createEnrichmentRequestRecords (path := Fixture.path)
              Fixture.fs [both]) as [|record [|? ?]] eqn:Hrecords; try by vm_compute in Hrecords.
  exists record. split; [reflexivity|].
  assert (Hrecord : record ∈ EnrichmentHandler.createEnrichmentRequestRecords
                      (path := Fixture.path) Fixture.fs [both])
    by (rewrite Hrecords; apply list_elem_of_here).
  destruct (request_bundle_holds_the_readable_files (path := Fixture.path) Fixture.fs
              [both] record Hrecord)
    as (component & bundle & Hin & _ & Hbundle & Hkeys & _).
  apply list_elem_of_singleton in Hin as ->.
  exists bundle. split_and!; [exact Hbundle| |].
  - apply Hkeys. split; [done|].
    exists "lwc/alpha/alpha.js". split_and!; [apply list_elem_of_here|done|done].
  - intros Hcss. apply Hkeys in Hcss as (_ & p & Hp & Hreadable & Hkey).
    apply elem_of_cons in Hp as [->|Hp]; [by vm_compute in Hkey|].
    apply list_elem_of_singleton in Hp as ->. by vm_compute in Hreadable.
Defined.
